(** * lighthouse-results-badger: a shallow embedding of [src/index.ts]

    The action reads the Lighthouse reports of a directory, renders one
    badge per configured category and uploads badges (and optionally the
    reports) to S3 or to Azure Blob Storage.

    Layout of the development:
    - [JSString]  : JavaScript strings as sequences of UTF-16 code units and
                    the string methods the action calls;
    - [Buffer]    : byte buffers, and the UTF-8 bytes of a string;
    - [Regex]     : a small backtracking matcher, and the regular expression
                    the action uses to strip the origin of a URL;
    - [Number]    : IEEE-754 binary64 numbers ([SpecFloat]), [Math.ceil] and
                    [Number.prototype.toString];
    - [Value]     : values produced by [JSON.parse], property reads,
                    truthiness, [ToNumber];
    - [Action]    : the state-and-exception monad of the action, the file
                    system, the log of effects, [uploadToS3],
                    [uploadToAzure] and [run];
    - [Posix], [Sample] : a concrete runtime and small directories, for
                    the examples;
    - the vocabulary of the theorems, then the theorems. *)

From Stdlib Require Import ZArith NArith List Lia Bool QArith Qround.
From Stdlib Require Import Strings.String Strings.Ascii Numbers.DecimalString.
From Stdlib Require Import Floats.SpecFloat.
From stdpp Require Import base option list gmap.

Set Warnings "-register-all".

Local Open Scope Z_scope.
Local Open Scope list_scope.

(** ** JavaScript strings *)

Module JSString.

(** A UTF-16 code unit. *)
Definition char := N.

Definition jsstring := list char.

(** String literals of the source: every character of a literal of
    [index.ts] is ASCII, so its code unit is its ASCII code. *)
Definition str (s : string) : jsstring :=
  List.map N_of_ascii (list_ascii_of_string s).

Definition ch (a : ascii) : char := N_of_ascii a.

Definition eqb (s t : jsstring) : bool := bool_decide (s = t).

(** [s.startsWith(p)] *)
Fixpoint startsWith (p s : jsstring) : bool :=
  match p, s with
  | [], _ => true
  | _ :: _, [] => false
  | a :: p', b :: s' => N.eqb a b && startsWith p' s'
  end.

(** [s.endsWith(p)] *)
Definition endsWith (p s : jsstring) : bool :=
  startsWith (rev p) (rev s).

(** First occurrence of [pat] in [s]: the text before it and the text
    after it. *)
Fixpoint find_first (pat s : jsstring) : option (jsstring * jsstring) :=
  if startsWith pat s then Some ([], List.skipn (List.length pat) s)
  else match s with
       | [] => None
       | c :: s' =>
           match find_first pat s' with
           | Some (pre, post) => Some (c :: pre, post)
           | None => None
           end
       end.

(** ECMAScript [GetSubstitution] for a string pattern (no captures):
    [$$] is a dollar, [$&] the matched text, [$`] the text before the
    match, [$'] the text after it; every other [$] stands for itself. *)
Fixpoint GetSubstitution (matched pre post r : jsstring) : jsstring :=
  match r with
  | [] => []
  | c :: r' =>
      if N.eqb c (ch "$") then
        match r' with
        | [] => [c]
        | d :: r'' =>
            if N.eqb d (ch "$") then ch "$" :: GetSubstitution matched pre post r''
            else if N.eqb d (ch "&") then matched ++ GetSubstitution matched pre post r''
            else if N.eqb d (ch "`") then pre ++ GetSubstitution matched pre post r''
            else if N.eqb d (ch "'") then post ++ GetSubstitution matched pre post r''
            else c :: GetSubstitution matched pre post r'
        end
      else c :: GetSubstitution matched pre post r'
  end.

(** [s.replace(pat, repl)] with a string pattern: only the first
    occurrence is replaced. *)
Definition replace (s pat repl : jsstring) : jsstring :=
  match find_first pat s with
  | None => s
  | Some (pre, post) => pre ++ GetSubstitution pat pre post repl ++ post
  end.

(** [s.split(sep)] for a separator of one code unit. *)
Fixpoint split (sep : char) (s : jsstring) : list jsstring :=
  match s with
  | [] => [[]]
  | c :: s' =>
      if N.eqb c sep then [] :: split sep s'
      else match split sep s' with
           | h :: t => (c :: h) :: t
           | [] => [[c]]
           end
  end.

(** ECMAScript WhiteSpace and LineTerminator code points. *)
Definition isWhiteSpace (c : char) : bool :=
  let n := Z.of_N c in
  (9 <=? n) && (n <=? 13)
  || (n =? 32) || (n =? 160) || (n =? 5760)
  || (8192 <=? n) && (n <=? 8202)
  || (n =? 8232) || (n =? 8233) || (n =? 8239) || (n =? 8287)
  || (n =? 12288) || (n =? 65279).

Fixpoint trimStart (s : jsstring) : jsstring :=
  match s with
  | [] => []
  | c :: s' => if isWhiteSpace c then trimStart s' else s
  end.

(** [s.trim()] *)
Definition trim (s : jsstring) : jsstring :=
  rev (trimStart (rev (trimStart s))).

(** Decimal digits of an integer, as [Number.prototype.toString] prints
    integers. *)
Definition decimal (z : Z) : jsstring :=
  str (NilZero.string_of_int (Z.to_int z)).

End JSString.

Import JSString.

(** ** Buffers *)

Module Buffer.

(** A byte, and a Node [Buffer]: what a file holds and what an upload
    sends. *)
Definition byte := N.
Record Buffer := mkBuffer { bytes : list byte }.

(** [buffer.length] *)
Definition byteLength (b : Buffer) : nat := List.length (bytes b).

Definition isHighSurrogate (c : char) : bool :=
  (55296 <=? c)%N && (c <? 56320)%N.
Definition isLowSurrogate (c : char) : bool :=
  (56320 <=? c)%N && (c <? 57344)%N.

(** The UTF-8 bytes of a code point. *)
Definition utf8_code_point (cp : N) : list byte :=
  if (cp <? 128)%N then [cp]
  else if (cp <? 2048)%N then [192 + cp / 64; 128 + cp mod 64]%N
  else if (cp <? 65536)%N
  then [224 + cp / 4096; 128 + (cp / 64) mod 64; 128 + cp mod 64]%N
  else [240 + cp / 262144; 128 + (cp / 4096) mod 64;
        128 + (cp / 64) mod 64; 128 + cp mod 64]%N.

(** The UTF-8 bytes of a string: a surrogate pair is one code point of
    four bytes, and a surrogate that has no partner is written as
    U+FFFD. *)
Fixpoint utf8_bytes (s : jsstring) : list byte :=
  match s with
  | [] => []
  | c :: s' =>
      if isHighSurrogate c then
        match s' with
        | d :: s'' =>
            if isLowSurrogate d
            then utf8_code_point (65536 + (c - 55296) * 1024 + (d - 56320))
                   ++ utf8_bytes s''
            else utf8_code_point 65533 ++ utf8_bytes s'
        | [] => utf8_code_point 65533
        end
      else if isLowSurrogate c then utf8_code_point 65533 ++ utf8_bytes s'
      else utf8_code_point c ++ utf8_bytes s'
  end.

(** [Buffer.from(s, 'utf8')], which is what [fs.writeFileSync] stores of a
    string. *)
Definition utf8 (s : jsstring) : Buffer := mkBuffer (utf8_bytes s).

End Buffer.

Import Buffer.

(** ** Regular expressions *)

Module Regex.

(** The fragment of the regular-expression syntax that [index.ts] uses:
    a literal, the start anchor [^], one-or-more of a character class
    (greedy), sequence, alternation. *)
Inductive regex :=
| Lit (s : jsstring)
| Bol
| Plus (cls : char -> bool)
| Seq (r1 r2 : regex)
| Alt (r1 r2 : regex).

(** [\w] *)
Definition word (c : char) : bool :=
  let n := Z.of_N c in
  (48 <=? n) && (n <=? 57) || (65 <=? n) && (n <=? 90)
  || (n =? 95) || (97 <=? n) && (n <=? 122).

(** [[^/]] *)
Definition notSlash (c : char) : bool := negb (N.eqb c (ch "/")).

(** Greedy [cls*] with backtracking: the longest run is tried first,
    then the shorter ones. *)
Fixpoint star_k (cls : char -> bool) (k : jsstring -> option jsstring)
         (s : jsstring) : option jsstring :=
  match s with
  | c :: s' =>
      if cls c then
        match star_k cls k s' with
        | Some rest => Some rest
        | None => k s
        end
      else k s
  | [] => k s
  end.

(** Greedy [cls+]: one character of the class, then [cls*]. *)
Definition plus_k (cls : char -> bool) (k : jsstring -> option jsstring)
           (s : jsstring) : option jsstring :=
  match s with
  | c :: s' => if cls c then star_k cls k s' else None
  | [] => None
  end.

(** [matchK r atStart s k]: match [r] at the head of [s], then the
    continuation [k] on what is left; [atStart] tells whether the head of
    [s] is the start of the input. Alternatives are tried left to right.
    The result is the text left once the whole match succeeded. *)
Fixpoint matchK (r : regex) (atStart : bool) (s : jsstring)
         (k : bool -> jsstring -> option jsstring) : option jsstring :=
  match r with
  | Lit l =>
      if startsWith l s
      then k (atStart && Nat.eqb (List.length l) 0) (List.skipn (List.length l) s)
      else None
  | Bol => if atStart then k atStart s else None
  | Plus cls => plus_k cls (k false) s
  | Seq r1 r2 => matchK r1 atStart s (fun b s1 => matchK r2 b s1 k)
  | Alt r1 r2 =>
      match matchK r1 atStart s k with
      | Some rest => Some rest
      | None => matchK r2 atStart s k
      end
  end.

(** First match of [r] in [s], scanning the start positions from the
    left: the text before the match and the text after it. *)
Fixpoint exec_from (r : regex) (atStart : bool) (s : jsstring)
  : option (jsstring * jsstring) :=
  match matchK r atStart s (fun _ rest => Some rest) with
  | Some rest => Some ([], rest)
  | None =>
      match s with
      | [] => None
      | c :: s' =>
          match exec_from r false s' with
          | Some (pre, post) => Some (c :: pre, post)
          | None => None
          end
      end
  end.

(** [s.replace(r, '')] for a regular expression without the [g] flag. *)
Definition replace_empty (r : regex) (s : jsstring) : jsstring :=
  match exec_from r true s with
  | Some (pre, post) => pre ++ post
  | None => s
  end.

(** [/(^\w+:|^)\/\/[^/]+/] *)
Definition origin_re : regex :=
  Seq (Alt (Seq Bol (Seq (Plus word) (Lit (str ":")))) Bol)
      (Seq (Lit (str "//")) (Plus notSlash)).

End Regex.

Import Regex.

(** ** Numbers *)

Module Number.

(** An ECMAScript Number is an IEEE-754 binary64 value. *)
Definition number := spec_float.

Definition prec : Z := 53.
Definition emax : Z := 1024.

Definition NaN : number := S754_nan.

(** The Number of an integer literal of the source. *)
Definition of_Z (z : Z) : number := binary_normalize prec emax z 0 false.

(** [x * y] *)
Definition mul (x y : number) : number := SFmul prec emax x y.

(** The rational a finite Number stands for; [None] for NaN and the
    infinities. *)
Definition to_Q (x : number) : option Q :=
  match x with
  | S754_zero _ => Some 0%Q
  | S754_finite s m e =>
      Some (if 0 <=? e then inject_Z (cond_Zopp s (Zpos m) * 2 ^ e)
            else Qmake (cond_Zopp s (Zpos m)) (2 ^ Z.to_pos (- e)))
  | _ => None
  end.

(** The Numbers [Math.ceil] returns: NaN, an infinity, or an integer (the
    Number is represented by the integer it stands for; [-0] is [0], the
    program cannot tell them apart). *)
Inductive integral :=
| INaN
| IInf (negative : bool)
| IInt (z : Z).

(** [Math.ceil(x)] *)
Definition Math_ceil (x : number) : integral :=
  match x with
  | S754_nan => INaN
  | S754_infinity s => IInf s
  | S754_zero _ => IInt 0
  | S754_finite s m e =>
      let z := cond_Zopp s (Zpos m) in
      IInt (if 0 <=? e then z * 2 ^ e else - ((- z) / 2 ^ (- e)))
  end.

(** [x >= n] for an integer literal [n]: false on NaN. *)
Definition geb (x : integral) (n : Z) : bool :=
  match x with
  | INaN => false
  | IInf negative => negb negative
  | IInt z => n <=? z
  end.

(** [x.toString()]. Below 2^53 every integer is a Number and prints as
    its decimal digits. From 2^53 on ECMAScript prints the shortest digits
    that read back as the same Number, padded with zeros, and from 1e21 on
    in the exponent notation: [large] stands for that text. *)
Definition toString (large : Z -> jsstring) (x : integral) : jsstring :=
  match x with
  | INaN => str "NaN"
  | IInf false => str "Infinity"
  | IInf true => str "-Infinity"
  | IInt z => if Z.abs z <? 2 ^ 53 then decimal z else large z
  end.

End Number.

Import Number.

(** ** Values *)

Module Value.

(** A thrown exception, as far as the action looks at it:
    [error.message]. *)
Record Error := mkError { message : jsstring }.

(** A completion: a value, or a throw. *)
Inductive Res (A : Type) :=
| Ok (a : A)
| Throw (e : Error).
Arguments Ok {A} a.
Arguments Throw {A} e.

Definition TypeError (msg : string) : Error := mkError (str msg).

(** The values [JSON.parse] builds, and [undefined], which property
    reads produce. An object is the list of its own properties. *)
Inductive value :=
| VUndefined
| VNull
| VBool (b : bool)
| VNumber (x : number)
| VString (s : jsstring)
| VArray (elems : list value)
| VObject (props : list (jsstring * value)).

(** ToBoolean *)
Definition truthy (v : value) : bool :=
  match v with
  | VUndefined | VNull => false
  | VBool b => b
  | VNumber (S754_zero _) | VNumber S754_nan => false
  | VNumber _ => true
  | VString [] => false
  | VString _ => true
  | VArray _ | VObject _ => true
  end.

Fixpoint lookup_prop (key : jsstring) (props : list (jsstring * value))
  : option value :=
  match props with
  | [] => None
  | (k, v) :: ps => if JSString.eqb k key then Some v else lookup_prop key ps
  end.

(** The array index a property key denotes, if it is in range: the key
    has to be the canonical decimal form of the index. *)
Definition array_index (key : jsstring) (len : nat) : option nat :=
  List.find (fun i => JSString.eqb (decimal (Z.of_nat i)) key) (List.seq 0 len).

(** [v[key]] (and [v.key]). Reading a property of [null] or [undefined]
    throws. Only own properties are modelled: a member inherited from a
    built-in prototype reads as [undefined]. The action does two things
    with what it reads: it tests [categories] and [finalUrl], names that
    no built-in prototype defines, and it reads [?.score] off
    [categories[label]], which is [undefined] on every built-in member as
    it is on [undefined]. *)
Definition Get (v : value) (key : jsstring) : Res value :=
  match v with
  | VUndefined =>
      Throw (mkError (str "Cannot read properties of undefined (reading '"
                        ++ key ++ str "')"))
  | VNull =>
      Throw (mkError (str "Cannot read properties of null (reading '"
                        ++ key ++ str "')"))
  | VBool _ | VNumber _ => Ok VUndefined
  | VString s =>
      if JSString.eqb key (str "length")
      then Ok (VNumber (of_Z (Z.of_nat (List.length s))))
      else match array_index key (List.length s) with
           | Some i => Ok (match List.nth_error s i with
                           | Some c => VString [c]
                           | None => VUndefined
                           end)
           | None => Ok VUndefined
           end
  | VArray l =>
      if JSString.eqb key (str "length")
      then Ok (VNumber (of_Z (Z.of_nat (List.length l))))
      else match array_index key (List.length l) with
           | Some i => Ok (List.nth i l VUndefined)
           | None => Ok VUndefined
           end
  | VObject props =>
      Ok (match lookup_prop key props with
          | Some x => x
          | None => VUndefined
          end)
  end.

(** [v?.key] *)
Definition OptGet (v : value) (key : jsstring) : Res value :=
  match v with
  | VUndefined | VNull => Ok VUndefined
  | _ => Get v key
  end.

Section ToNumber.

(** The parts of ToNumber left to the runtime: StringToNumber, and the
    conversion of an array (its elements joined, then read as a
    string), which can throw. *)
Variable StringToNumber : jsstring -> number.
Variable ArrayToNumber : list value -> Res number.

(** ToNumber, as the multiplication applies it to its left operand. An
    object parsed from JSON has no callable member of its own: with an
    own [toString] property neither [valueOf] nor [toString] yields a
    primitive and the conversion throws; otherwise
    [Object.prototype.toString] gives ["[object Object]"], which is
    NaN. *)
Definition ToNumber (v : value) : Res number :=
  match v with
  | VUndefined => Ok NaN
  | VNull => Ok (S754_zero false)
  | VBool true => Ok (of_Z 1)
  | VBool false => Ok (S754_zero false)
  | VNumber x => Ok x
  | VString s => Ok (StringToNumber s)
  | VArray l => ArrayToNumber l
  | VObject props =>
      match lookup_prop (str "toString") props with
      | Some _ => Throw (TypeError "Cannot convert object to primitive value")
      | None => Ok NaN
      end
  end.

End ToNumber.

End Value.

Import Value.

(** ** The action *)

Module Action.

(** What the S3 client is given: its credentials and the parameters of
    [s3.upload]. *)
Record S3Request := mkS3Request {
  accessKeyId : jsstring;
  secretAccessKey : jsstring;
  region : jsstring;
  Bucket : jsstring;
  Key : jsstring;
  Body : Buffer;
  ContentType : jsstring;
}.

(** What the Azure client is given: the account, its key, the container,
    the blob name and the arguments of [blockBlobClient.upload]. *)
Record AzureRequest := mkAzureRequest {
  accountName : jsstring;
  accountKey : jsstring;
  containerName : jsstring;
  blobName : jsstring;
  content : Buffer;
  contentLength : nat;
  blobContentType : jsstring;
}.

(** The effects of a run that its environment observes. *)
Inductive Event :=
| EWarning (msg : jsstring)
| EInfo (msg : jsstring)
| ESetFailed (msg : jsstring)
| ESetOutput (name value : jsstring)
| EWriteFile (path data : jsstring)
| ES3Upload (req : S3Request)
| EAzureUpload (req : AzureRequest).

(** The state a run threads: the file system and the log of effects,
    latest first. The file system is the listing of every directory and
    the bytes of every file, each under the path the action names it
    by. *)
Record World := mkWorld {
  dirs : gmap jsstring (list jsstring);
  files : gmap jsstring Buffer;
  log : list Event;
}.

(** The effects in the order they happened. *)
Definition trace (w : World) : list Event := rev (log w).

(** What the action takes from its runtime and from the libraries it
    imports: the working directory; [buffer.toString('utf-8')] and
    [JSON.parse]; the parts of ToNumber and of [Number.prototype.toString]
    that are left to the runtime; [badgen]; [path.join], [path.basename]
    and the directory a path lies in; the two storage backends. The
    answer of a storage backend may depend on everything that happened
    before the call. The clients of Azure are built before the upload:
    [azure_container_client] is lines 129 to 132 (the credential, the
    service client and the container client, from the account, its key
    and the name of the container), [azure_blob_client] is line 135 (the
    blob client, from the name of the blob as well); each returns or
    throws. *)
Record Runtime := mkRuntime {
  cwd : jsstring;
  Buffer_toString : Buffer -> jsstring;
  JSON_parse : jsstring -> Res value;
  StringToNumber : jsstring -> number;
  ArrayToNumber : list value -> Res number;
  large_toString : Z -> jsstring;
  badgen : jsstring -> jsstring -> jsstring -> jsstring;
  path_join : jsstring -> jsstring -> jsstring;
  path_basename : jsstring -> jsstring;
  path_dirname : jsstring -> jsstring;
  s3_upload : list Event -> S3Request -> Res jsstring;
  azure_container_client : jsstring -> jsstring -> jsstring -> Res unit;
  azure_blob_client : jsstring -> jsstring -> jsstring -> jsstring -> Res unit;
  azure_upload : list Event -> AzureRequest -> Res unit;
  azure_url : AzureRequest -> jsstring;
}.

(** *** The monad: state and exceptions *)

Definition M (A : Type) : Type := World -> Res A * World.

Definition ret {A} (a : A) : M A := fun w => (Ok a, w).

Definition bind {A B} (m : M A) (k : A -> M B) : M B :=
  fun w => match m w with
           | (Ok a, w') => k a w'
           | (Throw e, w') => (Throw e, w')
           end.

Definition throw {A} (e : Error) : M A := fun w => (Throw e, w).

Definition lift {A} (r : Res A) : M A := fun w => (r, w).

(** [try { body } catch (error) { handler }] *)
Definition try_catch (body : M unit) (handler : Error -> M unit) : M unit :=
  fun w => match body w with
           | (Ok a, w') => (Ok a, w')
           | (Throw e, w') => handler e w'
           end.

Notation "x <- m ;; k" := (bind m (fun x => k))
  (at level 100, m at level 99, k at level 200, right associativity).
Notation "m ;;; k" := (bind m (fun _ => k))
  (at level 100, k at level 200, right associativity).

(** [for (const x of l) { body }] *)
Fixpoint for_each {A} (l : list A) (body : A -> M unit) : M unit :=
  match l with
  | [] => ret tt
  | x :: l' => body x ;;; for_each l' body
  end.

Definition emit (ev : Event) : M unit :=
  fun w => (Ok tt, mkWorld (dirs w) (files w) (ev :: log w)).

(** *** [@actions/core] *)

Definition core_warning (msg : jsstring) : M unit := emit (EWarning msg).
Definition core_info (msg : jsstring) : M unit := emit (EInfo msg).
Definition core_setFailed (msg : jsstring) : M unit := emit (ESetFailed msg).
Definition core_setOutput (name value : jsstring) : M unit :=
  emit (ESetOutput name value).

(** [core.getInput(name)]: the input of that name, trimmed; the empty
    string when it is not set. [inputs] holds the inputs of the action by
    name. *)
Definition core_getInput (inputs : gmap jsstring jsstring) (name : string)
  : jsstring :=
  trim (default [] (inputs !! str name)).

(** [s || d] on strings *)
Definition or_else (s d : jsstring) : jsstring :=
  match s with
  | [] => d
  | _ => s
  end.

(** *** [fs] *)

Definition readdirSync (path : jsstring) : M (list jsstring) :=
  fun w => match dirs w !! path with
           | Some names => (Ok names, w)
           | None =>
               (Throw (mkError (str "ENOENT: no such file or directory, scandir '"
                                  ++ path ++ str "'")), w)
           end.

(** [fs.readFileSync(path)]: the bytes of the file. *)
Definition readFileSync (path : jsstring) : M Buffer :=
  fun w => match files w !! path with
           | Some data => (Ok data, w)
           | None =>
               match dirs w !! path with
               | Some _ =>
                   (Throw (mkError
                             (str "EISDIR: illegal operation on a directory, read")),
                    w)
               | None =>
                   (Throw (mkError
                             (str "ENOENT: no such file or directory, open '"
                                ++ path ++ str "'")), w)
               end
           end.

Section Run.

Variable rt : Runtime.
Variable inputs : gmap jsstring jsstring.

(** Why the file system refuses to open [path] for writing, if it does:
    the directory the path lies in is not there, or is a file, or the
    path is a directory. *)
Definition write_error (w : World) (path : jsstring) : option Error :=
  match dirs w !! path_dirname rt path with
  | Some _ =>
      match dirs w !! path with
      | Some _ =>
          Some (mkError (str "EISDIR: illegal operation on a directory, open '"
                           ++ path ++ str "'"))
      | None => None
      end
  | None =>
      match files w !! path_dirname rt path with
      | Some _ =>
          Some (mkError (str "ENOTDIR: not a directory, open '"
                           ++ path ++ str "'"))
      | None =>
          Some (mkError (str "ENOENT: no such file or directory, open '"
                           ++ path ++ str "'"))
      end
  end.

(** The listings once [path] is a file: its name is an entry of the
    directory it lies in. A name the listing has stays where it is; a new
    name is put last (the order of a listing is the file system's, and
    the action reads no listing after a write). *)
Definition listed (path : jsstring) (d : gmap jsstring (list jsstring))
  : gmap jsstring (list jsstring) :=
  match d !! path_dirname rt path with
  | Some entries =>
      <[path_dirname rt path :=
          if List.existsb (JSString.eqb (path_basename rt path)) entries
          then entries
          else entries ++ [path_basename rt path]]> d
  | None => d
  end.

(** [fs.writeFileSync(path, data)] for a string: the file holds the UTF-8
    bytes of [data], or the write throws and nothing changes. *)
Definition writeFileSync (path data : jsstring) : M unit :=
  fun w => match write_error w path with
           | Some e => (Throw e, w)
           | None =>
               (Ok tt, mkWorld (listed path (dirs w))
                               (<[path := utf8 data]> (files w))
                               (EWriteFile path data :: log w))
           end.

(** [await s3.upload(params).promise()] *)
Definition s3_upload_promise (req : S3Request) : M jsstring :=
  fun w => (s3_upload rt (log w) req,
            mkWorld (dirs w) (files w) (ES3Upload req :: log w)).

(** [await blockBlobClient.upload(...)] *)
Definition azure_upload_promise (req : AzureRequest) : M unit :=
  fun w => (azure_upload rt (log w) req,
            mkWorld (dirs w) (files w) (EAzureUpload req :: log w)).

(** [uploadToS3]; [contentType] defaults to ['image/svg+xml']. *)
Definition uploadToS3 (filePath bucketName accessKeyId secretAccessKey
                         region rawName : jsstring)
           (contentType : option jsstring) : M unit :=
  let contentType := default (str "image/svg+xml") contentType in
  fileContent <- readFileSync filePath ;;
  let params :=
    mkS3Request accessKeyId secretAccessKey region
                bucketName rawName fileContent contentType in
  try_catch
    (Location <- s3_upload_promise params ;;
     core_setOutput (str "s3-url") Location ;;;
     core_info (str "Uploaded " ++ rawName ++ str " to S3: " ++ Location))
    (fun error =>
       core_setFailed (str "Failed to upload " ++ rawName ++ str " to S3: "
                         ++ message error)).

(** [uploadToAzure]. The clients are built outside the [try]: what their
    constructors throw reaches the caller. [fileContent.length] is the
    number of bytes of the buffer. *)
Definition uploadToAzure (filePath containerName accountName accountKey
                            : jsstring) : M unit :=
  lift (azure_container_client rt accountName accountKey containerName) ;;;
  fileContent <- readFileSync filePath ;;
  let blobName := path_basename rt filePath in
  lift (azure_blob_client rt accountName accountKey containerName blobName) ;;;
  let req :=
    mkAzureRequest accountName accountKey containerName blobName
                   fileContent (byteLength fileContent)
                   (str "image/svg+xml") in
  try_catch
    (azure_upload_promise req ;;;
     let blobUrl := azure_url rt req in
     core_setOutput (str "azure-blob-url") blobUrl ;;;
     core_info (str "Uploaded " ++ blobName ++ str " to Azure Blob Storage: "
                  ++ blobUrl))
    (fun error =>
       core_setFailed (str "Failed to upload " ++ blobName
                         ++ str " to Azure Blob Storage: " ++ message error)).

(** The inputs of the action, as the head of [run] reads them. *)
Definition reportsPath : jsstring :=
  or_else (core_getInput inputs "reports-path") (cwd rt).
Definition uploadDestination : jsstring :=
  or_else (core_getInput inputs "upload-destination") (str "s3").
Definition uploadReports : jsstring :=
  or_else (core_getInput inputs "upload-reports") (str "false").
Definition s3BucketName := core_getInput inputs "s3-bucket-name".
Definition s3AccessKeyId := core_getInput inputs "s3-access-key-id".
Definition s3SecretAccessKey := core_getInput inputs "s3-secret-access-key".
Definition s3Region := core_getInput inputs "s3-region".
Definition s3Prefix : jsstring :=
  or_else (core_getInput inputs "s3-prefix") [].
Definition azureContainerName := core_getInput inputs "azure-container-name".
Definition azureStorageAccountName :=
  core_getInput inputs "azure-storage-account-name".
Definition azureStorageAccountKey :=
  core_getInput inputs "azure-storage-account-key".
Definition resultCategories : list jsstring :=
  List.map trim (split (ch ",") (core_getInput inputs "result-categories")).

(** [Math.ceil(report.categories[label]?.score * 100)] *)
Definition percentage (categories : value) (label : jsstring) : Res integral :=
  match Get categories label with
  | Throw e => Throw e
  | Ok category =>
      match OptGet category (str "score") with
      | Throw e => Throw e
      | Ok score =>
          match ToNumber (StringToNumber rt) (ArrayToNumber rt) score with
          | Throw e => Throw e
          | Ok x => Ok (Math_ceil (mul x (of_Z 100)))
          end
      end
  end.

(** The colour of a score (lines 55 to 57). *)
Definition color_of (score : integral) : jsstring :=
  if geb score 90 then str "green"
  else if geb score 50 then str "orange"
  else str "red".

(** The URL path of a report (lines 48 to 50). [report] is known not to be
    [null] here; a [finalUrl] that is truthy and not a string has no
    [replace] method. *)
Definition urlPath_of (report : value) : Res jsstring :=
  match OptGet report (str "finalUrl") with
  | Throw e => Throw e
  | Ok finalUrl =>
      let url := if truthy finalUrl then finalUrl else VString (str "/main") in
      match url with
      | VString u =>
          let urlPath := replace_empty origin_re u in
          Ok (if JSString.eqb urlPath (str "/") then str "/main" else urlPath)
      | _ => Throw (TypeError "url.replace is not a function")
      end
  end.

(** [path.join(reportsPath, file.replace('report.json', `${label}.svg`))] *)
Definition svgFileName_of (file label : jsstring) : jsstring :=
  path_join rt reportsPath
    (replace file (str "report.json") (label ++ str ".svg")).

(** The body of the loop over the categories (lines 54 to 69). *)
Definition for_label (file : jsstring) (categories : value)
           (urlPath label : jsstring) : M unit :=
  score <- lift (percentage categories label) ;;
  let color := color_of score in
  let svg := badgen rt label (toString (large_toString rt) score) color in
  let svgFileName := svgFileName_of file label in
  writeFileSync svgFileName svg ;;;
  if JSString.eqb uploadDestination (str "s3") then
    let rawName := s3Prefix ++ urlPath ++ str "." ++ label ++ str ".svg" in
    uploadToS3 svgFileName s3BucketName s3AccessKeyId s3SecretAccessKey
               s3Region rawName None
  else if JSString.eqb uploadDestination (str "azure") then
    uploadToAzure svgFileName azureContainerName azureStorageAccountName
                  azureStorageAccountKey
  else ret tt.

(** The upload of the report itself (lines 73 to 80). *)
Definition upload_report (file urlPath : jsstring) : M unit :=
  if JSString.eqb uploadReports (str "true") then
    let rawName := s3Prefix ++ urlPath ++ str ".report.json" in
    if JSString.eqb uploadDestination (str "s3") then
      uploadToS3 (path_join rt reportsPath file) s3BucketName s3AccessKeyId
                 s3SecretAccessKey s3Region rawName
                 (Some (str "application/json"))
    else if JSString.eqb uploadDestination (str "azure") then
      uploadToAzure (path_join rt reportsPath file) azureContainerName
                    azureStorageAccountName azureStorageAccountKey
    else ret tt
  else ret tt.

(** The body of the loop over the report files (lines 39 to 80). The
    file is read as ['utf-8']: its bytes are decoded, then parsed. *)
Definition for_file (file : jsstring) : M unit :=
  buffer <- readFileSync (path_join rt reportsPath file) ;;
  report <- lift (JSON_parse rt (Buffer_toString rt buffer)) ;;
  categories <- lift (Get report (str "categories")) ;;
  if negb (truthy categories) then
    core_warning (str "Invalid file " ++ file)
  else
    urlPath <- lift (urlPath_of report) ;;
    for_each resultCategories (for_label file categories urlPath) ;;;
    upload_report file urlPath.

(** The [try] block of [run] (lines 11 to 82). *)
Definition run_try : M unit :=
  entries <- readdirSync reportsPath ;;
  let reportFiles := List.filter (endsWith (str ".report.json")) entries in
  if Nat.eqb (List.length reportFiles) 0 then
    core_warning (str "No Lighthouse reports found.")
  else
    for_each reportFiles for_file.

(** [run] *)
Definition run : M unit :=
  try_catch run_try
    (fun error =>
       core_setFailed (str "Action failed with error: " ++ message error)).

End Run.

End Action.

Import Action.

(** ** A concrete runtime, for the examples *)

Module Posix.

(** [path.basename(p)] of Node's POSIX [path]: the trailing slashes are
    dropped, then the text after the last slash is taken. *)
Fixpoint dropSlashes (s : jsstring) : jsstring :=
  match s with
  | [] => []
  | c :: s' => if notSlash c then s else dropSlashes s'
  end.

Fixpoint takeSegment (s : jsstring) : jsstring :=
  match s with
  | [] => []
  | c :: s' => if notSlash c then c :: takeSegment s' else []
  end.

Definition basename (p : jsstring) : jsstring :=
  rev (takeSegment (dropSlashes (rev p))).

Fixpoint dropSegment (s : jsstring) : jsstring :=
  match s with
  | [] => []
  | c :: s' => if notSlash c then dropSegment s' else s
  end.

(** Of a path read from its end: what is before the slash that is
    before the last segment, if there is such a slash. *)
Definition dropWhile_slash_segment (s : jsstring) : option jsstring :=
  match dropSegment (dropSlashes s) with
  | _ :: kept => Some kept
  | [] => None
  end.

(** [normalizeString]: [.] and empty segments are dropped, [..] removes the
    segment before it (and stays, in a relative path, when there is
    none). The stack holds the segments kept so far, last first. *)
Fixpoint normalizeSegments (allowAbove : bool) (segs stack : list jsstring)
  : list jsstring :=
  match segs with
  | [] => rev stack
  | seg :: segs' =>
      if JSString.eqb seg [] || JSString.eqb seg (str ".")
      then normalizeSegments allowAbove segs' stack
      else if JSString.eqb seg (str "..") then
        match stack with
        | top :: stack' =>
            if JSString.eqb top (str "..")
            then normalizeSegments allowAbove segs' (seg :: stack)
            else normalizeSegments allowAbove segs' stack'
        | [] =>
            if allowAbove
            then normalizeSegments allowAbove segs' [seg]
            else normalizeSegments allowAbove segs' []
        end
      else normalizeSegments allowAbove segs' (seg :: stack)
  end.

Fixpoint joinWith (sep : jsstring) (l : list jsstring) : jsstring :=
  match l with
  | [] => []
  | [x] => x
  | x :: l' => x ++ sep ++ joinWith sep l'
  end.

(** [path.normalize(p)] *)
Definition normalize (p : jsstring) : jsstring :=
  match p with
  | [] => str "."
  | _ =>
      let isAbsolute := startsWith (str "/") p in
      let trailingSeparator := endsWith (str "/") p in
      let body :=
        joinWith (str "/")
          (normalizeSegments (negb isAbsolute) (split (ch "/") p) []) in
      match body with
      | [] => if isAbsolute then str "/"
              else if trailingSeparator then str "./" else str "."
      | _ =>
          let body := if trailingSeparator then body ++ str "/" else body in
          if isAbsolute then str "/" ++ body else body
      end
  end.

(** [path.dirname(p)]: the trailing slashes and the last segment are
    dropped, with the slash before it; the first character is never
    looked at. *)
Definition dirname (p : jsstring) : jsstring :=
  match p with
  | [] => str "."
  | first :: body =>
      let hasRoot := N.eqb first (ch "/") in
      match dropWhile_slash_segment (rev body) with
      | Some kept =>
          match kept with
          | [] => if hasRoot then str "//" else [first]
          | _ => first :: rev kept
          end
      | None => if hasRoot then str "/" else str "."
      end
  end.

(** [path.join(a, b)] *)
Definition join (a b : jsstring) : jsstring :=
  match a, b with
  | [], [] => str "."
  | [], _ => normalize b
  | _, [] => normalize a
  | _, _ => normalize (a ++ str "/" ++ b)
  end.

End Posix.

Module Sample.

(** JSON texts are written with ['] for the double quote. *)
Definition json (s : string) : jsstring :=
  List.map (fun c => if N.eqb c (ch "'") then 34%N else c) (str s).

(** 0.5, 0.9 and 0.07 as binary64 Numbers. *)
Definition half : number := S754_finite false 4503599627370496 (-53).
Definition nine_tenths : number := S754_finite false 8106479329266893 (-53).
Definition seven_percent : number := S754_finite false 5044031582654956 (-56).

Definition score (x : number) : value := VObject [(str "score", VNumber x)].

(** The reports of the examples, as text and as parsed. *)
Definition report_foo_text : jsstring :=
  json "{'finalUrl':'https://a.com/foo','categories':{'performance':{'score':0.5},'seo':{'score':0.9}}}".
Definition report_foo : value :=
  VObject [(str "finalUrl", VString (str "https://a.com/foo"));
           (str "categories",
            VObject [(str "performance", score half);
                     (str "seo", score nine_tenths)])].

Definition report_root_text : jsstring :=
  json "{'finalUrl':'https://a.com/','categories':{'seo':{'score':0.07}}}".
Definition report_root : value :=
  VObject [(str "finalUrl", VString (str "https://a.com/"));
           (str "categories", VObject [(str "seo", score seven_percent)])].

Definition report_bare_text : jsstring := json "{'audits':{}}".
Definition report_bare : value := VObject [(str "audits", VObject [])].

Definition null_text : jsstring := str "null".

Definition broken_text : jsstring := json "{'categories':".

(** [JSON.parse] on the texts of the examples; any other text is taken to
    be malformed. *)
Definition parse (text : jsstring) : Res value :=
  if JSString.eqb text report_foo_text then Ok report_foo
  else if JSString.eqb text report_root_text then Ok report_root
  else if JSString.eqb text report_bare_text then Ok report_bare
  else if JSString.eqb text null_text then Ok VNull
  else Throw (mkError (str "Unexpected end of JSON input")).

(** A stand-in for the badge renderer. *)
Definition render (label status color : jsstring) : jsstring :=
  str "<svg>" ++ label ++ str "|" ++ status ++ str "|" ++ color ++ str "</svg>".

(** A bucket that answers with the location of the object. *)
Definition s3_accepts (_ : list Event) (req : S3Request) : Res jsstring :=
  Ok (str "https://s3/" ++ Bucket req ++ str "/" ++ Key req).

(** A backend that rejects every upload. *)
Definition s3_rejects (_ : list Event) (_ : S3Request) : Res jsstring :=
  Throw (mkError (str "Access Denied")).
Definition azure_rejects (_ : list Event) (_ : AzureRequest) : Res unit :=
  Throw (mkError (str "AuthenticationFailed")).
Definition azure_accepts (_ : list Event) (_ : AzureRequest) : Res unit :=
  Ok tt.

Definition blob_url (req : AzureRequest) : jsstring :=
  str "https://" ++ accountName req ++ str ".blob.core.windows.net/"
    ++ containerName req ++ str "/" ++ blobName req.

(** The texts of the examples are ASCII: a byte below 128 is its
    character, any other byte is shown as U+FFFD. *)
Definition decode (b : Buffer) : jsstring :=
  List.map (fun c => if (c <? 128)%N then c else 65533%N) (bytes b).

(** The clients of Azure: a container client needs the name of the
    container. *)
Definition container_client (_ _ containerName : jsstring) : Res unit :=
  match containerName with
  | [] => Throw (mkError
                   (str "Unable to extract containerName with provided information."))
  | _ => Ok tt
  end.
Definition blob_client (_ _ _ _ : jsstring) : Res unit := Ok tt.

(** The runtime of the examples, over the two backends. No example has a
    score that is a string or an array, or a percentage of 2^53 or more:
    the three conversions are place holders. *)
Definition runtime (s3 : list Event -> S3Request -> Res jsstring)
           (azure : list Event -> AzureRequest -> Res unit) : Runtime :=
  mkRuntime (str "/home/runner/work") decode parse
            (fun _ => NaN) (fun _ => Ok NaN) (fun _ => str "1e+21")
            render Posix.join Posix.basename Posix.dirname
            s3 container_client blob_client azure blob_url.

Definition inputs_of (l : list (jsstring * jsstring)) : gmap jsstring jsstring :=
  list_to_map l.

(** A directory [/r] with the given files. *)
Definition world_of (l : list (jsstring * jsstring)) : World :=
  mkWorld {[ str "/r" := List.map fst l ]}
          (list_to_map
             (List.map (fun p => (Posix.join (str "/r") (fst p), utf8 (snd p)))
                       l))
          [].

(** Runtimes: one whose backends accept every upload, one whose backends
    reject them all. *)
Definition accepting : Runtime := runtime s3_accepts azure_accepts.
Definition rejecting : Runtime := runtime s3_rejects azure_rejects.

(** Inputs: badges and reports to S3 under the prefix [badges]; the same
    to Azure; badges alone to S3; badges kept on disk; no category
    configured. *)
Definition to_s3 : gmap jsstring jsstring :=
  inputs_of [(str "reports-path", str "/r");
             (str "result-categories", str "seo, pwa");
             (str "upload-reports", str "true");
             (str "s3-bucket-name", str "bucket");
             (str "s3-prefix", str "badges")].
Definition to_azure : gmap jsstring jsstring :=
  inputs_of [(str "reports-path", str "/r");
             (str "result-categories", str "seo");
             (str "upload-destination", str "azure");
             (str "upload-reports", str "true");
             (str "azure-container-name", str "box");
             (str "azure-storage-account-name", str "acct");
             (str "s3-prefix", str "badges")].
Definition badges_to_s3 : gmap jsstring jsstring :=
  inputs_of [(str "reports-path", str "/r");
             (str "result-categories", str "seo");
             (str "s3-bucket-name", str "bucket")].
Definition on_disk : gmap jsstring jsstring :=
  inputs_of [(str "reports-path", str "/r");
             (str "result-categories", str "seo");
             (str "upload-destination", str "none")].
Definition dollar_label : gmap jsstring jsstring :=
  inputs_of [(str "reports-path", str "/r");
             (str "result-categories", str "$&");
             (str "upload-destination", str "none")].
Definition no_categories : gmap jsstring jsstring :=
  inputs_of [(str "reports-path", str "/r");
             (str "upload-destination", str "none")].

(** Directories: one report; a report without categories before it; a
    report that is [null] before it; a malformed report between two good
    ones; a report whose name holds [report.json] twice. *)
Definition one_report : World :=
  world_of [(str "lh.report.json", report_foo_text)].
Definition bare_first : World :=
  world_of [(str "bare.report.json", report_bare_text);
            (str "lh.report.json", report_foo_text)].
Definition null_first : World :=
  world_of [(str "empty.report.json", null_text);
            (str "lh.report.json", report_foo_text)].
Definition broken_second : World :=
  world_of [(str "lh.report.json", report_foo_text);
            (str "mid.report.json", broken_text);
            (str "root.report.json", report_root_text)].
Definition named_twice : World :=
  world_of [(str "lh.report.json.report.json", report_foo_text)].

Definition two_reports : World :=
  world_of [(str "lh.report.json", report_foo_text);
            (str "root.report.json", report_root_text)].

(** A directory without a report, and inputs that name a directory that
    is not there. *)
Definition only_notes : World :=
  world_of [(str "notes.txt", str "x"); (str "report.json", report_foo_text)].

(** A report whose [finalUrl] is a number, a parser that knows its text
    besides the others, the runtime over that parser, and a directory
    that has the report between two good ones. *)
Definition report_numbered_text : jsstring :=
  json "{'finalUrl':1,'categories':{}}".
Definition report_numbered : value :=
  VObject [(str "finalUrl", VNumber (of_Z 1)); (str "categories", VObject [])].
Definition parse_more (text : jsstring) : Res value :=
  if JSString.eqb text report_numbered_text then Ok report_numbered
  else parse text.
Definition lenient : Runtime :=
  mkRuntime (str "/home/runner/work") decode parse_more
            (fun _ => NaN) (fun _ => Ok NaN) (fun _ => str "1e+21")
            render Posix.join Posix.basename Posix.dirname
            s3_accepts container_client blob_client azure_accepts blob_url.
Definition numbered_second : World :=
  world_of [(str "lh.report.json", report_foo_text);
            (str "n.report.json", report_numbered_text);
            (str "root.report.json", report_root_text)].

(** Inputs with the labels of the README, kept on disk and sent to
    Azure. *)
Definition two_labels : gmap jsstring jsstring :=
  inputs_of [(str "reports-path", str "/r");
             (str "result-categories", str " performance , seo ");
             (str "upload-destination", str "none")].
Definition two_to_azure : gmap jsstring jsstring :=
  inputs_of [(str "reports-path", str "/r");
             (str "result-categories", str "performance,seo");
             (str "upload-destination", str "azure");
             (str "upload-reports", str "true");
             (str "azure-container-name", str "box");
             (str "azure-storage-account-name", str "acct")].

End Sample.

(** ** The vocabulary of the theorems *)

Section Vocabulary.

Variable rt : Runtime.
Variable inputs : gmap jsstring jsstring.

Definition svg_type : jsstring := str "image/svg+xml".

Definition s3_failure (rawName : jsstring) (e : Error) : Event :=
  ESetFailed (str "Failed to upload " ++ rawName ++ str " to S3: " ++ message e).

Definition azure_failure (blobName : jsstring) (e : Error) : Event :=
  ESetFailed (str "Failed to upload " ++ blobName
                ++ str " to Azure Blob Storage: " ++ message e).

(** The request [uploadToAzure] sends for a file. *)
Definition azure_request (filePath containerName accountName accountKey
                            : jsstring) (data : Buffer) : AzureRequest :=
  mkAzureRequest accountName accountKey containerName
                 (path_basename rt filePath) data (byteLength data) svg_type.

(** The badge of a label: its text, where it is written, and the world
    once it is written. *)
Definition badge_of (score : integral) (label : jsstring) : jsstring :=
  badgen rt label (toString (large_toString rt) score) (color_of score).

Definition written (path data : jsstring) (w : World) : World :=
  mkWorld (listed rt path (dirs w)) (<[path := utf8 data]> (files w))
          (EWriteFile path data :: log w).

Definition logged (evs : list Event) (w : World) : World :=
  mkWorld (dirs w) (files w) (evs ++ log w).

(** The key of a badge on S3 (line 65), the key of a report (line 74) and
    the request that carries a key. *)
Definition badge_key (urlPath label : jsstring) : jsstring :=
  s3Prefix inputs ++ urlPath ++ str "." ++ label ++ str ".svg".

Definition report_key (urlPath : jsstring) : jsstring :=
  s3Prefix inputs ++ urlPath ++ str ".report.json".

Definition s3_request (rawName : jsstring) (data : Buffer)
           (contentType : jsstring) : S3Request :=
  mkS3Request (s3AccessKeyId inputs) (s3SecretAccessKey inputs)
              (s3Region inputs) (s3BucketName inputs) rawName data contentType.

Definition azure_request_of (filePath : jsstring) (data : Buffer)
  : AzureRequest :=
  azure_request filePath (azureContainerName inputs)
                (azureStorageAccountName inputs)
                (azureStorageAccountKey inputs) data.

Fixpoint dropWhile (cls : char -> bool) (s : jsstring) : jsstring :=
  match s with
  | [] => []
  | c :: s' => if cls c then dropWhile cls s' else s
  end.

(** What is left of [a] once a leading [//host] is taken off, the host
    being the characters up to the next slash, at least one. *)
Definition after_host (a : jsstring) : option jsstring :=
  match a with
  | s1 :: s2 :: h :: t =>
      if N.eqb s1 (ch "/") && N.eqb s2 (ch "/") && notSlash h
      then Some (dropWhile notSlash t)
      else None
  | _ => None
  end.

(** What the regular expression of line 49 takes off, in words: a
    leading [//host], preceded or not by a scheme, where a scheme is a run
    of word characters followed by a colon and a host is the characters up
    to the next slash, at least one; any other text is left as it is. *)
Definition strip_origin (u : jsstring) : jsstring :=
  match u with
  | c :: _ =>
      if word c then
        match dropWhile word u with
        | colon :: a =>
            if N.eqb colon (ch ":")
            then match after_host a with Some path => path | None => u end
            else u
        | [] => u
        end
      else match after_host u with Some path => path | None => u end
  | [] => u
  end.

(** The URL path in those words: the URL of the report, or [/main] when
    there is none; the origin stripped; [/] replaced by [/main]. *)
Definition urlPath_amended (finalUrl : option jsstring) : jsstring :=
  let path := strip_origin (default (str "/main") finalUrl) in
  if JSString.eqb path (str "/") then str "/main" else path.

(** The characters of a URI scheme (RFC 3986): a letter first, then
    letters, digits, [+], [-] and [.]. *)
Definition isLetter (c : char) : bool :=
  let n := Z.of_N c in
  (65 <=? n) && (n <=? 90) || (97 <=? n) && (n <=? 122).
Definition isSchemeChar (c : char) : bool :=
  let n := Z.of_N c in
  isLetter c || (48 <=? n) && (n <=? 57)
  || N.eqb c (ch "+") || N.eqb c (ch "-") || N.eqb c (ch ".").

(** Follows the words of the spec, "strip any leading scheme://host
    prefix": the text starts with a scheme, then [://], then a host, the
    characters up to the next slash, at least one; without such a prefix
    the text is left as it is. *)
Definition strip_origin_spec (u : jsstring) : jsstring :=
  match u with
  | c :: _ =>
      if isLetter c then
        match dropWhile isSchemeChar u with
        | colon :: a =>
            if N.eqb colon (ch ":")
            then match after_host a with Some path => path | None => u end
            else u
        | [] => u
        end
      else u
  | [] => u
  end.

(** The URL path in the words of the spec: [finalUrl], or [/main] when it
    is absent; the prefix stripped; [/] replaced by [/main]. *)
Definition urlPath_spec (finalUrl : option jsstring) : jsstring :=
  let path := strip_origin_spec (default (str "/main") finalUrl) in
  if JSString.eqb path (str "/") then str "/main" else path.

(** The [finalUrl] of a report, when it has one that is a string. *)
Definition present_url (finalUrl : value) : option jsstring :=
  match finalUrl with
  | VString u => Some u
  | _ => None
  end.

(** The URL a report gives: a string that is not empty. *)
Definition given_url (finalUrl : value) : option jsstring :=
  match finalUrl with
  | VString (c :: s) => Some (c :: s)
  | _ => None
  end.

(** What the expression matches at the start of a text: the text left
    after the match. *)
Definition after_origin (u : jsstring) : option jsstring :=
  match u with
  | c :: _ =>
      if word c then
        match dropWhile word u with
        | colon :: a => if N.eqb colon (ch ":") then after_host a else None
        | [] => None
        end
      else after_host u
  | [] => None
  end.

(** [mrs] is [M] shifted right by [k] bits: its mantissa is the quotient,
    and its round and sticky bits are clear when nothing was lost. *)
Definition shifted (M k : Z) (mrs : shr_record) : Prop :=
  shr_m mrs = M / 2 ^ k
  /\ (M mod 2 ^ k = 0 -> shr_r mrs = false /\ shr_s mrs = false).

(** A Number that is zero, or positive and at most 100. *)
Definition at_most_hundred (x : number) : Prop :=
  (exists s, x = S754_zero s)
  \/ exists m e, x = S754_finite false m e /\ e <= 0 /\ Zpos m <= 100 * 2 ^ (- e).

(** A property of the uploads: [ps] of the requests sent to S3, [pa] of
    those sent to Azure; the other effects are free. *)
Definition uploads (ps : S3Request -> Prop) (pa : AzureRequest -> Prop)
           (ev : Event) : Prop :=
  match ev with
  | ES3Upload req => ps req
  | EAzureUpload req => pa req
  | _ => True
  end.

(** Whatever the world, [m] only adds events that satisfy [P] to the
    log. *)
Definition adds {A} (P : Event -> Prop) (m : M A) : Prop :=
  forall w, exists new, log (snd (m w)) = new ++ log w /\ Forall P new.

(** [w'] comes after [w]: it has the events of [w], the files of [w]
    and the same directories. *)
Definition after (w w' : World) : Prop :=
  (forall ev, List.In ev (log w) -> List.In ev (log w'))
  /\ (forall p, is_Some (files w !! p) -> is_Some (files w' !! p))
  /\ (forall d, dirs w' !! d = None <-> dirs w !! d = None).

(** The blob is declared an SVG image. *)
Definition svg_blob (req : AzureRequest) : Prop :=
  blobContentType req = str "image/svg+xml".

(** The names of the local files a run uploads: a report of the directory,
    or the badge of a report for a configured label. *)
Definition local_file (name : jsstring) : Prop :=
  endsWith (str ".report.json") name = true
  \/ exists file label,
      endsWith (str ".report.json") file = true
      /\ List.In label (resultCategories inputs)
      /\ name = replace file (str "report.json") (label ++ str ".svg").

(** The blob is named after the base name of a local file. *)
Definition named_after_file (req : AzureRequest) : Prop :=
  exists name,
    local_file name
    /\ blobName req
       = path_basename rt (path_join rt (reportsPath rt inputs) name).

(** A URL path of some report. *)
Definition is_urlPath (u : jsstring) : Prop :=
  exists report, urlPath_of report = Ok u.

(** The shapes of the events of a run: the two warnings; a failing
    status; a badge written; under the destination [s3] the upload of a
    badge or, when [upload-reports] is [true], of a report, with the output
    [s3-url] and a line of log; under [azure] the same. *)
Definition run_event (ev : Event) : Prop :=
  match ev with
  | EWarning msg =>
      msg = str "No Lighthouse reports found."
      \/ exists file,
          endsWith (str ".report.json") file = true
          /\ msg = str "Invalid file " ++ file
  | ESetFailed _ => True
  | EWriteFile path data =>
      exists file label score,
        endsWith (str ".report.json") file = true
        /\ List.In label (resultCategories inputs)
        /\ path = svgFileName_of rt inputs file label
        /\ data = badge_of score label
  | ES3Upload req =>
      uploadDestination inputs = str "s3"
      /\ ((exists urlPath label score,
              is_urlPath urlPath
              /\ List.In label (resultCategories inputs)
              /\ req = s3_request (badge_key urlPath label)
                                  (utf8 (badge_of score label)) svg_type)
          \/ (uploadReports inputs = str "true"
              /\ exists urlPath data,
                  is_urlPath urlPath
                  /\ req = s3_request (report_key urlPath) data
                                      (str "application/json")))
  | EAzureUpload req =>
      uploadDestination inputs = str "azure"
      /\ ((exists file label score,
              endsWith (str ".report.json") file = true
              /\ List.In label (resultCategories inputs)
              /\ req = azure_request_of (svgFileName_of rt inputs file label)
                                        (utf8 (badge_of score label)))
          \/ (uploadReports inputs = str "true"
              /\ exists file data,
                  endsWith (str ".report.json") file = true
                  /\ req = azure_request_of
                             (path_join rt (reportsPath rt inputs) file) data))
  | ESetOutput name _ =>
      (uploadDestination inputs = str "s3" /\ name = str "s3-url")
      \/ (uploadDestination inputs = str "azure"
          /\ name = str "azure-blob-url")
  | EInfo _ =>
      uploadDestination inputs = str "s3"
      \/ uploadDestination inputs = str "azure"
  end.

(** Nothing is uploaded, no output is set, no line of log is written. *)
Definition stays_local (ev : Event) : Prop :=
  match ev with
  | ES3Upload _ | EAzureUpload _ | ESetOutput _ _ | EInfo _ => False
  | _ => True
  end.

(** *** Where the effects of a run come from *)

(** The reports of a listing. *)
Definition reports_in (entries : list jsstring) : list jsstring :=
  List.filter (endsWith (str ".report.json")) entries.

(** The path of an entry of the reports directory. *)
Definition report_path (file : jsstring) : jsstring :=
  path_join rt (reportsPath rt inputs) file.

(** What a file may hold in the course of a run that starts in [w0], the
    reports directory listing [entries]: what it holds in [w0], or the
    badge of a report of the listing for a configured label, the score
    being the percentage of the label in the categories of what that
    report holds. (The badge of a report can be written onto another
    report, whose own badges are then made from it.) *)
Inductive holds (w0 : World) (entries : list jsstring)
  : jsstring -> Buffer -> Prop :=
| holds_start p buffer :
    files w0 !! p = Some buffer -> holds w0 entries p buffer
| holds_badge file label buffer report categories score :
    List.In file (reports_in entries) ->
    List.In label (resultCategories inputs) ->
    holds w0 entries (report_path file) buffer ->
    JSON_parse rt (Buffer_toString rt buffer) = Ok report ->
    Get report (str "categories") = Ok categories ->
    truthy categories = true ->
    percentage rt categories label = Ok score ->
    holds w0 entries (svgFileName_of rt inputs file label)
          (utf8 (badge_of score label)).

(** [file] is a report of the listing that was read as [report], with
    the categories [categories]. *)
Definition read_as (w0 : World) (entries : list jsstring)
           (file : jsstring) (report categories : value) : Prop :=
  List.In file (reports_in entries)
  /\ (exists buffer,
         holds w0 entries (report_path file) buffer
         /\ JSON_parse rt (Buffer_toString rt buffer) = Ok report)
  /\ Get report (str "categories") = Ok categories
  /\ truthy categories = true.

(** [score] is the percentage of a configured label in a report of the
    listing. *)
Definition scored (w0 : World) (entries : list jsstring)
           (file label : jsstring) (score : integral) : Prop :=
  List.In label (resultCategories inputs)
  /\ exists report categories,
      read_as w0 entries file report categories
      /\ percentage rt categories label = Ok score.

(** The file written is the badge of a report of the listing. *)
Definition badge_written (w0 : World) (entries : list jsstring)
           (path data : jsstring) : Prop :=
  exists file label score,
    scored w0 entries file label score
    /\ path = svgFileName_of rt inputs file label
    /\ data = badge_of score label.

(** The object sent to S3 is the badge of a report of the listing, as
    written, under the key of line 65, made of the URL path of that
    report. *)
Definition badge_sent_to_s3 (w0 : World) (entries : list jsstring)
           (req : S3Request) : Prop :=
  exists file label score report categories urlPath,
    List.In label (resultCategories inputs)
    /\ read_as w0 entries file report categories
    /\ percentage rt categories label = Ok score
    /\ urlPath_of report = Ok urlPath
    /\ req = s3_request (badge_key urlPath label)
                        (utf8 (badge_of score label)) svg_type.

(** The object sent to S3 is what a report of the listing holds, under
    the key of line 74, made of the URL path of that report. *)
Definition report_sent_to_s3 (w0 : World) (entries : list jsstring)
           (req : S3Request) : Prop :=
  exists file report categories urlPath buffer,
    read_as w0 entries file report categories
    /\ urlPath_of report = Ok urlPath
    /\ holds w0 entries (report_path file) buffer
    /\ req = s3_request (report_key urlPath) buffer (str "application/json").

(** The blob sent to Azure is the badge of a report of the listing, as
    written; or what a report of the listing holds. *)
Definition badge_sent_to_azure (w0 : World) (entries : list jsstring)
           (req : AzureRequest) : Prop :=
  exists file label score,
    scored w0 entries file label score
    /\ req = azure_request_of (svgFileName_of rt inputs file label)
                              (utf8 (badge_of score label)).

Definition report_sent_to_azure (w0 : World) (entries : list jsstring)
           (req : AzureRequest) : Prop :=
  exists file report categories buffer,
    read_as w0 entries file report categories
    /\ holds w0 entries (report_path file) buffer
    /\ req = azure_request_of (report_path file) buffer.

(** The events of a run that starts in [w0], the reports directory
    listing [entries]. *)
Definition run_step (w0 : World) (entries : list jsstring) (ev : Event)
  : Prop :=
  match ev with
  | EWarning msg =>
      msg = str "No Lighthouse reports found."
      \/ exists file,
          List.In file (reports_in entries)
          /\ msg = str "Invalid file " ++ file
  | ESetFailed _ => True
  | EWriteFile path data => badge_written w0 entries path data
  | ES3Upload req =>
      uploadDestination inputs = str "s3"
      /\ (badge_sent_to_s3 w0 entries req
          \/ (uploadReports inputs = str "true"
              /\ report_sent_to_s3 w0 entries req))
  | EAzureUpload req =>
      uploadDestination inputs = str "azure"
      /\ (badge_sent_to_azure w0 entries req
          \/ (uploadReports inputs = str "true"
              /\ report_sent_to_azure w0 entries req))
  | ESetOutput name _ =>
      (uploadDestination inputs = str "s3" /\ name = str "s3-url")
      \/ (uploadDestination inputs = str "azure"
          /\ name = str "azure-blob-url")
  | EInfo _ =>
      uploadDestination inputs = str "s3"
      \/ uploadDestination inputs = str "azure"
  end.

(** The paths a run may write: the badge of a report of the listing for
    a configured label. *)
Definition badge_path (entries : list jsstring) (p : jsstring) : Prop :=
  exists file label,
    List.In file (reports_in entries)
    /\ List.In label (resultCategories inputs)
    /\ p = svgFileName_of rt inputs file label.

(** [w] is [w0] with badges written: the same directories, whose
    listings have their entries of [w0] first; the files of [w0], each
    with its bytes of [w0] unless a badge can be written there; the log of
    [w0] with events added. *)
Definition grown (entries : list jsstring) (w0 w : World) : Prop :=
  (forall d, dirs w !! d = None <-> dirs w0 !! d = None)
  /\ (forall d l, dirs w0 !! d = Some l ->
                  exists added, dirs w !! d = Some (l ++ added))
  /\ (forall p, is_Some (files w0 !! p) -> is_Some (files w !! p))
  /\ (forall p, ~ badge_path entries p -> files w !! p = files w0 !! p)
  /\ exists new, log w = new ++ log w0.

(** What holds of the world all along a run that starts in [w0]. *)
Definition evolved (w0 : World) (entries : list jsstring) (w : World)
  : Prop :=
  grown entries w0 w
  /\ (forall p buffer, files w !! p = Some buffer -> holds w0 entries p buffer)
  /\ exists new, log w = new ++ log w0 /\ Forall (run_step w0 entries) new.

(** [w'] is [w] with events added, each of which satisfies [P]. *)
Definition added (P : Event -> Prop) (w w' : World) : Prop :=
  exists new, log w' = new ++ log w /\ Forall P new.

(** A property of the writes: [pw] of the path and of the text written;
    the other effects are free. *)
Definition writes (pw : jsstring -> jsstring -> Prop) (ev : Event) : Prop :=
  match ev with
  | EWriteFile path data => pw path data
  | _ => True
  end.

(** From a world that evolved from [w0], [m] leaves a world that evolved
    from [w0]; what it returns satisfies [Q]. A call may need something
    of the world it starts in: [Pre]. *)
Definition keeps {A} (w0 : World) (entries : list jsstring)
           (Pre : World -> Prop) (m : M A) (Q : A -> World -> Prop) : Prop :=
  forall w,
    evolved w0 entries w -> Pre w ->
    evolved w0 entries (snd (m w))
    /\ forall a, fst (m w) = Ok a -> Q a (snd (m w)).

(** *** What is left of a run *)

(** The catch of [run]. *)
Definition run_catch (body : M unit) : M unit :=
  try_catch body
    (fun error =>
       core_setFailed (str "Action failed with error: " ++ message error)).

(** What is left of a run in the middle of a report: the labels that
    remain, the upload of the report, the reports that remain. *)
Definition rest_of_run (file : jsstring) (categories : value)
           (urlPath : jsstring) (labels reports : list jsstring) : M unit :=
  run_catch
    (bind (for_each labels (for_label rt inputs file categories urlPath))
          (fun _ =>
             bind (upload_report rt inputs file urlPath)
                  (fun _ => for_each reports (for_file rt inputs)))).

(** A run that starts in [w] gets to [w2]: the reports of the listing
    before [file] are done, each having returned; [file] is read as
    [report], whose categories and URL path are there; the labels [done]
    are done, each having returned; the reports after [file] are
    [reports]. *)
Definition reaches (w : World) (file : jsstring) (report categories : value)
           (urlPath : jsstring) (done reports : list jsstring) (w2 : World)
  : Prop :=
  exists entries before w1 buffer,
    dirs w !! reportsPath rt inputs = Some entries
    /\ reports_in entries = before ++ file :: reports
    /\ for_each before (for_file rt inputs) w = (Ok tt, w1)
    /\ files w1 !! report_path file = Some buffer
    /\ JSON_parse rt (Buffer_toString rt buffer) = Ok report
    /\ Get report (str "categories") = Ok categories
    /\ truthy categories = true
    /\ urlPath_of report = Ok urlPath
    /\ for_each done (for_label rt inputs file categories urlPath) w1
       = (Ok tt, w2).

(** The clients of Azure can be built for the upload of [filePath]. *)
Definition azure_clients (filePath : jsstring) : Prop :=
  azure_container_client rt (azureStorageAccountName inputs)
                         (azureStorageAccountKey inputs)
                         (azureContainerName inputs) = Ok tt
  /\ azure_blob_client rt (azureStorageAccountName inputs)
                       (azureStorageAccountKey inputs)
                       (azureContainerName inputs)
                       (path_basename rt filePath) = Ok tt.

(** *** Lists of fields *)

(** The fields, with [sep] between them. *)
Fixpoint joined (sep : char) (fields : list jsstring) : jsstring :=
  match fields with
  | [] => []
  | [field] => field
  | field :: rest => field ++ sep :: joined sep rest
  end.

(** [t] is [s] without the white space it starts and ends with. *)
Definition trimmed (s t : jsstring) : Prop :=
  (exists before after,
      s = before ++ t ++ after
      /\ Forall (fun c => isWhiteSpace c = true) before
      /\ Forall (fun c => isWhiteSpace c = true) after)
  /\ forall c rest, t = c :: rest \/ rev t = c :: rest ->
                    isWhiteSpace c = false.

(** 0.01 and 0.55 as binary64 Numbers: 0x1.47ae147ae147bp-7 and
    0x1.199999999999ap-1. *)
Definition one_percent : number := S754_finite false 5764607523034235 (-59).
Definition fifty_five_percent : number :=
  S754_finite false 4953959590107546 (-53).

End Vocabulary.

(** ** The definitions at work *)

Example split_empty : split (ch ",") [] = [[]].
Proof. reflexivity. Qed.

Example split_three :
  split (ch ",") (str "performance, seo ,pwa") = [str "performance"; str " seo "; str "pwa"].
Proof. reflexivity. Qed.

Example trim_seo : trim (str "  seo ") = str "seo".
Proof. reflexivity. Qed.

Example replace_first :
  replace (str "lh.report.json") (str "report.json") (str "seo.svg") = str "lh.seo.svg".
Proof. reflexivity. Qed.

Example origin_foo : replace_empty origin_re (str "https://a.com/foo") = str "/foo".
Proof. reflexivity. Qed.

Example origin_none : replace_empty origin_re (str "/foo//bar/x") = str "/foo//bar/x".
Proof. reflexivity. Qed.

Example origin_relative : replace_empty origin_re (str "//cdn.x/y") = str "/y".
Proof. reflexivity. Qed.

(** Only a run of word characters counts as a scheme, and a URL without
    a host is left as it is. *)
Example origin_other_scheme :
  replace_empty origin_re (str "chrome-extension://abc/page.html")
  = str "chrome-extension://abc/page.html".
Proof. reflexivity. Qed.

Example origin_no_host : replace_empty origin_re (str "file:///tmp/x") = str "file:///tmp/x".
Proof. reflexivity. Qed.

Example decimal_100 : decimal 100 = str "100".
Proof. reflexivity. Qed.

Example hundred_bits : of_Z 100 = S754_finite false 7036874417766400 (-46).
Proof. reflexivity. Qed.

Example ceil_one_percent : Math_ceil (mul one_percent (of_Z 100)) = IInt 1.
Proof. reflexivity. Qed.

(** [Math.ceil(0.07 * 100)] is 8 and [Math.ceil(0.55 * 100)] is 56: the
    products are 7.000000000000001 and 55.00000000000001. *)
Example ceil_seven_percent :
  Math_ceil (mul Sample.seven_percent (of_Z 100)) = IInt 8.
Proof. reflexivity. Qed.

Example ceil_fifty_five_percent :
  Math_ceil (mul fifty_five_percent (of_Z 100)) = IInt 56.
Proof. reflexivity. Qed.

Example basename_svg : Posix.basename (str "/r/lh.seo.svg") = str "lh.seo.svg".
Proof. reflexivity. Qed.

Example join_plain : Posix.join (str "/r") (str "lh.report.json") = str "/r/lh.report.json".
Proof. reflexivity. Qed.

Example join_dots : Posix.join (str "./out/") (str "../lh.report.json") = str "lh.report.json".
Proof. reflexivity. Qed.

(** ** Sequencing *)

Section Sequencing.

Context {A : Type}.

Lemma for_each_cons_ok (body : A -> M unit) x l w w' :
  body x w = (Ok tt, w') ->
  for_each (x :: l) body w = for_each l body w'.
Proof. intros H. simpl. unfold bind. now rewrite H. Qed.

Lemma for_each_cons_throw (body : A -> M unit) x l w e w' :
  body x w = (Throw e, w') ->
  for_each (x :: l) body w = (Throw e, w').
Proof. intros H. simpl. unfold bind. now rewrite H. Qed.

Lemma for_each_app_ok (body : A -> M unit) l1 l2 w w1 :
  for_each l1 body w = (Ok tt, w1) ->
  for_each (l1 ++ l2) body w = for_each l2 body w1.
Proof.
  revert w. induction l1 as [|x l1 IH]; intros w H.
  - simpl in H. injection H as <-. reflexivity.
  - simpl in *. unfold bind in *.
    destruct (body x w) as [[[]|e] w2]; [now apply IH | discriminate].
Qed.

End Sequencing.

(** ** Tiers *)

(** C2. The tier is a function of the integer percentage alone: red below
    50, orange from 50 to 89, green from 90 on; 49, 50, 89 and 90 are red,
    orange, orange and green. *)
Theorem tier_of_percentage (p : Z) :
  (p < 50 -> color_of (IInt p) = str "red")
  /\ (50 <= p <= 89 -> color_of (IInt p) = str "orange")
  /\ (90 <= p -> color_of (IInt p) = str "green")
  /\ color_of (IInt 49) = str "red"
  /\ color_of (IInt 50) = str "orange"
  /\ color_of (IInt 89) = str "orange"
  /\ color_of (IInt 90) = str "green".
Proof.
  unfold color_of, geb.
  repeat split; try reflexivity; intros H.
  - destruct (Z.leb_spec 90 p); [lia|].
    destruct (Z.leb_spec 50 p); [lia|reflexivity].
  - destruct (Z.leb_spec 90 p); [lia|].
    destruct (Z.leb_spec 50 p); [reflexivity|lia].
  - destruct (Z.leb_spec 90 p); [reflexivity|lia].
Qed.

(** ** The file system *)

Section FileSystem.

Variable rt : Runtime.

Lemma writeFileSync_ok path data w :
  write_error rt w path = None ->
  writeFileSync rt path data w = (Ok tt, written rt path data w).
Proof. intros H. unfold writeFileSync. now rewrite H. Qed.

Lemma writeFileSync_refused path data w e :
  write_error rt w path = Some e ->
  writeFileSync rt path data w = (Throw e, w).
Proof. intros H. unfold writeFileSync. now rewrite H. Qed.

Lemma written_holds path data w :
  files (written rt path data w) !! path = Some (utf8 data).
Proof. simpl. apply lookup_insert_eq. Qed.

Lemma listed_None (path : jsstring) (d : gmap jsstring (list jsstring))
      (k : jsstring) :
  listed rt path d !! k = None <-> d !! k = None.
Proof.
  unfold listed. destruct (d !! path_dirname rt path) as [entries|] eqn:E;
    [|tauto].
  destruct (decide (path_dirname rt path = k)) as [<-|Hne].
  - rewrite lookup_insert_eq, E. split; discriminate.
  - now rewrite lookup_insert_ne.
Qed.

Lemma listed_Some (path : jsstring) (d : gmap jsstring (list jsstring))
      (k : jsstring) l :
  d !! k = Some l -> exists added, listed rt path d !! k = Some (l ++ added).
Proof.
  intros Hk. unfold listed.
  destruct (d !! path_dirname rt path) as [entries|] eqn:E.
  - destruct (decide (path_dirname rt path = k)) as [<-|Hne].
    + rewrite lookup_insert_eq. rewrite E in Hk. injection Hk as ->.
      destruct (List.existsb _ l);
        [exists []; now rewrite List.app_nil_r | eauto].
    + rewrite lookup_insert_ne by assumption.
      exists []. now rewrite List.app_nil_r.
  - exists []. now rewrite List.app_nil_r.
Qed.

(** Whether a path can be written depends on the directories there are,
    not on their listings nor on the files. *)
Lemma write_error_None w path :
  write_error rt w path = None
  <-> is_Some (dirs w !! path_dirname rt path) /\ dirs w !! path = None.
Proof.
  unfold write_error.
  destruct (dirs w !! path_dirname rt path) as [entries|].
  - destruct (dirs w !! path) as [l|].
    + split; [discriminate | intros [_ H]; discriminate].
    + split; [eauto | reflexivity].
  - destruct (files w !! path_dirname rt path);
      (split; [discriminate | intros [[x H] _]; discriminate]).
Qed.

Lemma write_error_same_dirs w w' path :
  (forall d, dirs w' !! d = None <-> dirs w !! d = None) ->
  write_error rt w path = None -> write_error rt w' path = None.
Proof.
  intros Hsame H. apply write_error_None in H. destruct H as [[l Hl] Hp].
  apply write_error_None. split.
  - destruct (dirs w' !! path_dirname rt path) eqn:E; [eauto|].
    apply Hsame in E. congruence.
  - now apply Hsame.
Qed.

End FileSystem.

(** ** Failures *)

Section Failures.

Variable rt : Runtime.
Variable inputs : gmap jsstring jsstring.

Lemma uploadToS3_rejected filePath bucketName accessKeyId secretAccessKey
      region rawName contentType w data e :
  files w !! filePath = Some data ->
  let req := mkS3Request accessKeyId secretAccessKey region bucketName rawName
                         data (default svg_type contentType) in
  s3_upload rt (log w) req = Throw e ->
  uploadToS3 rt filePath bucketName accessKeyId secretAccessKey region rawName
             contentType w
  = (Ok tt, mkWorld (dirs w) (files w)
                    (s3_failure rawName e :: ES3Upload req :: log w)).
Proof.
  intros Hfile req Hrej.
  unfold uploadToS3, bind, readFileSync, try_catch, s3_upload_promise.
  rewrite Hfile. fold svg_type. fold req. now rewrite Hrej.
Qed.

Lemma uploadToAzure_rejected filePath containerName accountName accountKey
      w data e :
  azure_container_client rt accountName accountKey containerName = Ok tt ->
  files w !! filePath = Some data ->
  azure_blob_client rt accountName accountKey containerName
                    (path_basename rt filePath) = Ok tt ->
  let req := azure_request rt filePath containerName accountName accountKey data in
  azure_upload rt (log w) req = Throw e ->
  uploadToAzure rt filePath containerName accountName accountKey w
  = (Ok tt, mkWorld (dirs w) (files w)
                    (azure_failure (path_basename rt filePath) e
                       :: EAzureUpload req :: log w)).
Proof.
  intros Hcontainer Hfile Hblob req Hrej.
  unfold uploadToAzure, bind, lift, readFileSync, try_catch,
    azure_upload_promise.
  rewrite Hcontainer, Hfile, Hblob. fold svg_type.
  fold (azure_request rt filePath containerName accountName accountKey data).
  fold req. now rewrite Hrej.
Qed.

Lemma for_label_written file categories urlPath label score w :
  percentage rt categories label = Ok score ->
  write_error rt w (svgFileName_of rt inputs file label) = None ->
  for_label rt inputs file categories urlPath label w
  = (let svgFileName := svgFileName_of rt inputs file label in
     if JSString.eqb (uploadDestination inputs) (str "s3") then
       uploadToS3 rt svgFileName (s3BucketName inputs) (s3AccessKeyId inputs)
                  (s3SecretAccessKey inputs) (s3Region inputs)
                  (badge_key inputs urlPath label) None
     else if JSString.eqb (uploadDestination inputs) (str "azure") then
       uploadToAzure rt svgFileName (azureContainerName inputs)
                     (azureStorageAccountName inputs)
                     (azureStorageAccountKey inputs)
     else ret tt)
      (written rt (svgFileName_of rt inputs file label)
               (badge_of rt score label) w).
Proof.
  intros Hp Hw. unfold for_label, bind, lift. rewrite Hp.
  now rewrite (writeFileSync_ok rt _ _ _ Hw).
Qed.

Lemma eqb_refl (s : jsstring) : JSString.eqb s s = true.
Proof. unfold JSString.eqb. now apply bool_decide_eq_true. Qed.

Lemma for_label_s3_rejected file categories urlPath label score w e :
  uploadDestination inputs = str "s3" ->
  percentage rt categories label = Ok score ->
  let path := svgFileName_of rt inputs file label in
  let svg := badge_of rt score label in
  let req := s3_request inputs (badge_key inputs urlPath label) (utf8 svg)
                        svg_type in
  write_error rt w path = None ->
  s3_upload rt (EWriteFile path svg :: log w) req = Throw e ->
  for_label rt inputs file categories urlPath label w
  = (Ok tt, logged [s3_failure (badge_key inputs urlPath label) e; ES3Upload req]
                   (written rt path svg w)).
Proof.
  intros Hd Hp path svg req Hw Hrej.
  rewrite (for_label_written _ _ _ _ _ _ Hp Hw), Hd, eqb_refl. cbv zeta.
  erewrite uploadToS3_rejected; [reflexivity | | exact Hrej].
  apply written_holds.
Qed.

Lemma for_label_azure_rejected file categories urlPath label score w e :
  uploadDestination inputs = str "azure" ->
  percentage rt categories label = Ok score ->
  let path := svgFileName_of rt inputs file label in
  let svg := badge_of rt score label in
  let req := azure_request_of rt inputs path (utf8 svg) in
  write_error rt w path = None ->
  azure_clients rt inputs path ->
  azure_upload rt (EWriteFile path svg :: log w) req = Throw e ->
  for_label rt inputs file categories urlPath label w
  = (Ok tt, logged [azure_failure (path_basename rt path) e; EAzureUpload req]
                   (written rt path svg w)).
Proof.
  intros Hd Hp path svg req Hw [Hcontainer Hblob] Hrej.
  rewrite (for_label_written _ _ _ _ _ _ Hp Hw), Hd. cbv zeta.
  replace (JSString.eqb (str "azure") (str "s3")) with false by reflexivity.
  rewrite eqb_refl.
  erewrite uploadToAzure_rejected;
    [reflexivity | exact Hcontainer | | exact Hblob | exact Hrej].
  apply written_holds.
Qed.

Lemma upload_report_s3_rejected file urlPath w data e :
  uploadReports inputs = str "true" ->
  uploadDestination inputs = str "s3" ->
  files w !! report_path rt inputs file = Some data ->
  let req := s3_request inputs (report_key inputs urlPath) data (str "application/json") in
  s3_upload rt (log w) req = Throw e ->
  upload_report rt inputs file urlPath w
  = (Ok tt, logged [s3_failure (report_key inputs urlPath) e; ES3Upload req] w).
Proof.
  intros Hreports Hdest Hfile req Hrej.
  unfold upload_report. rewrite Hreports, Hdest, !eqb_refl.
  now apply uploadToS3_rejected.
Qed.

Lemma upload_report_azure_rejected file urlPath w data e :
  uploadReports inputs = str "true" ->
  uploadDestination inputs = str "azure" ->
  files w !! report_path rt inputs file = Some data ->
  let path := report_path rt inputs file in
  let req := azure_request_of rt inputs path data in
  azure_clients rt inputs path ->
  azure_upload rt (log w) req = Throw e ->
  upload_report rt inputs file urlPath w
  = (Ok tt, logged [azure_failure (path_basename rt path) e; EAzureUpload req] w).
Proof.
  intros Hreports Hdest Hfile path req [Hcontainer Hblob] Hrej.
  unfold upload_report. rewrite Hreports, Hdest, !eqb_refl.
  replace (JSString.eqb (str "azure") (str "s3")) with false by reflexivity.
  now apply uploadToAzure_rejected.
Qed.

(** Where a run is once it has got to a label, and once it has done the
    labels of a report. *)
Lemma run_at_label w file report categories urlPath done label todo reports w2 :
  reaches rt inputs w file report categories urlPath done reports w2 ->
  resultCategories inputs = done ++ label :: todo ->
  run rt inputs w
  = run_catch
      (bind (for_label rt inputs file categories urlPath label)
            (fun _ =>
               bind (for_each todo (for_label rt inputs file categories urlPath))
                    (fun _ =>
                       bind (upload_report rt inputs file urlPath)
                            (fun _ => for_each reports (for_file rt inputs)))))
      w2.
Proof.
  intros (entries & before & w1 & buffer & Hdir & Hfilter & Hbefore & Hfile
          & Hparse & Hcat & Htruthy & Hpath & Hdone) Hlabels.
  unfold run, run_catch, try_catch, run_try. unfold bind at 1, readdirSync.
  rewrite Hdir. fold (reports_in entries). rewrite Hfilter.
  replace (Nat.eqb (List.length (before ++ file :: reports)) 0) with false
    by (rewrite List.length_app; simpl; symmetry; apply Nat.eqb_neq; lia).
  rewrite (for_each_app_ok _ _ _ _ _ Hbefore).
  cbn [for_each]. unfold bind at 1. unfold for_file at 1.
  unfold bind at 1 2 3, readFileSync, lift.
  unfold report_path in Hfile. rewrite Hfile, Hparse, Hcat, Htruthy.
  cbn [negb]. unfold bind at 1. rewrite Hpath. rewrite Hlabels.
  unfold bind at 1. rewrite (for_each_app_ok _ _ _ _ _ Hdone).
  cbn [for_each]. unfold bind.
  destruct (for_label rt inputs file categories urlPath label w2)
    as [[[]|e] w3]; [|reflexivity].
  destruct (for_each todo _ w3) as [[[]|e] w4]; reflexivity.
Qed.

Lemma run_after_label w file report categories urlPath done label todo reports
      w2 w3 :
  reaches rt inputs w file report categories urlPath done reports w2 ->
  resultCategories inputs = done ++ label :: todo ->
  for_label rt inputs file categories urlPath label w2 = (Ok tt, w3) ->
  run rt inputs w
  = rest_of_run rt inputs file categories urlPath todo reports w3.
Proof.
  intros Hreach Hlabels Hlabel.
  rewrite (run_at_label _ _ _ _ _ _ _ _ _ _ Hreach Hlabels).
  unfold rest_of_run, run_catch, try_catch, bind. now rewrite Hlabel.
Qed.

Lemma run_after_report w file report categories urlPath reports w2 w3 :
  reaches rt inputs w file report categories urlPath (resultCategories inputs)
          reports w2 ->
  upload_report rt inputs file urlPath w2 = (Ok tt, w3) ->
  run rt inputs w = run_catch (for_each reports (for_file rt inputs)) w3.
Proof.
  intros (entries & before & w1 & buffer & Hdir & Hfilter & Hbefore & Hfile
          & Hparse & Hcat & Htruthy & Hpath & Hdone) Hreport.
  unfold run, run_catch, try_catch, run_try. unfold bind at 1, readdirSync.
  rewrite Hdir. fold (reports_in entries). rewrite Hfilter.
  replace (Nat.eqb (List.length (before ++ file :: reports)) 0) with false
    by (rewrite List.length_app; simpl; symmetry; apply Nat.eqb_neq; lia).
  rewrite (for_each_app_ok _ _ _ _ _ Hbefore).
  cbn [for_each]. unfold bind at 1. unfold for_file at 1.
  unfold bind at 1 2 3, readFileSync, lift.
  unfold report_path in Hfile. rewrite Hfile, Hparse, Hcat, Htruthy.
  cbn [negb]. unfold bind at 1. rewrite Hpath.
  unfold bind at 1. rewrite Hdone. now rewrite Hreport.
Qed.

End Failures.

(** C6. A rejected upload is caught inside the upload call: the call
    returns normally, having set the failing status with the message
    [Failed to upload <name> to <Backend>: <message>]. The run goes on
    from there: after the rejected upload of a badge, what is left of the
    run is the labels after it, the upload of the report and the reports
    after it; after the rejected upload of a report, the reports after
    it. (The clients of Azure are built outside the [try] of
    [uploadToAzure]: the statement is about a backend that rejects, not
    about a client that cannot be built.) *)
Theorem upload_failure_is_caught (rt : Runtime) (inputs : gmap jsstring jsstring) :
  (forall filePath bucketName accessKeyId secretAccessKey region rawName
          contentType w data e,
      files w !! filePath = Some data ->
      let req := mkS3Request accessKeyId secretAccessKey region bucketName
                             rawName data (default svg_type contentType) in
      s3_upload rt (log w) req = Throw e ->
      uploadToS3 rt filePath bucketName accessKeyId secretAccessKey region
                 rawName contentType w
      = (Ok tt, logged [s3_failure rawName e; ES3Upload req] w))
  /\ (forall filePath containerName accountName accountKey w data e,
         azure_container_client rt accountName accountKey containerName
         = Ok tt ->
         files w !! filePath = Some data ->
         azure_blob_client rt accountName accountKey containerName
                           (path_basename rt filePath) = Ok tt ->
         let req := azure_request rt filePath containerName accountName
                                  accountKey data in
         azure_upload rt (log w) req = Throw e ->
         uploadToAzure rt filePath containerName accountName accountKey w
         = (Ok tt, logged [azure_failure (path_basename rt filePath) e;
                           EAzureUpload req] w))
  /\ (forall w file report categories urlPath done label todo reports w2
             score e,
         reaches rt inputs w file report categories urlPath done reports w2 ->
         resultCategories inputs = done ++ label :: todo ->
         uploadDestination inputs = str "s3" ->
         percentage rt categories label = Ok score ->
         let path := svgFileName_of rt inputs file label in
         let svg := badge_of rt score label in
         let req := s3_request inputs (badge_key inputs urlPath label)
                               (utf8 svg) svg_type in
         write_error rt w2 path = None ->
         s3_upload rt (EWriteFile path svg :: log w2) req = Throw e ->
         run rt inputs w
         = rest_of_run rt inputs file categories urlPath todo reports
             (logged [s3_failure (badge_key inputs urlPath label) e;
                      ES3Upload req] (written rt path svg w2)))
  /\ (forall w file report categories urlPath done label todo reports w2
             score e,
         reaches rt inputs w file report categories urlPath done reports w2 ->
         resultCategories inputs = done ++ label :: todo ->
         uploadDestination inputs = str "azure" ->
         percentage rt categories label = Ok score ->
         let path := svgFileName_of rt inputs file label in
         let svg := badge_of rt score label in
         let req := azure_request_of rt inputs path (utf8 svg) in
         write_error rt w2 path = None ->
         azure_clients rt inputs path ->
         azure_upload rt (EWriteFile path svg :: log w2) req = Throw e ->
         run rt inputs w
         = rest_of_run rt inputs file categories urlPath todo reports
             (logged [azure_failure (path_basename rt path) e;
                      EAzureUpload req] (written rt path svg w2)))
  /\ (forall w file report categories urlPath reports w2 data e,
         reaches rt inputs w file report categories urlPath
                 (resultCategories inputs) reports w2 ->
         uploadReports inputs = str "true" ->
         uploadDestination inputs = str "s3" ->
         files w2 !! report_path rt inputs file = Some data ->
         let req := s3_request inputs (report_key inputs urlPath) data
                               (str "application/json") in
         s3_upload rt (log w2) req = Throw e ->
         run rt inputs w
         = run_catch (for_each reports (for_file rt inputs))
             (logged [s3_failure (report_key inputs urlPath) e;
                      ES3Upload req] w2))
  /\ (forall w file report categories urlPath reports w2 data e,
         reaches rt inputs w file report categories urlPath
                 (resultCategories inputs) reports w2 ->
         uploadReports inputs = str "true" ->
         uploadDestination inputs = str "azure" ->
         files w2 !! report_path rt inputs file = Some data ->
         let path := report_path rt inputs file in
         let req := azure_request_of rt inputs path data in
         azure_clients rt inputs path ->
         azure_upload rt (log w2) req = Throw e ->
         run rt inputs w
         = run_catch (for_each reports (for_file rt inputs))
             (logged [azure_failure (path_basename rt path) e;
                      EAzureUpload req] w2)).
Proof.
  repeat split.
  - intros. now apply uploadToS3_rejected.
  - intros. now apply uploadToAzure_rejected.
  - intros w file report categories urlPath done label todo reports w2 score e
           Hreach Hlabels Hdest Hscore path svg req Hwrite Hrej.
    apply (run_after_label _ _ _ _ _ _ _ _ _ _ _ _ _ Hreach Hlabels).
    now apply for_label_s3_rejected.
  - intros w file report categories urlPath done label todo reports w2 score e
           Hreach Hlabels Hdest Hscore path svg req Hwrite Hclients Hrej.
    apply (run_after_label _ _ _ _ _ _ _ _ _ _ _ _ _ Hreach Hlabels).
    now apply for_label_azure_rejected.
  - intros w file report categories urlPath reports w2 data e
           Hreach Hreports Hdest Hfile req Hrej.
    apply (run_after_report _ _ _ _ _ _ _ _ _ _ Hreach).
    now apply upload_report_s3_rejected.
  - intros w file report categories urlPath reports w2 data e
           Hreach Hreports Hdest Hfile path req Hclients Hrej.
    apply (run_after_report _ _ _ _ _ _ _ _ _ _ Hreach).
    now apply upload_report_azure_rejected.
Qed.

(** A report that parses to a value other than [null] and has no (truthy)
    [categories] is skipped with the warning [Invalid file <name>]: that
    warning is the whole effect of the file, so no badge is written and
    nothing is uploaded for it, and the loop goes on with the remaining
    files. *)
Lemma missing_categories_skipped (rt : Runtime)
        (inputs : gmap jsstring jsstring) file rest w buffer report categories :
  files w !! path_join rt (reportsPath rt inputs) file = Some buffer ->
  JSON_parse rt (Buffer_toString rt buffer) = Ok report ->
  Get report (str "categories") = Ok categories ->
  truthy categories = false ->
  for_file rt inputs file w
  = (Ok tt, logged [EWarning (str "Invalid file " ++ file)] w)
  /\ for_each (file :: rest) (for_file rt inputs) w
     = for_each rest (for_file rt inputs)
         (logged [EWarning (str "Invalid file " ++ file)] w).
Proof.
  intros Hfile Hparse Hget Hfalsy.
  assert (for_file rt inputs file w
          = (Ok tt, logged [EWarning (str "Invalid file " ++ file)] w)) as E.
  { unfold for_file, bind, readFileSync, lift.
    now rewrite Hfile, Hparse, Hget, Hfalsy. }
  split; [exact E | now apply for_each_cons_ok].
Qed.

(** A report that parses to [null] has no [categories] either, but the
    unguarded read [report.categories] throws on it. *)
Lemma null_report_throws (rt : Runtime) (inputs : gmap jsstring jsstring)
      file w buffer :
  files w !! path_join rt (reportsPath rt inputs) file = Some buffer ->
  JSON_parse rt (Buffer_toString rt buffer) = Ok VNull ->
  for_file rt inputs file w
  = (Throw (mkError (str "Cannot read properties of null (reading 'categories')")),
     w).
Proof.
  intros Hfile Hparse. unfold for_file, bind, readFileSync, lift.
  now rewrite Hfile, Hparse.
Qed.

(** C8. A report that does not parse ends the run: the error reaches the
    catch of [run], which sets the failing status with the message
    [Action failed with error: <message>]; the world is left as the files
    before it left it, and none of the files after it is looked at. *)
Theorem parse_error_ends_run (rt : Runtime) (inputs : gmap jsstring jsstring)
        w entries before file after w1 buffer e :
  dirs w !! reportsPath rt inputs = Some entries ->
  List.filter (endsWith (str ".report.json")) entries = before ++ file :: after ->
  for_each before (for_file rt inputs) w = (Ok tt, w1) ->
  files w1 !! path_join rt (reportsPath rt inputs) file = Some buffer ->
  JSON_parse rt (Buffer_toString rt buffer) = Throw e ->
  run rt inputs w
  = (Ok tt, logged [ESetFailed (str "Action failed with error: " ++ message e)] w1).
Proof.
  intros Hdir Hfilter Hbefore Hfile Hparse.
  unfold run, try_catch, run_try, bind, readdirSync.
  rewrite Hdir, Hfilter.
  replace (Nat.eqb (List.length (before ++ file :: after)) 0) with false
    by (rewrite List.length_app; simpl; symmetry; apply Nat.eqb_neq; lia).
  rewrite (for_each_app_ok _ _ _ _ _ Hbefore).
  erewrite for_each_cons_throw; [reflexivity|].
  unfold for_file, bind, readFileSync, lift.
  now rewrite Hfile, Hparse.
Qed.

(** ** The URL path *)

Section UrlPath.

Lemma star_k_blocked cls k s :
  (forall c t, cls c = true -> k (c :: t) = None) ->
  star_k cls k s = k (dropWhile cls s).
Proof.
  intros Hk. induction s as [|c s IH]; simpl; [reflexivity|].
  destruct (cls c) eqn:Hc; [|reflexivity].
  rewrite IH. destruct (k (dropWhile cls s)); [reflexivity|].
  now apply Hk.
Qed.

Lemma star_k_total cls (k : jsstring -> option jsstring) s :
  (forall t, k t = Some t) ->
  star_k cls k s = Some (dropWhile cls s).
Proof.
  intros Hk. induction s as [|c s IH]; simpl; [apply Hk|].
  destruct (cls c); [now rewrite IH | apply Hk].
Qed.

Lemma word_not_colon c : word c = true -> N.eqb (ch ":") c = false.
Proof.
  intros H. destruct (N.eqb_spec (ch ":") c) as [<-|]; [|reflexivity].
  discriminate H.
Qed.

Lemma word_not_slash c : word c = true -> N.eqb (ch "/") c = false.
Proof.
  intros H. destruct (N.eqb_spec (ch "/") c) as [<-|]; [|reflexivity].
  discriminate H.
Qed.

(** The tail of the expression, [\/\/[^/]+], at the head of a text. *)
Lemma match_host b a :
  matchK (Seq (Lit (str "//")) (Plus notSlash)) b a (fun _ rest => Some rest)
  = after_host a.
Proof.
  change (str "//") with [ch "/"; ch "/"].
  destruct a as [|s1 [|s2 [|h t]]];
    cbn [matchK startsWith List.length List.skipn plus_k after_host].
  - reflexivity.
  - now destruct (N.eqb _ s1).
  - destruct (N.eqb _ s1), (N.eqb _ s2); reflexivity.
  - rewrite (N.eqb_sym s1), (N.eqb_sym s2).
    destruct (N.eqb _ s1), (N.eqb _ s2); cbn [andb]; try reflexivity.
    destruct (notSlash h); [|reflexivity].
    now apply star_k_total.
Qed.

Lemma star_k_ext cls k k' s :
  (forall t, k t = k' t) -> star_k cls k s = star_k cls k' s.
Proof.
  intros Hk. induction s as [|c s IH]; simpl; [apply Hk|].
  rewrite IH, Hk. reflexivity.
Qed.

Lemma matchK_ext r : forall b s k k',
  (forall b' t, k b' t = k' b' t) -> matchK r b s k = matchK r b s k'.
Proof.
  induction r as [l| |cls|r1 IH1 r2 IH2|r1 IH1 r2 IH2]; intros b s k k' Hk;
    cbn [matchK].
  - now rewrite Hk.
  - now rewrite Hk.
  - destruct s as [|c s]; cbn [plus_k]; [reflexivity|].
    destruct (cls c); [|reflexivity]. now apply star_k_ext.
  - apply IH1. intros b' t. now apply IH2.
  - rewrite (IH1 b s k k' Hk), (IH2 b s k k' Hk). reflexivity.
Qed.

Lemma matchK_Seq r1 r2 b s k :
  matchK (Seq r1 r2) b s k = matchK r1 b s (fun b' s1 => matchK r2 b' s1 k).
Proof. reflexivity. Qed.

Lemma exec_not_at_start s : exec_from origin_re false s = None.
Proof. induction s as [|c s IH]; simpl; [reflexivity | now rewrite IH]. Qed.

Lemma after_host_word c u : word c = true -> after_host (c :: u) = None.
Proof.
  intros Hc. unfold after_host. destruct u as [|s2 [|h t]]; try reflexivity.
  now rewrite (N.eqb_sym c), (word_not_slash _ Hc).
Qed.

Lemma match_origin u :
  matchK origin_re true u (fun _ rest => Some rest) = after_origin u.
Proof.
  unfold origin_re. rewrite matchK_Seq.
  rewrite (matchK_ext _ true u _ (fun _ s1 => after_host s1))
    by (intros; apply match_host).
  change (str ":") with [ch ":"].
  cbn [matchK startsWith List.length List.skipn].
  destruct u as [|c u]; [reflexivity|].
  cbn [plus_k after_origin dropWhile].
  destruct (word c) eqn:Hc.
  - rewrite star_k_blocked.
    + destruct (dropWhile word u) as [|colon a]; cbn [startsWith].
      * now rewrite after_host_word.
      * rewrite (N.eqb_sym _ colon), andb_true_r.
        change (List.skipn 1 (colon :: a)) with a.
        destruct (N.eqb colon (ch ":")).
        -- destruct (after_host a); [reflexivity|].
           now apply after_host_word.
        -- now apply after_host_word.
    + intros d t Hd. cbn [startsWith]. now rewrite (word_not_colon _ Hd).
  - now destruct (after_host (c :: u)).
Qed.

(** The regular expression of the source strips what the spec says. *)
Lemma replace_origin u : replace_empty origin_re u = strip_origin u.
Proof.
  unfold replace_empty.
  destruct u as [|c u]; [reflexivity|].
  cbn [exec_from]. rewrite match_origin, exec_not_at_start.
  unfold strip_origin, after_origin.
  destruct (word c).
  - destruct (dropWhile word (c :: u)) as [|colon a]; [reflexivity|].
    destruct (N.eqb colon (ch ":")); [|reflexivity].
    now destruct (after_host a).
  - now destruct (after_host (c :: u)).
Qed.

End UrlPath.

(** ** The origin of a URL *)

Section Origin.

Lemma dropWhile_all cls s t :
  Forall (fun c => cls c = true) s ->
  dropWhile cls (s ++ t) = dropWhile cls t.
Proof.
  induction 1 as [|c s Hc _ IH]; [reflexivity|]. simpl. now rewrite Hc.
Qed.

Lemma dropWhile_stop cls s :
  match s with [] => True | c :: _ => cls c = false end ->
  dropWhile cls s = s.
Proof. destruct s as [|c s]; [reflexivity|]. simpl. now intros ->. Qed.

Lemma dropWhile_suffix cls s : exists pre, s = pre ++ dropWhile cls s.
Proof.
  induction s as [|c s [pre E]]; [now exists []|]. simpl.
  destruct (cls c); [|now exists []].
  exists (c :: pre). simpl. now rewrite <- E.
Qed.

Lemma after_host_suffix a path :
  after_host a = Some path ->
  startsWith (str "//") a = true /\ exists pre, a = pre ++ path.
Proof.
  unfold after_host. destruct a as [|s1 [|s2 [|h t]]]; try discriminate.
  destruct (N.eqb_spec s1 (ch "/")) as [->|]; [|discriminate].
  destruct (N.eqb_spec s2 (ch "/")) as [->|]; [|discriminate].
  destruct (notSlash h); [|discriminate]. simpl. intros [= <-].
  split; [reflexivity|].
  destruct (dropWhile_suffix notSlash t) as [pre E].
  exists (ch "/" :: ch "/" :: h :: pre). simpl. now rewrite <- E.
Qed.

Lemma strip_origin_suffix u : exists pre, u = pre ++ strip_origin u.
Proof.
  assert (exists pre, u = pre ++ u) as Hsame by now exists [].
  assert (forall a pre0, u = pre0 ++ a ->
            exists pre, u = pre ++ match after_host a with
                                   | Some path => path
                                   | None => u
                                   end) as Hhost.
  { intros a pre0 E. destruct (after_host a) as [path|] eqn:Ea; [|exact Hsame].
    apply after_host_suffix in Ea. destruct Ea as [_ [pre ->]].
    exists (pre0 ++ pre). now rewrite <- List.app_assoc. }
  unfold strip_origin. destruct u as [|c u0] eqn:Eu; [exact Hsame|].
  rewrite <- Eu in *.
  destruct (word c).
  - destruct (dropWhile_suffix word u) as [pre0 E].
    destruct (dropWhile word u) as [|colon a]; [exact Hsame|].
    destruct (N.eqb colon (ch ":")); [|exact Hsame].
    apply (Hhost a (pre0 ++ [colon])). now rewrite <- List.app_assoc.
  - now apply (Hhost u []).
Qed.

Lemma find_first_app pat pre a :
  startsWith pat a = true -> find_first pat (pre ++ a) <> None.
Proof.
  intros Ha. induction pre as [|c pre IH]; simpl.
  - destruct a; simpl in *; rewrite Ha; discriminate.
  - destruct (startsWith pat (c :: pre ++ a)); [discriminate|].
    destruct (find_first pat (pre ++ a)) as [[p q]|]; [discriminate|].
    now contradiction IH.
Qed.

Lemma strip_origin_plain u :
  find_first (str "//") u = None -> strip_origin u = u.
Proof.
  intros Hu.
  assert (forall a pre0, u = pre0 ++ a ->
            match after_host a with Some path => path | None => u end = u)
    as Hhost.
  { intros a pre0 E. destruct (after_host a) as [path|] eqn:Ea; [|reflexivity].
    apply after_host_suffix in Ea. destruct Ea as [Hs _].
    exfalso. apply (find_first_app _ pre0 _ Hs). now rewrite <- E. }
  unfold strip_origin. destruct u as [|c u0] eqn:Eu; [reflexivity|].
  rewrite <- Eu in *.
  destruct (word c).
  - destruct (dropWhile_suffix word u) as [pre0 E].
    destruct (dropWhile word u) as [|colon a]; [reflexivity|].
    destruct (N.eqb colon (ch ":")); [|reflexivity].
    apply (Hhost a (pre0 ++ [colon])). now rewrite <- List.app_assoc.
  - now apply (Hhost u []).
Qed.

Lemma strip_origin_url scheme host rest :
  scheme <> [] -> Forall (fun c => word c = true) scheme ->
  host <> [] -> Forall (fun c => notSlash c = true) host ->
  match rest with [] => True | c :: _ => c = ch "/" end ->
  strip_origin (scheme ++ str "://" ++ host ++ rest) = rest.
Proof.
  intros Hs Hword Hh Hhost Hrest.
  assert (dropWhile word (scheme ++ str "://" ++ host ++ rest)
          = str "://" ++ host ++ rest) as Edrop
      by (now rewrite dropWhile_all).
  destruct scheme as [|c scheme]; [congruence|].
  unfold strip_origin. rewrite Edrop.
  rewrite <- List.app_comm_cons, (Forall_inv Hword).
  change (str "://" ++ host ++ rest)
    with (ch ":" :: ch "/" :: ch "/" :: host ++ rest).
  cbv iota. rewrite N.eqb_refl.
  destruct host as [|h host]; [congruence|].
  rewrite <- List.app_comm_cons. unfold after_host.
  rewrite !N.eqb_refl, (Forall_inv Hhost). cbn [andb].
  rewrite dropWhile_all by exact (Forall_inv_tail Hhost).
  apply dropWhile_stop. destruct rest as [|d rest]; [exact I|]. now subst d.
Qed.

End Origin.

Section Spec.

(** A letter is a word character, and a character of a scheme. *)
Lemma letter_word c : isLetter c = true -> word c = true.
Proof.
  unfold isLetter, word. cbv zeta. intros H.
  apply orb_true_iff in H. destruct H as [H|H]; rewrite H;
    rewrite ?orb_true_r; reflexivity.
Qed.

(** The two readings of "scheme" take the same off a URL whose scheme
    is made of letters and digits, a letter first. *)
Lemma strip_origin_agrees c u :
  isLetter c = true ->
  dropWhile word (c :: u) = dropWhile isSchemeChar (c :: u) ->
  strip_origin (c :: u) = strip_origin_spec (c :: u).
Proof.
  intros Hc Hrun. unfold strip_origin, strip_origin_spec.
  now rewrite (letter_word _ Hc), Hc, Hrun.
Qed.

End Spec.

(** ** Percentages *)

Section Rounding.

Lemma digits2_size p : digits2_pos p = Pos.size p.
Proof. induction p; simpl; congruence. Qed.

(** A positive number below [2^k] has at most [k] binary digits. *)
Lemma digits_bound p k : 0 <= k -> Zpos p < 2 ^ k -> Zpos (digits2_pos p) <= k.
Proof.
  intros Hk Hp. rewrite digits2_size.
  assert (2 ^ Zpos (Pos.size p) <= 2 * Zpos p) as Hsize.
  { change (2 * Zpos p) with (Zpos p~0). change 2 with (Zpos 2) at 1.
    rewrite <- Pos2Z.inj_pow. apply Pos2Z.pos_le_pos, Pos.size_le. }
  destruct (Z.le_gt_cases (Zpos (Pos.size p)) k) as [|Hgt]; [assumption|].
  exfalso.
  assert (2 ^ (k + 1) <= 2 ^ Zpos (Pos.size p)) as Hpow
      by (apply Z.pow_le_mono_r; lia).
  rewrite Z.pow_add_r, Z.pow_1_r in Hpow by lia. lia.
Qed.

Lemma shr_1_spec m r s :
  0 <= m ->
  shr_1 (Build_shr_record m r s) = Build_shr_record (m / 2) (Z.odd m) (r || s).
Proof.
  intros Hm. rewrite <- Z.div2_div.
  destruct m as [|[p|p|]|p]; try reflexivity. lia.
Qed.

Lemma shifted_step M k mrs :
  0 <= M -> 0 <= k -> shifted M k mrs -> shifted M (k + 1) (shr_1 mrs).
Proof.
  intros HM Hk [Hm Hrs]. destruct mrs as [m r s]. simpl in Hm, Hrs.
  assert (0 < 2 ^ k) as Hpos by (apply Z.pow_pos_nonneg; lia).
  rewrite shr_1_spec by (subst m; apply Z.div_pos; lia).
  unfold shifted. rewrite Z.pow_add_r, Z.pow_1_r by lia.
  split; simpl.
  - subst m. rewrite Z.div_div by lia. reflexivity.
  - intros H0. apply Z.mod_divide in H0; [|lia]. destruct H0 as [q Hq].
    assert (M = 2 * q * 2 ^ k) as HM' by lia.
    assert (M mod 2 ^ k = 0) as Hk0 by (rewrite HM'; apply Z.mod_mul; lia).
    destruct (Hrs Hk0) as [-> ->].
    split; [|reflexivity].
    subst m. rewrite HM', Z.div_mul by lia.
    rewrite Z.odd_mul. reflexivity.
Qed.

Lemma shifted_iter M p :
  0 <= M ->
  forall k mrs, 0 <= k -> shifted M k mrs ->
                shifted M (k + Zpos p) (SpecFloat.iter_pos shr_1 p mrs).
Proof.
  intros HM. induction p as [p IH|p IH|]; intros k mrs Hk H; simpl.
  - replace (k + Zpos p~1) with (k + 1 + Zpos p + Zpos p) by lia.
    apply IH; [lia|]. apply IH; [lia|]. now apply shifted_step.
  - replace (k + Zpos p~0) with (k + Zpos p + Zpos p) by lia.
    apply IH; [lia|]. now apply IH.
  - now apply shifted_step.
Qed.

(** The exponent the format gives to a number of [d] digits above [e]. *)
Lemma fexp_eq x : fexp prec emax x = Z.max (x - 53) (-1074).
Proof. reflexivity. Qed.

Lemma shr_fexp_exact m e :
  0 <= m ->
  let n := Z.max 0 (fexp prec emax (Zdigits2 m + e) - e) in
  exists mrs,
    shr_fexp prec emax m e loc_Exact = (mrs, e + n) /\ shifted m n mrs.
Proof.
  intros Hm n. unfold shr_fexp, shr, shr_record_of_loc. subst n.
  destruct (fexp prec emax (Zdigits2 m + e) - e) as [|p|p] eqn:E.
  - eexists; split; [now rewrite Z.add_0_r|].
    split; simpl; [now rewrite Z.div_1_r | tauto].
  - eexists; split; [reflexivity|].
    change (Z.max 0 (Z.pos p)) with (0 + Z.pos p).
    apply shifted_iter; [assumption|lia|].
    split; simpl; [now rewrite Z.div_1_r | tauto].
  - eexists; split; [now rewrite Z.add_0_r|].
    split; simpl; [now rewrite Z.div_1_r | tauto].
Qed.

(** Rounding to nearest never passes an integer bound. *)
Lemma round_le M n mrs K :
  0 <= M -> 0 <= n -> shifted M n mrs -> M <= K * 2 ^ n ->
  0 <= round_nearest_even (shr_m mrs) (loc_of_shr_record mrs) <= K.
Proof.
  intros HM Hn [Hm Hrs] HK. destruct mrs as [m r s]. simpl in Hm, Hrs.
  assert (0 < 2 ^ n) as Hpos by (apply Z.pow_pos_nonneg; lia).
  assert (0 <= m) as Hm0 by (subst m; apply Z.div_pos; lia).
  assert (m <= K) as HmK.
  { subst m. rewrite <- (Z.div_mul K (2 ^ n)) by lia.
    apply Z.div_le_mono; lia. }
  assert (r || s = true -> m + 1 <= K) as Hup.
  { intros Hrs'. assert (M mod 2 ^ n <> 0) as Hne.
    { intros H0. destruct (Hrs H0) as [-> ->]. discriminate Hrs'. }
    assert (M <> K * 2 ^ n) as Hne'
        by (intros ->; apply Hne, Z.mod_mul; lia).
    assert (M / 2 ^ n < K) by (apply Z.div_lt_upper_bound; lia).
    lia. }
  unfold round_nearest_even, loc_of_shr_record, shr_m.
  destruct r, s; simpl in Hup; try specialize (Hup eq_refl);
    repeat match goal with
           | |- context [if ?b then _ else _] => destruct b
           end; lia.
Qed.

(** A product that is at most 100 rounds to a Number that is at most
    100. *)
Lemma round_product_le mx ex :
  0 < mx -> ex <= 0 -> mx <= 100 * 2 ^ (- ex) ->
  binary_round_aux prec emax false mx ex loc_Exact = S754_zero false
  \/ exists m' e',
      binary_round_aux prec emax false mx ex loc_Exact = S754_finite false m' e'
      /\ e' <= 0 /\ Zpos m' <= 100 * 2 ^ (- e').
Proof.
  intros Hmx Hex Hle.
  assert (forall m e, 0 <= m -> e <= 0 -> m <= 100 * 2 ^ (- e) ->
                      Zdigits2 m + e <= 7) as Hdigits.
  { intros m e Hm He Hb. destruct m as [|p|p]; [simpl; lia| |lia].
    assert (Zpos (digits2_pos p) <= 7 - e); [|simpl; lia].
    apply digits_bound; [lia|].
    replace (7 - e) with (7 + - e) by lia. rewrite Z.pow_add_r by lia.
    assert (0 < 2 ^ (- e)) by (apply Z.pow_pos_nonneg; lia). lia. }
  unfold binary_round_aux.
  destruct (shr_fexp_exact mx ex) as [mrs1 [E1 S1]]; [lia|]. rewrite E1.
  set (n1 := Z.max 0 (fexp prec emax (Zdigits2 mx + ex) - ex)) in *.
  assert (0 <= n1) as Hn1 by lia.
  assert (ex + n1 <= 0) as He1.
  { specialize (Hdigits mx ex). subst n1. rewrite fexp_eq. lia. }
  set (e1 := ex + n1) in *.
  assert (100 * 2 ^ (- ex) = 100 * 2 ^ (- e1) * 2 ^ n1) as Hsplit1.
  { replace (- ex) with (- e1 + n1) by lia. rewrite Z.pow_add_r by lia. ring. }
  destruct (round_le mx n1 mrs1 (100 * 2 ^ (- e1))) as [Hm2 Hm2K];
    [lia|lia|assumption|lia|].
  set (m2 := round_nearest_even (shr_m mrs1) (loc_of_shr_record mrs1)) in *.
  destruct (shr_fexp_exact m2 e1 Hm2) as [mrs2 [E2 [S2 _]]]. rewrite E2.
  set (n2 := Z.max 0 (fexp prec emax (Zdigits2 m2 + e1) - e1)) in *.
  assert (0 <= n2) as Hn2 by lia.
  assert (e1 + n2 <= 0) as He2.
  { specialize (Hdigits m2 e1). subst n2. rewrite fexp_eq. lia. }
  set (e2 := e1 + n2) in *.
  assert (0 < 2 ^ n2) as Hpos2 by (apply Z.pow_pos_nonneg; lia).
  assert (100 * 2 ^ (- e1) = 100 * 2 ^ (- e2) * 2 ^ n2) as Hsplit2.
  { replace (- e1) with (- e2 + n2) by lia. rewrite Z.pow_add_r by lia. ring. }
  assert (0 <= shr_m mrs2 <= 100 * 2 ^ (- e2)) as [Hm3 Hm3K].
  { rewrite S2. split; [apply Z.div_pos; lia|].
    rewrite <- (Z.div_mul (100 * 2 ^ (- e2)) (2 ^ n2)) by lia.
    apply Z.div_le_mono; lia. }
  destruct (shr_m mrs2) as [|m3|m3]; [now left| |lia].
  right. exists m3, e2.
  replace (e2 <=? emax - prec) with true
    by (symmetry; apply Z.leb_le; unfold emax, prec; lia).
  auto.
Qed.

End Rounding.

Section Percentage.

(** What [to_Q] says of a Number between 0 and 1. *)
Lemma unit_interval s q :
  to_Q s = Some q -> (0 <= q <= 1)%Q ->
  (exists b, s = S754_zero b)
  \/ exists m e, s = S754_finite false m e /\ e <= 0 /\ Zpos m <= 2 ^ (- e).
Proof.
  intros Hq [H0 H1].
  destruct s as [b| | |sign m e]; try discriminate; [left; eauto|].
  right. exists m, e. simpl in Hq.
  destruct (Z.leb_spec 0 e) as [He|He]; injection Hq as <-.
  - assert (0 < 2 ^ e) as Hpos by (apply Z.pow_pos_nonneg; lia).
    rewrite <- (Zle_Qle 0), <- (Zle_Qle _ 1) in *.
    destruct sign; simpl in *; [lia|].
    assert (e = 0) as ->.
    { destruct (Z.eq_dec e 0) as [|Hne]; [assumption|exfalso].
      assert (2 ^ 1 <= 2 ^ e) by (apply Z.pow_le_mono_r; lia).
      change (2 ^ 1) with 2 in *. nia. }
    repeat split; simpl; lia.
  - unfold Qle in H0, H1. simpl in H0, H1.
    rewrite Pos2Z.inj_pow, Z2Pos.id in H1 by lia.
    destruct sign; simpl in *; [lia|].
    repeat split; lia.
Qed.

Lemma mul_hundred s :
  ((exists b, s = S754_zero b)
   \/ exists m e, s = S754_finite false m e /\ e <= 0 /\ Zpos m <= 2 ^ (- e)) ->
  at_most_hundred (mul s (of_Z 100)).
Proof.
  change (of_Z 100) with (S754_finite false 7036874417766400 (-46)).
  intros [[b ->]|(m & e & -> & He & Hm)].
  - left. simpl. eauto.
  - unfold mul, SFmul. change (xorb false false) with false.
    destruct (round_product_le (Zpos (m * 7036874417766400)) (e + -46))
      as [->|(m' & e' & -> & He' & Hm')].
    + lia.
    + lia.
    + rewrite Pos2Z.inj_mul.
      replace (- (e + -46)) with (- e + 46) by lia.
      rewrite Z.pow_add_r by lia.
      change (2 ^ 46) with 70368744177664. lia.
    + left. eauto.
    + right. eauto.
Qed.

Lemma ceil_at_most_hundred x :
  at_most_hundred x -> exists p, Math_ceil x = IInt p /\ 0 <= p <= 100.
Proof.
  intros [[s ->]|(m & e & -> & He & Hm)]; simpl.
  - exists 0. split; [reflexivity|lia].
  - eexists; split; [reflexivity|].
    destruct (Z.leb_spec 0 e) as [He0|He0].
    + assert (e = 0) as -> by lia. simpl in *. lia.
    + assert (0 < 2 ^ (- e)) as Hpos by (apply Z.pow_pos_nonneg; lia).
      assert (-100 <= Z.neg m / 2 ^ (- e))
        by (apply Z.div_le_lower_bound; lia).
      assert (Z.neg m / 2 ^ (- e) < 0)
        by (apply Z.div_lt_upper_bound; lia).
      lia.
Qed.

(** [Math_ceil] is the ceiling of the rational the Number stands for. *)
Lemma ceil_is_ceiling x q : to_Q x = Some q -> Math_ceil x = IInt (Qceiling q).
Proof.
  destruct x as [b| | |sign m e]; try discriminate; simpl.
  - intros [= <-]. reflexivity.
  - destruct (Z.leb_spec 0 e) as [He|He]; intros [= <-].
    + now rewrite Qceiling_Z.
    + unfold Qceiling, Qfloor, Qopp. simpl Qnum. simpl Qden.
      rewrite Pos2Z.inj_pow, Z2Pos.id by lia. reflexivity.
Qed.

Lemma at_most_hundred_finite x : at_most_hundred x -> exists q, to_Q x = Some q.
Proof. intros [[s ->]|(m & e & -> & _)]; simpl; eauto. Qed.

End Percentage.

(** ** The accuracy of a percentage *)

Section Between.

(** Rounding to nearest never falls below an integer bound. *)
Lemma round_ge M n mrs K :
  0 <= M -> 0 <= n -> shifted M n mrs -> K * 2 ^ n <= M ->
  K <= round_nearest_even (shr_m mrs) (loc_of_shr_record mrs).
Proof.
  intros HM Hn [Hm _] HK. destruct mrs as [m r s]. simpl in Hm.
  assert (0 < 2 ^ n) as Hpos by (apply Z.pow_pos_nonneg; lia).
  assert (K <= m) as HmK by (subst m; apply Z.div_le_lower_bound; lia).
  unfold round_nearest_even, loc_of_shr_record, shr_m.
  destruct r, s;
    repeat match goal with
           | |- context [if ?b then _ else _] => destruct b
           end; lia.
Qed.

(** A product between two integers, at most 100, rounds to a Number
    between them. *)
Lemma round_product_between lo hi mx ex :
  0 < mx -> ex <= 0 -> 0 <= lo -> hi <= 100 ->
  lo * 2 ^ (- ex) <= mx <= hi * 2 ^ (- ex) ->
  (lo <= 0
   /\ binary_round_aux prec emax false mx ex loc_Exact = S754_zero false)
  \/ exists m' e',
      binary_round_aux prec emax false mx ex loc_Exact = S754_finite false m' e'
      /\ e' <= 0 /\ lo * 2 ^ (- e') <= Zpos m' <= hi * 2 ^ (- e').
Proof.
  intros Hmx Hex Hlo Hhi [Hge Hle].
  assert (forall e, e <= 0 -> 0 < 2 ^ (- e)) as Hpow
      by (intros; apply Z.pow_pos_nonneg; lia).
  assert (forall m e, 0 <= m -> e <= 0 -> m <= hi * 2 ^ (- e) ->
                      Zdigits2 m + e <= 7) as Hdigits.
  { intros m e Hm He Hb. destruct m as [|p|p]; [simpl; lia| |lia].
    assert (Zpos (digits2_pos p) <= 7 - e); [|simpl; lia].
    apply digits_bound; [lia|].
    replace (7 - e) with (7 + - e) by lia. rewrite Z.pow_add_r by lia.
    specialize (Hpow e He). change (2 ^ 7) with 128. nia. }
  unfold binary_round_aux.
  destruct (shr_fexp_exact mx ex) as [mrs1 [E1 S1]]; [lia|]. rewrite E1.
  set (n1 := Z.max 0 (fexp prec emax (Zdigits2 mx + ex) - ex)) in *.
  assert (0 <= n1) as Hn1 by lia.
  assert (ex + n1 <= 0) as He1.
  { specialize (Hdigits mx ex). subst n1. rewrite fexp_eq. lia. }
  set (e1 := ex + n1) in *.
  assert (2 ^ (- ex) = 2 ^ (- e1) * 2 ^ n1) as Hsplit1.
  { replace (- ex) with (- e1 + n1) by lia. now rewrite Z.pow_add_r by lia. }
  destruct (round_le mx n1 mrs1 (hi * 2 ^ (- e1))) as [Hm2 Hm2K];
    [lia|lia|assumption|rewrite Hsplit1 in Hle; lia|].
  pose proof (round_ge mx n1 mrs1 (lo * 2 ^ (- e1))) as Hm2L.
  set (m2 := round_nearest_even (shr_m mrs1) (loc_of_shr_record mrs1)) in *.
  assert (lo * 2 ^ (- e1) <= m2) as Hm2lo
      by (apply Hm2L; [lia|lia|assumption|rewrite Hsplit1 in Hge; lia]).
  clear Hm2L.
  destruct (shr_fexp_exact m2 e1 Hm2) as [mrs2 [E2 [S2 _]]]. rewrite E2.
  set (n2 := Z.max 0 (fexp prec emax (Zdigits2 m2 + e1) - e1)) in *.
  assert (0 <= n2) as Hn2 by lia.
  assert (e1 + n2 <= 0) as He2.
  { specialize (Hdigits m2 e1). subst n2. rewrite fexp_eq. lia. }
  set (e2 := e1 + n2) in *.
  assert (0 < 2 ^ n2) as Hpos2 by (apply Z.pow_pos_nonneg; lia).
  assert (2 ^ (- e1) = 2 ^ (- e2) * 2 ^ n2) as Hsplit2.
  { replace (- e1) with (- e2 + n2) by lia. now rewrite Z.pow_add_r by lia. }
  assert (lo * 2 ^ (- e2) <= shr_m mrs2 <= hi * 2 ^ (- e2)) as [Hm3L Hm3K].
  { rewrite S2. rewrite Hsplit2 in Hm2K, Hm2lo. split.
    - apply Z.div_le_lower_bound; lia.
    - rewrite <- (Z.div_mul (hi * 2 ^ (- e2)) (2 ^ n2)) by lia.
      apply Z.div_le_mono; lia. }
  specialize (Hpow e2 He2).
  destruct (shr_m mrs2) as [|m3|m3].
  - left. split; [nia | reflexivity].
  - right. exists m3, e2.
    replace (e2 <=? emax - prec) with true
      by (symmetry; apply Z.leb_le; unfold emax, prec; lia).
    auto.
  - nia.
Qed.

Lemma mul_between lo hi m e :
  e <= 0 -> 0 <= lo -> hi <= 100 ->
  lo * 2 ^ (- e) <= 100 * Zpos m <= hi * 2 ^ (- e) ->
  exists p, Math_ceil (mul (S754_finite false m e) (of_Z 100)) = IInt p
            /\ lo <= p <= hi.
Proof.
  intros He Hlo Hhi [Hge Hle].
  change (of_Z 100) with (S754_finite false 7036874417766400 (-46)).
  unfold mul, SFmul. change (xorb false false) with false.
  assert (0 < 2 ^ (- e)) as Hpos by (apply Z.pow_pos_nonneg; lia).
  destruct (round_product_between lo hi (Zpos (m * 7036874417766400))
                                  (e + -46))
    as [[Hlo0 ->]|(m' & e' & -> & He' & Hm'L & Hm'H)];
    [lia|lia|lia|lia| | |].
  - rewrite Pos2Z.inj_mul.
    replace (- (e + -46)) with (- e + 46) by lia.
    rewrite Z.pow_add_r by lia.
    change (2 ^ 46) with 70368744177664. lia.
  - exists 0. split; [reflexivity | nia].
  - eexists. split; [reflexivity|].
    assert (0 < 2 ^ (- e')) as Hpos' by (apply Z.pow_pos_nonneg; lia).
    destruct (Z.leb_spec 0 e') as [He0|He0].
    + assert (e' = 0) as -> by lia. simpl in *. lia.
    + cbn [cond_Zopp Z.opp].
      assert (- hi <= Z.neg m' / 2 ^ (- e'))
        by (apply Z.div_le_lower_bound; lia).
      assert (Z.neg m' / 2 ^ (- e') <= - lo).
      { destruct (Z.le_gt_cases (Z.neg m' / 2 ^ (- e')) (- lo)) as [|Hgt];
          [assumption | exfalso].
        assert (2 ^ (- e') * (Z.neg m' / 2 ^ (- e')) <= Z.neg m')
          by (apply Z.mul_div_le; lia).
        nia. }
      lia.
Qed.

(** The percentage of a score between 0 and 1 lies between the floor and
    the ceiling of a hundred times the score. *)
Lemma ceil_product_between s q :
  to_Q s = Some q -> (0 <= q <= 1)%Q ->
  exists p, Math_ceil (mul s (of_Z 100)) = IInt p
            /\ Qfloor (q * 100) <= p <= Qceiling (q * 100).
Proof.
  intros Hq Hrange.
  destruct (unit_interval s q Hq Hrange) as [[b ->]|(m & e & -> & He & Hm)].
  - injection Hq as <-. exists 0. split; [reflexivity|].
    change (0 * 100)%Q with (0 # 1)%Q. vm_compute. split; discriminate.
  - assert (0 < 2 ^ (- e)) as Hpos by (apply Z.pow_pos_nonneg; lia).
    assert (Qfloor (q * 100) = (100 * Zpos m) / 2 ^ (- e)
            /\ Qceiling (q * 100) = - ((- (100 * Zpos m)) / 2 ^ (- e)))
      as [-> ->].
    { simpl in Hq. destruct (Z.leb_spec 0 e) as [He0|He0]; injection Hq as <-.
      - assert (e = 0) as -> by lia.
        unfold Qceiling, Qfloor. simpl.
        change (Z.pos (1 * 1)) with 1. change (2 ^ (- 0)) with 1.
        change (2 ^ 0) with 1. rewrite !Z.div_1_r. split; lia.
      - unfold Qceiling, Qfloor, Qmult, Qopp, inject_Z. simpl Qnum. simpl Qden.
        rewrite Pos.mul_1_r, Pos2Z.inj_pow, Z2Pos.id by lia.
        change (Z.pos m * 100) with (Zpos m * 100).
        rewrite (Z.mul_comm (Zpos m) 100). split; reflexivity. }
    apply mul_between; [assumption| | |].
    + apply Z.div_pos; lia.
    + assert (- 100 <= - (100 * Zpos m) / 2 ^ (- e))
        by (apply Z.div_le_lower_bound; lia).
      lia.
    + split.
      * rewrite Z.mul_comm. apply Z.mul_div_le; lia.
      * assert (2 ^ (- e) * (- (100 * Zpos m) / 2 ^ (- e)) <= - (100 * Zpos m))
          by (apply Z.mul_div_le; lia).
        lia.
Qed.

End Between.

Section Positive.

(** A number of [d] binary digits is at least [2^(d-1)]. *)
Lemma digits_lower m : 0 < m -> 2 ^ (Zdigits2 m - 1) <= m.
Proof.
  intros Hm. destruct m as [|p|p]; try lia. simpl Zdigits2.
  rewrite digits2_size.
  assert (2 ^ Zpos (Pos.size p) <= 2 * Zpos p) as Hsize.
  { change (2 * Zpos p) with (Zpos p~0). change 2 with (Zpos 2) at 1.
    rewrite <- Pos2Z.inj_pow. apply Pos2Z.pos_le_pos, Pos.size_le. }
  replace (Zpos (Pos.size p)) with (Zpos (Pos.size p) - 1 + 1) in Hsize by lia.
  rewrite Z.pow_add_r, Z.pow_1_r in Hsize by lia. lia.
Qed.

(** What is shifted out of a mantissa leaves something of it, when the
    exponent is not below [low] and the mantissa holds [2 ^ low] at
    least: nothing is rounded to zero. *)
Lemma shift_keeps m e low :
  0 < m -> 0 <= low -> -1074 - low <= e ->
  2 ^ low <= m ->
  let n := Z.max 0 (fexp prec emax (Zdigits2 m + e) - e) in
  2 ^ n <= m.
Proof.
  intros Hm Hlow He Hbig n. subst n. rewrite fexp_eq.
  pose proof (digits_lower m Hm) as Hd.
  assert (0 < Zdigits2 m) as Hdpos by (destruct m; simpl; lia).
  destruct (Z.max_spec 0 (Z.max (Zdigits2 m + e - 53) (-1074) - e))
    as [[_ ->]|[_ ->]]; [|simpl; lia].
  destruct (Z.max_spec (Zdigits2 m + e - 53) (-1074)) as [[_ ->]|[_ ->]].
  - transitivity (2 ^ low); [apply Z.pow_le_mono_r; lia | assumption].
  - transitivity (2 ^ (Zdigits2 m - 1)); [apply Z.pow_le_mono_r; lia|].
    assumption.
Qed.

Lemma round_product_positive mx ex :
  2 ^ 46 <= mx -> -1120 <= ex ->
  binary_round_aux prec emax false mx ex loc_Exact <> S754_zero false.
Proof.
  intros Hmx Hex.
  assert (0 < mx) as Hpos by (change (2 ^ 46) with 70368744177664 in Hmx; lia).
  unfold binary_round_aux.
  destruct (shr_fexp_exact mx ex) as [mrs1 [E1 S1]]; [lia|]. rewrite E1.
  pose proof (shift_keeps mx ex 46 Hpos) as Hkeep1.
  set (n1 := Z.max 0 (fexp prec emax (Zdigits2 mx + ex) - ex)) in *.
  assert (0 <= n1) as Hn1 by lia.
  set (e1 := ex + n1) in *.
  assert (-1074 <= e1) as He1.
  { subst e1 n1. rewrite fexp_eq. lia. }
  pose proof (round_ge mx n1 mrs1 1) as Hm2.
  set (m2 := round_nearest_even (shr_m mrs1) (loc_of_shr_record mrs1)) in *.
  assert (1 <= m2) as Hm2pos.
  { apply Hm2; [lia|lia|assumption|]. rewrite Z.mul_1_l.
    apply Hkeep1; [lia|lia|assumption]. }
  clear Hm2.
  destruct (shr_fexp_exact m2 e1) as [mrs2 [E2 [S2 _]]]; [lia|]. rewrite E2.
  pose proof (shift_keeps m2 e1 0) as Hkeep2.
  set (n2 := Z.max 0 (fexp prec emax (Zdigits2 m2 + e1) - e1)) in *.
  assert (2 ^ n2 <= m2) as Hn2 by (apply Hkeep2; simpl; lia).
  assert (0 < 2 ^ n2) as Hpos2 by (apply Z.pow_pos_nonneg; lia).
  assert (1 <= shr_m mrs2) as Hm3
      by (rewrite S2; apply Z.div_le_lower_bound; lia).
  destruct (shr_m mrs2) as [|m3|m3]; [lia| |lia].
  destruct (_ <=? _); discriminate.
Qed.

Lemma valid_exponent m e :
  valid_binary prec emax (S754_finite false m e) = true -> -1074 <= e.
Proof.
  simpl. unfold bounded, canonical_mantissa. intros H.
  apply andb_prop in H. destruct H as [H _].
  apply Z.eqb_eq in H. rewrite fexp_eq in H. lia.
Qed.

End Positive.



(** The binary64 product is not the product of the rationals: 0.01 is
    stored as a Number slightly above 1/100, its exact product with 100 is
    above 1 (ceiling 2), and the rounded product is 1. *)
Example percentage_rounds_the_product :
  Math_ceil (mul one_percent (of_Z 100)) = IInt 1
  /\ (exists q, to_Q one_percent = Some q /\ Qceiling (q * 100) = 2).
Proof. split; [reflexivity|]. eexists; split; reflexivity. Qed.

(** ** The URL path of a report *)

(** C4, as the claim states it, fails in four places. A [finalUrl] that
    is there and empty gives [/main], as an absent one does, where the
    claim strips the empty text and keeps it. A URL without a scheme,
    [//host/path], loses its host, where the claim finds no
    [scheme://host] prefix and keeps the text. A scheme that holds [-]
    (or [+], or [.]) is not stripped: the text is kept whole. And a run
    of word characters that is no scheme, with [_] in it or a digit first,
    is stripped as if it were one. *)
Lemma urlPath_departs_from_the_words :
  (urlPath_of (VObject [(str "finalUrl", VString [])]) = Ok (str "/main")
   /\ urlPath_spec (Some []) = [])
  /\ (urlPath_of (VObject [(str "finalUrl", VString (str "//cdn.x/y"))])
      = Ok (str "/y")
      /\ urlPath_spec (Some (str "//cdn.x/y")) = str "//cdn.x/y")
  /\ (urlPath_of
        (VObject [(str "finalUrl",
                   VString (str "chrome-extension://abc/page.html"))])
      = Ok (str "chrome-extension://abc/page.html")
      /\ urlPath_spec (Some (str "chrome-extension://abc/page.html"))
         = str "/page.html")
  /\ (urlPath_of (VObject [(str "finalUrl", VString (str "a_b://h/p"))])
      = Ok (str "/p")
      /\ urlPath_spec (Some (str "a_b://h/p")) = str "a_b://h/p")
  /\ (urlPath_of (VObject [(str "finalUrl", VString (str "1a://h/p"))])
      = Ok (str "/p")
      /\ urlPath_spec (Some (str "1a://h/p")) = str "1a://h/p").
Proof. repeat split; reflexivity. Qed.

(** C4, amended. The URL path of a report is derived from [finalUrl],
    [/main] standing in for a [finalUrl] that is absent or empty (falsy):
    a leading [//host] is stripped, with the scheme before it when there
    is one, a scheme being a run of word characters and a colon; a path
    that is exactly [/] becomes [/main]. On a URL whose scheme is made of
    letters and digits, a letter first, that is the claim as it stands.
    The path is derived once for the report: the keys of all its badges
    and the key of the report itself are built on that one path. *)
Theorem urlPath_derivation report finalUrl :
  Get report (str "finalUrl") = Ok finalUrl ->
  truthy finalUrl = false \/ (exists u, finalUrl = VString u) ->
  urlPath_of report = Ok (urlPath_amended (given_url finalUrl))
  /\ (forall c u,
         finalUrl = VString (c :: u) ->
         isLetter c = true ->
         dropWhile word (c :: u) = dropWhile isSchemeChar (c :: u) ->
         urlPath_of report = Ok (urlPath_spec (present_url finalUrl)))
  /\ forall rt inputs file w buffer categories,
      files w !! path_join rt (reportsPath rt inputs) file = Some buffer ->
      JSON_parse rt (Buffer_toString rt buffer) = Ok report ->
      Get report (str "categories") = Ok categories ->
      truthy categories = true ->
      for_file rt inputs file w
      = bind (for_each (resultCategories inputs)
                (for_label rt inputs file categories
                           (urlPath_amended (given_url finalUrl))))
             (fun _ => upload_report rt inputs file
                         (urlPath_amended (given_url finalUrl))) w.
Proof.
  intros Hget Hshape.
  assert (urlPath_of report = Ok (urlPath_amended (given_url finalUrl)))
    as Hpath.
  { unfold urlPath_of.
    assert (OptGet report (str "finalUrl") = Ok finalUrl) as ->
        by (destruct report; try discriminate; assumption).
    destruct (truthy finalUrl) eqn:Htruthy.
    - destruct Hshape as [|[u ->]]; [discriminate|].
      destruct u as [|c u]; [discriminate|].
      unfold urlPath_amended, given_url. cbn [default from_option].
      now rewrite replace_origin.
    - assert (given_url finalUrl = None) as ->
          by (destruct finalUrl as [| | | |[|]| |]; try reflexivity; discriminate).
      reflexivity. }
  split; [exact Hpath|]. split.
  - intros c u -> Hc Hrun. rewrite Hpath.
    unfold urlPath_amended, urlPath_spec, given_url, present_url.
    change (default (str "/main") (Some (c :: u))) with (c :: u).
    now rewrite (strip_origin_agrees _ _ Hc Hrun).
  - intros rt inputs file w buffer categories Hfile Hparse Hcat Htruthy.
    unfold for_file at 1. unfold bind at 1 2 3, readFileSync, lift.
    rewrite Hfile, Hparse, Hcat, Htruthy. cbn [negb].
    unfold bind at 1. now rewrite Hpath.
Qed.

(** ** What a run adds to the log *)

Section Adds.

Context {A B : Type} (P : Event -> Prop).

Lemma adds_nothing (m : M A) :
  (forall w, log (snd (m w)) = log w) -> adds P m.
Proof. intros H w. exists []. split; [apply H | constructor]. Qed.

Lemma adds_ret (a : A) : adds P (ret a).
Proof. now apply adds_nothing. Qed.

Lemma adds_lift (r : Res A) : adds P (lift r).
Proof. now apply adds_nothing. Qed.

Lemma adds_bind (m : M A) (k : A -> M B) :
  adds P m -> (forall a, adds P (k a)) -> adds P (bind m k).
Proof.
  intros Hm Hk w. unfold bind.
  destruct (Hm w) as [new1 [E1 F1]].
  destruct (m w) as [[a|e] w1]; simpl in E1.
  - destruct (Hk a w1) as [new2 [E2 F2]].
    exists (new2 ++ new1). rewrite E2, E1, List.app_assoc.
    split; [reflexivity | now apply Forall_app].
  - now exists new1.
Qed.

Lemma adds_emit (ev : Event) : P ev -> adds P (emit ev).
Proof.
  intros H w. exists [ev]. split; [reflexivity | now repeat constructor].
Qed.

End Adds.

Section AddsMore.

Context (P : Event -> Prop).

Lemma adds_try_catch (body : M unit) (handler : Error -> M unit) :
  adds P body -> (forall e, adds P (handler e)) -> adds P (try_catch body handler).
Proof.
  intros Hb Hh w. unfold try_catch.
  destruct (Hb w) as [new1 [E1 F1]].
  destruct (body w) as [[a|e] w1]; simpl in E1.
  - now exists new1.
  - destruct (Hh e w1) as [new2 [E2 F2]].
    exists (new2 ++ new1). rewrite E2, E1, List.app_assoc.
    split; [reflexivity | now apply Forall_app].
Qed.

Lemma adds_for_each {A} (l : list A) (body : A -> M unit) :
  (forall x, List.In x l -> adds P (body x)) -> adds P (for_each l body).
Proof.
  induction l as [|x l IH]; intros H; simpl.
  - apply adds_ret.
  - apply adds_bind; [apply H; now left|].
    intros _. apply IH. intros y Hy. apply H. now right.
Qed.

Lemma adds_readdirSync path : adds P (readdirSync path).
Proof.
  apply adds_nothing. intros w. unfold readdirSync. now destruct (dirs w !! path).
Qed.

Lemma adds_readFileSync path : adds P (readFileSync path).
Proof.
  apply adds_nothing. intros w. unfold readFileSync.
  destruct (files w !! path); [reflexivity|]. now destruct (dirs w !! path).
Qed.

End AddsMore.

Section AddsUploads.

Variable rt : Runtime.
Variable inputs : gmap jsstring jsstring.
Variable ps : S3Request -> Prop.
Variable pa : AzureRequest -> Prop.

Lemma adds_writeFileSync path data :
  adds (uploads ps pa) (writeFileSync rt path data).
Proof.
  intros w. unfold writeFileSync. destruct (write_error rt w path).
  - exists []. split; [reflexivity | constructor].
  - exists [EWriteFile path data].
    split; [reflexivity | now repeat constructor].
Qed.

Lemma adds_core ev :
  match ev with ES3Upload _ | EAzureUpload _ => False | _ => True end ->
  adds (uploads ps pa) (emit ev).
Proof. intros H. apply adds_emit. now destruct ev. Qed.

Lemma adds_uploadToS3 filePath bucketName accessKeyId secretAccessKey region
      rawName contentType :
  (forall data, ps (mkS3Request accessKeyId secretAccessKey region bucketName
                                rawName data (default svg_type contentType))) ->
  adds (uploads ps pa)
       (uploadToS3 rt filePath bucketName accessKeyId secretAccessKey region
                   rawName contentType).
Proof.
  intros Hps. unfold uploadToS3.
  apply adds_bind; [apply adds_readFileSync|]. intros data.
  apply adds_try_catch.
  - apply adds_bind.
    + intros w. eexists [_]. split; [reflexivity|].
      repeat constructor. apply Hps.
    + intros Location. apply adds_bind; [|intros _]; now apply adds_core.
  - intros e. now apply adds_core.
Qed.

Lemma adds_uploadToAzure filePath containerName accountName accountKey :
  (forall data, pa (azure_request rt filePath containerName accountName
                                  accountKey data)) ->
  adds (uploads ps pa)
       (uploadToAzure rt filePath containerName accountName accountKey).
Proof.
  intros Hpa. unfold uploadToAzure.
  apply adds_bind; [apply adds_lift|]. intros _.
  apply adds_bind; [apply adds_readFileSync|]. intros data.
  apply adds_bind; [apply adds_lift|]. intros _.
  apply adds_try_catch.
  - apply adds_bind.
    + intros w. eexists [_]. split; [reflexivity|].
      repeat constructor. apply Hpa.
    + intros _. apply adds_bind; [|intros _]; now apply adds_core.
  - intros e. now apply adds_core.
Qed.

(** What the loops need of [ps] and [pa]: the requests the source builds
    for a badge and for a report satisfy them, as far as the destination
    lets them be sent. *)
Hypothesis badge_s3 : forall file label urlPath data,
    endsWith (str ".report.json") file = true ->
    List.In label (resultCategories inputs) ->
    uploadDestination inputs = str "s3" ->
    ps (s3_request inputs (badge_key inputs urlPath label) data svg_type).
Hypothesis report_s3 : forall file urlPath data,
    endsWith (str ".report.json") file = true ->
    uploadDestination inputs = str "s3" ->
    ps (s3_request inputs (s3Prefix inputs ++ urlPath ++ str ".report.json")
                   data (str "application/json")).
Hypothesis badge_azure : forall file label data,
    endsWith (str ".report.json") file = true ->
    List.In label (resultCategories inputs) ->
    uploadDestination inputs = str "azure" ->
    pa (azure_request_of rt inputs (svgFileName_of rt inputs file label) data).
Hypothesis report_azure : forall file data,
    endsWith (str ".report.json") file = true ->
    uploadDestination inputs = str "azure" ->
    pa (azure_request_of rt inputs (path_join rt (reportsPath rt inputs) file)
                         data).

Lemma eqb_true (s t : jsstring) : JSString.eqb s t = true -> s = t.
Proof. unfold JSString.eqb. apply bool_decide_eq_true. Qed.

Lemma adds_for_label file categories urlPath label :
  endsWith (str ".report.json") file = true ->
  List.In label (resultCategories inputs) ->
  adds (uploads ps pa) (for_label rt inputs file categories urlPath label).
Proof.
  intros Hfile Hlabel. unfold for_label.
  apply adds_bind; [apply adds_lift|]. intros score.
  apply adds_bind; [apply adds_writeFileSync|]. intros _.
  destruct (JSString.eqb (uploadDestination inputs) (str "s3")) eqn:Es3.
  - apply adds_uploadToS3. intros data.
    apply (badge_s3 file); auto using eqb_true.
  - destruct (JSString.eqb (uploadDestination inputs) (str "azure")) eqn:Eaz.
    + apply adds_uploadToAzure. intros data.
      apply (badge_azure file); auto using eqb_true.
    + apply adds_ret.
Qed.

Lemma adds_upload_report file urlPath :
  endsWith (str ".report.json") file = true ->
  adds (uploads ps pa) (upload_report rt inputs file urlPath).
Proof.
  intros Hfile. unfold upload_report.
  destruct (JSString.eqb (uploadReports inputs) (str "true")); [|apply adds_ret].
  destruct (JSString.eqb (uploadDestination inputs) (str "s3")) eqn:Es3.
  - apply adds_uploadToS3. intros data.
    apply (report_s3 file); auto using eqb_true.
  - destruct (JSString.eqb (uploadDestination inputs) (str "azure")) eqn:Eaz.
    + apply adds_uploadToAzure. intros data.
      apply (report_azure file); auto using eqb_true.
    + apply adds_ret.
Qed.

Lemma adds_for_file file :
  endsWith (str ".report.json") file = true ->
  adds (uploads ps pa) (for_file rt inputs file).
Proof.
  intros Hfile. unfold for_file.
  apply adds_bind; [apply adds_readFileSync|]. intros text.
  apply adds_bind; [apply adds_lift|]. intros report.
  apply adds_bind; [apply adds_lift|]. intros categories.
  destruct (negb (truthy categories)); [now apply adds_core|].
  apply adds_bind; [apply adds_lift|]. intros urlPath.
  apply adds_bind; [|intros _; now apply adds_upload_report].
  apply adds_for_each. intros label Hlabel. now apply adds_for_label.
Qed.

Lemma adds_run : adds (uploads ps pa) (run rt inputs).
Proof.
  unfold run, run_try.
  apply adds_try_catch; [|intros e; now apply adds_core].
  apply adds_bind; [apply adds_readdirSync|]. intros entries.
  destruct (Nat.eqb _ 0); [now apply adds_core|].
  apply adds_for_each. intros file Hfile.
  apply adds_for_file. now apply List.filter_In in Hfile.
Qed.

End AddsUploads.

(** ** The Azure uploads *)

Section Azure.

Variable rt : Runtime.
Variable inputs : gmap jsstring jsstring.

Lemma run_adds_svg_blobs : adds (uploads (fun _ => True) svg_blob) (run rt inputs).
Proof. apply adds_run; intros; exact I || reflexivity. Qed.

Lemma run_adds_named_blobs :
  uploadDestination inputs = str "azure" ->
  adds (uploads (fun _ => False) (named_after_file rt inputs)) (run rt inputs).
Proof.
  intros Hdest. apply adds_run.
  - intros file label urlPath data _ _ Hs3. rewrite Hdest in Hs3. discriminate.
  - intros file urlPath data _ Hs3. rewrite Hdest in Hs3. discriminate.
  - intros file label data Hfile Hlabel _.
    exists (replace file (str "report.json") (label ++ str ".svg")).
    split; [right; eauto | reflexivity].
  - intros file data Hfile _. exists file. split; [now left | reflexivity].
Qed.

Lemma getInput_insert_ne k v name :
  k <> str name ->
  core_getInput (<[k := v]> inputs) name = core_getInput inputs name.
Proof.
  intros Hne. unfold core_getInput. now rewrite lookup_insert_ne.
Qed.

(** Under the Azure destination the S3 prefix is never looked at. *)
Lemma run_ignores_prefix prefix :
  uploadDestination inputs = str "azure" ->
  run rt (<[str "s3-prefix" := prefix]> inputs) = run rt inputs.
Proof.
  intros Hdest.
  unfold run, run_try, for_file, for_label, upload_report, svgFileName_of.
  unfold reportsPath, uploadReports, azureContainerName,
    azureStorageAccountName, azureStorageAccountKey, resultCategories.
  assert (uploadDestination (<[str "s3-prefix" := prefix]> inputs)
          = str "azure") as Hdest'.
  { unfold uploadDestination in *. now rewrite getInput_insert_ne. }
  rewrite Hdest', Hdest.
  rewrite !getInput_insert_ne by discriminate.
  reflexivity.
Qed.

(** Under the Azure destination the badge and the report are uploaded the
    same way whatever the URL path, which only the S3 key holds. *)
Lemma for_label_ignores_urlPath file categories urlPath urlPath' label :
  uploadDestination inputs = str "azure" ->
  for_label rt inputs file categories urlPath label
  = for_label rt inputs file categories urlPath' label.
Proof. intros Hdest. unfold for_label. now rewrite Hdest. Qed.

Lemma upload_report_ignores_urlPath file urlPath urlPath' :
  uploadDestination inputs = str "azure" ->
  upload_report rt inputs file urlPath = upload_report rt inputs file urlPath'.
Proof. intros Hdest. unfold upload_report. now rewrite Hdest. Qed.

Lemma uploadToAzure_sends filePath containerName accountName accountKey w data :
  azure_container_client rt accountName accountKey containerName = Ok tt ->
  files w !! filePath = Some data ->
  azure_blob_client rt accountName accountKey containerName
                    (path_basename rt filePath) = Ok tt ->
  List.In (EAzureUpload
             (azure_request rt filePath containerName accountName accountKey
                            data))
          (log (snd (uploadToAzure rt filePath containerName accountName
                                   accountKey w))).
Proof.
  intros Hcontainer Hfile Hblob.
  unfold uploadToAzure, bind, lift, readFileSync, try_catch,
    azure_upload_promise.
  rewrite Hcontainer, Hfile, Hblob.
  destruct (azure_upload rt _ _); simpl; auto.
Qed.

Lemma upload_report_s3_json file urlPath w data :
  uploadReports inputs = str "true" ->
  uploadDestination inputs = str "s3" ->
  files w !! path_join rt (reportsPath rt inputs) file = Some data ->
  List.In (ES3Upload
             (s3_request inputs
                (s3Prefix inputs ++ urlPath ++ str ".report.json") data
                (str "application/json")))
          (log (snd (upload_report rt inputs file urlPath w))).
Proof.
  intros Hreports Hdest Hfile.
  unfold upload_report. rewrite Hreports, Hdest, !eqb_refl.
  unfold uploadToS3, bind, readFileSync, try_catch, s3_upload_promise.
  rewrite Hfile. cbn [default from_option].
  destruct (s3_upload rt _ _); simpl; auto.
Qed.

Lemma upload_report_azure_svg file urlPath w data :
  uploadReports inputs = str "true" ->
  uploadDestination inputs = str "azure" ->
  azure_clients rt inputs (path_join rt (reportsPath rt inputs) file) ->
  files w !! path_join rt (reportsPath rt inputs) file = Some data ->
  List.In (EAzureUpload
             (azure_request_of rt inputs
                (path_join rt (reportsPath rt inputs) file) data))
          (log (snd (upload_report rt inputs file urlPath w))).
Proof.
  intros Hreports Hdest [Hcontainer Hblob] Hfile.
  unfold upload_report. rewrite Hreports, Hdest, !eqb_refl.
  replace (JSString.eqb (str "azure") (str "s3")) with false by reflexivity.
  now apply uploadToAzure_sends.
Qed.

End Azure.

(** C5. Under the Azure destination every upload of a run is an Azure
    upload, and its blob is named after the base name of the local file:
    an upload whose clients can be built and whose file is there sends
    the bytes of the file under that name. The S3 key is not used: the run
    is the same whatever the S3 prefix, and the badge and the report are
    uploaded the same way whatever the URL path. *)
Theorem azure_blob_is_base_name (rt : Runtime) (inputs : gmap jsstring jsstring) :
  uploadDestination inputs = str "azure" ->
  adds (uploads (fun _ => False) (named_after_file rt inputs)) (run rt inputs)
  /\ (forall filePath containerName accountName accountKey w data,
         azure_container_client rt accountName accountKey containerName
         = Ok tt ->
         files w !! filePath = Some data ->
         azure_blob_client rt accountName accountKey containerName
                           (path_basename rt filePath) = Ok tt ->
         exists req,
           List.In (EAzureUpload req)
                   (log (snd (uploadToAzure rt filePath containerName
                                            accountName accountKey w)))
           /\ blobName req = path_basename rt filePath
           /\ content req = data)
  /\ (forall prefix, run rt (<[str "s3-prefix" := prefix]> inputs) = run rt inputs)
  /\ (forall file categories urlPath urlPath' label,
         for_label rt inputs file categories urlPath label
         = for_label rt inputs file categories urlPath' label)
  /\ (forall file urlPath urlPath',
         upload_report rt inputs file urlPath
         = upload_report rt inputs file urlPath').
Proof.
  intros Hdest. repeat split.
  - now apply run_adds_named_blobs.
  - intros filePath containerName accountName accountKey w data
           Hcontainer Hfile Hblob.
    exists (azure_request rt filePath containerName accountName accountKey data).
    split; [now apply uploadToAzure_sends | now split].
  - intros. now apply run_ignores_prefix.
  - intros. now apply for_label_ignores_urlPath.
  - intros. now apply upload_report_ignores_urlPath.
Qed.

(** C10. Every blob [uploadToAzure] sends is declared [image/svg+xml],
    whatever the arguments of the call, so every Azure upload of a run is,
    the upload of a report included: when the clients can be built and the
    report is there, it is sent as an SVG image; on S3 a report is sent as
    [application/json]. *)
Theorem azure_content_type_is_svg (rt : Runtime) (inputs : gmap jsstring jsstring) :
  (forall filePath containerName accountName accountKey,
      adds (uploads (fun _ => True) svg_blob)
           (uploadToAzure rt filePath containerName accountName accountKey))
  /\ adds (uploads (fun _ => True) svg_blob) (run rt inputs)
  /\ (forall file urlPath w data,
         uploadReports inputs = str "true" ->
         uploadDestination inputs = str "azure" ->
         azure_clients rt inputs (path_join rt (reportsPath rt inputs) file) ->
         files w !! path_join rt (reportsPath rt inputs) file = Some data ->
         exists req,
           List.In (EAzureUpload req)
                   (log (snd (upload_report rt inputs file urlPath w)))
           /\ blobName req
              = path_basename rt (path_join rt (reportsPath rt inputs) file)
           /\ content req = data
           /\ blobContentType req = str "image/svg+xml")
  /\ (forall file urlPath w data,
         uploadReports inputs = str "true" ->
         uploadDestination inputs = str "s3" ->
         files w !! path_join rt (reportsPath rt inputs) file = Some data ->
         exists req,
           List.In (ES3Upload req)
                   (log (snd (upload_report rt inputs file urlPath w)))
           /\ Key req = s3Prefix inputs ++ urlPath ++ str ".report.json"
           /\ Body req = data
           /\ ContentType req = str "application/json").
Proof.
  repeat split.
  - intros. apply adds_uploadToAzure. reflexivity.
  - apply run_adds_svg_blobs.
  - intros file urlPath w data Hreports Hdest Hclients Hfile.
    exists (azure_request_of rt inputs
              (path_join rt (reportsPath rt inputs) file) data).
    split; [now apply upload_report_azure_svg|]. now repeat split.
  - intros file urlPath w data Hreports Hdest Hfile.
    exists (s3_request inputs
              (s3Prefix inputs ++ urlPath ++ str ".report.json") data
              (str "application/json")).
    split; [now apply upload_report_s3_json|]. now repeat split.
Qed.

(** ** The badges *)

Section Badges.

Variable rt : Runtime.
Variable inputs : gmap jsstring jsstring.

(** A label the report does not have gives the percentage NaN: nothing is
    thrown. *)
Lemma percentage_absent categories label :
  Get categories label = Ok VUndefined ->
  percentage rt categories label = Ok INaN.
Proof. intros H. unfold percentage. now rewrite H. Qed.

Lemma badge_of_NaN label :
  badge_of rt INaN label = badgen rt label (str "NaN") (str "red").
Proof. reflexivity. Qed.

Lemma insert_keeps_files {V} (m : gmap jsstring V) k v p :
  is_Some (m !! p) -> is_Some (<[k := v]> m !! p).
Proof.
  intros H. destruct (decide (k = p)) as [->|Hne].
  - rewrite lookup_insert_eq. eauto.
  - now rewrite lookup_insert_ne.
Qed.

Lemma after_refl w : after w w.
Proof. repeat split; auto. Qed.

Lemma after_trans w1 w2 w3 : after w1 w2 -> after w2 w3 -> after w1 w3.
Proof.
  intros (H1 & H2 & H3) (H4 & H5 & H6). repeat split; auto.
  - intros H. now apply H3, H6.
  - intros H. now apply H6, H3.
Qed.

Lemma after_written path data w : after w (written rt path data w).
Proof.
  repeat split; simpl; [auto | apply insert_keeps_files | |];
    apply listed_None.
Qed.

(** The events a call adds leave the world after the one it
    started in. *)
Ltac after_events :=
  unfold after; simpl;
  split; [intros ? ?; auto 8 | split; [auto | intros; tauto]].

(** An upload of a file that is there returns normally, whatever the
    backend answers, and leaves the events and the files in place. *)
Lemma uploadToS3_completes filePath bucketName accessKeyId secretAccessKey
      region rawName contentType w :
  is_Some (files w !! filePath) ->
  exists w',
    uploadToS3 rt filePath bucketName accessKeyId secretAccessKey region
               rawName contentType w = (Ok tt, w')
    /\ after w w'.
Proof.
  intros [data Hfile].
  unfold uploadToS3, bind, readFileSync, try_catch, s3_upload_promise.
  rewrite Hfile.
  destruct (s3_upload rt _ _); eexists; (split; [reflexivity|]).
  - after_events.
  - after_events.
Qed.

(** So does an upload to Azure, once its clients are built. *)
Lemma uploadToAzure_completes filePath containerName accountName accountKey w :
  azure_container_client rt accountName accountKey containerName = Ok tt ->
  azure_blob_client rt accountName accountKey containerName
                    (path_basename rt filePath) = Ok tt ->
  is_Some (files w !! filePath) ->
  exists w',
    uploadToAzure rt filePath containerName accountName accountKey w
    = (Ok tt, w')
    /\ after w w'.
Proof.
  intros Hcontainer Hblob [data Hfile].
  unfold uploadToAzure, bind, lift, readFileSync, try_catch,
    azure_upload_promise.
  rewrite Hcontainer, Hfile, Hblob.
  destruct (azure_upload rt _ _) as [[]|]; eexists; (split; [reflexivity|]).
  - after_events.
  - after_events.
Qed.

(** Once the percentage is there and the file system takes the badge, the
    badge is written, whatever the backend answers, and the body of the
    loop returns normally. *)
Lemma for_label_completes file categories urlPath label score w :
  percentage rt categories label = Ok score ->
  write_error rt w (svgFileName_of rt inputs file label) = None ->
  (uploadDestination inputs = str "azure" ->
   azure_clients rt inputs (svgFileName_of rt inputs file label)) ->
  exists w',
    for_label rt inputs file categories urlPath label w = (Ok tt, w')
    /\ after w w'
    /\ List.In (EWriteFile (svgFileName_of rt inputs file label)
                           (badge_of rt score label)) (log w')
    /\ files w' !! svgFileName_of rt inputs file label
       = Some (utf8 (badge_of rt score label)).
Proof.
  intros Hp Hw Hclients. rewrite (for_label_written _ _ _ _ _ _ _ _ Hp Hw).
  cbv zeta.
  set (path := svgFileName_of rt inputs file label) in *.
  set (svg := badge_of rt score label).
  pose proof (written_holds rt path svg w) as Hheld.
  assert (is_Some (files (written rt path svg w) !! path)) as Hfile
      by (rewrite Hheld; eauto).
  assert (List.In (EWriteFile path svg) (log (written rt path svg w))) as Hin
      by now left.
  pose proof (after_written path svg w) as Hafter.
  destruct (JSString.eqb (uploadDestination inputs) (str "s3")) eqn:Es3.
  - unfold uploadToS3, bind, readFileSync, try_catch, s3_upload_promise.
    rewrite Hheld.
    destruct (s3_upload rt _ _); eexists; (split; [reflexivity|]);
      (split; [eapply after_trans; [exact Hafter|]|]).
    + after_events.
    + split; [simpl; auto 6 | exact Hheld].
    + after_events.
    + split; [simpl; auto 6 | exact Hheld].
  - destruct (JSString.eqb (uploadDestination inputs) (str "azure")) eqn:Eaz.
    + destruct (Hclients (eqb_true _ _ Eaz)) as [Hcontainer Hblob].
      unfold uploadToAzure, bind, lift, readFileSync, try_catch,
        azure_upload_promise.
      rewrite Hcontainer, Hheld, Hblob.
      destruct (azure_upload rt _ _) as [[]|]; eexists;
        (split; [reflexivity|]);
        (split; [eapply after_trans; [exact Hafter|]|]).
      * after_events.
      * split; [simpl; auto 6 | exact Hheld].
      * after_events.
      * split; [simpl; auto 6 | exact Hheld].
    + eexists. split; [reflexivity|]. repeat split; try assumption;
        apply Hafter.
Qed.

(** When the percentage of every label is there and the file system
    takes every badge, the loop over the labels writes the badge of each
    of them and returns normally. *)
Lemma labels_complete file categories urlPath labels :
  (forall label, List.In label labels ->
                 exists score, percentage rt categories label = Ok score) ->
  (uploadDestination inputs = str "azure" ->
   forall label, List.In label labels ->
                 azure_clients rt inputs (svgFileName_of rt inputs file label)) ->
  forall w,
  (forall label, List.In label labels ->
                 write_error rt w (svgFileName_of rt inputs file label) = None) ->
  exists w',
    for_each labels (for_label rt inputs file categories urlPath) w = (Ok tt, w')
    /\ after w w'
    /\ forall label, List.In label labels ->
        exists score,
          percentage rt categories label = Ok score
          /\ List.In (EWriteFile (svgFileName_of rt inputs file label)
                                 (badge_of rt score label)) (log w').
Proof.
  intros Hall Hclients.
  induction labels as [|label labels IH]; intros w Hwrite.
  - exists w. split; [reflexivity|]. split; [apply after_refl|].
    intros label [].
  - destruct (Hall label (or_introl eq_refl)) as [score Hscore].
    destruct (for_label_completes file categories urlPath label score w Hscore)
      as (w1 & E1 & Hafter1 & Hin1 & _).
    { apply Hwrite. now left. }
    { intros Hdest. apply Hclients; [assumption | now left]. }
    destruct (IH (fun l Hl => Hall l (or_intror Hl))
                 (fun Hd l Hl => Hclients Hd l (or_intror Hl)) w1)
      as (w2 & E2 & Hafter2 & Hin2).
    { intros l Hl. apply (write_error_same_dirs rt w); [apply Hafter1|].
      apply Hwrite. now right. }
    exists w2. rewrite (for_each_cons_ok _ _ _ _ _ E1).
    split; [exact E2|]. split; [eapply after_trans; eauto|].
    intros l [<-|Hl]; [|now apply Hin2].
    exists score. split; [exact Hscore | now apply Hafter2].
Qed.

Lemma upload_report_completes file urlPath w :
  (uploadDestination inputs = str "azure" ->
   azure_clients rt inputs (path_join rt (reportsPath rt inputs) file)) ->
  is_Some (files w !! path_join rt (reportsPath rt inputs) file) ->
  exists w', upload_report rt inputs file urlPath w = (Ok tt, w') /\ after w w'.
Proof.
  intros Hclients Hfile. unfold upload_report.
  destruct (JSString.eqb (uploadReports inputs) (str "true"));
    [|exists w; split; [reflexivity | apply after_refl]].
  destruct (JSString.eqb (uploadDestination inputs) (str "s3"));
    [now apply uploadToS3_completes|].
  destruct (JSString.eqb (uploadDestination inputs) (str "azure")) eqn:Eaz.
  - destruct (Hclients (eqb_true _ _ Eaz)).
    now apply uploadToAzure_completes.
  - exists w; split; [reflexivity | apply after_refl].
Qed.

(** A report that parses, has categories, a URL path, and a percentage for
    every configured label, present in the report or not, gets a badge for
    every configured label, and its processing returns normally, whatever
    the backends answer, provided that the file system takes the badges
    (the directory each badge lies in is there, and no directory has the
    name of a badge) and that, under the Azure destination, the clients
    can be built. *)
Lemma for_file_writes_badges file w buffer report categories urlPath :
  files w !! path_join rt (reportsPath rt inputs) file = Some buffer ->
  JSON_parse rt (Buffer_toString rt buffer) = Ok report ->
  Get report (str "categories") = Ok categories ->
  truthy categories = true ->
  urlPath_of report = Ok urlPath ->
  (forall label, List.In label (resultCategories inputs) ->
                 exists score, percentage rt categories label = Ok score) ->
  (forall label, List.In label (resultCategories inputs) ->
                 write_error rt w (svgFileName_of rt inputs file label) = None) ->
  (uploadDestination inputs = str "azure" ->
   forall filePath, azure_clients rt inputs filePath) ->
  exists w',
    for_file rt inputs file w = (Ok tt, w')
    /\ forall label, List.In label (resultCategories inputs) ->
        exists score,
          percentage rt categories label = Ok score
          /\ List.In (EWriteFile (svgFileName_of rt inputs file label)
                                 (badge_of rt score label)) (log w').
Proof.
  intros Hfile Hparse Hcat Htruthy Hpath Hall Hwrite Hclients.
  destruct (labels_complete file categories urlPath _ Hall
              (fun Hd l _ => Hclients Hd _) w Hwrite)
    as (w1 & E1 & (Hlog1 & Hfiles1 & _) & Hin1).
  destruct (upload_report_completes file urlPath w1) as (w2 & E2 & Hlog2 & _).
  { intros Hd. now apply Hclients. }
  { apply Hfiles1. rewrite Hfile. eauto. }
  exists w2. split.
  - unfold for_file. unfold bind at 1 2 3, readFileSync, lift.
    rewrite Hfile, Hparse, Hcat, Htruthy. cbn [negb].
    unfold bind at 1. rewrite Hpath.
    unfold bind. now rewrite E1.
  - intros label Hlabel. destruct (Hin1 label Hlabel) as (score & Hs & Hin).
    exists score. split; [exact Hs | now apply Hlog2].
Qed.

(** A replacement text without [$] is inserted as it is. *)
Lemma GetSubstitution_plain matched pre post r :
  ~ List.In (ch "$") r -> GetSubstitution matched pre post r = r.
Proof.
  induction r as [|c r IH]; intros Hr; [reflexivity|].
  assert (N.eqb c (ch "$") = false) as Hc
      by (apply N.eqb_neq; intros ->; apply Hr; now left).
  assert (GetSubstitution matched pre post r = r) as Hrest
      by (apply IH; intros Hin; apply Hr; now right).
  cbn [GetSubstitution]. rewrite Hc. now rewrite Hrest.
Qed.

(** Where the badge goes when the name of the report holds [report.json]
    at its end only and the label holds no [$]: beside the report, under
    the name of the report with [<label>.svg] for [report.json]. *)
Lemma badge_name_regular base label :
  find_first (str "report.json") (base ++ str ".report.json")
  = Some (base ++ str ".", []) ->
  ~ List.In (ch "$") label ->
  svgFileName_of rt inputs (base ++ str ".report.json") label
  = path_join rt (reportsPath rt inputs)
              (base ++ str "." ++ label ++ str ".svg").
Proof.
  intros Hfirst Hlabel. unfold svgFileName_of, replace. rewrite Hfirst.
  rewrite GetSubstitution_plain.
  - now rewrite List.app_nil_r, <- List.app_assoc.
  - intros Hin. apply List.in_app_or in Hin. destruct Hin as [Hin|Hin].
    + now apply Hlabel.
    + vm_compute in Hin. intuition discriminate.
Qed.

(** Without the input [result-categories], or with an empty one, there is
    one label, the empty one. *)
Lemma resultCategories_default :
  default [] (inputs !! str "result-categories") = [] ->
  resultCategories inputs = [[]].
Proof.
  intros H. unfold resultCategories, core_getInput. now rewrite H.
Qed.

End Badges.

(** C1, on the inputs where the source departs from it. Only the first
    [report.json] of the name of the report is replaced, and a [$] of the
    label is read as a replacement pattern: the badge of
    [lh.report.json.report.json] for [seo] is written to
    [lh.seo.svg.report.json], not to [lh.report.json.seo.svg], and the badge
    of [lh.report.json] for the label [$&] to [lh.report.json.svg], not to
    [lh.$&.svg]. *)
Theorem badge_replaces_first_occurrence :
  trace (snd (run Sample.accepting Sample.on_disk Sample.named_twice))
  = [EWriteFile (str "/r/lh.seo.svg.report.json")
                (Sample.render (str "seo") (str "90") (str "green"))]
  /\ trace (snd (run Sample.accepting Sample.dollar_label Sample.one_report))
     = [EWriteFile (str "/r/lh.report.json.svg")
                   (Sample.render (str "$&") (str "NaN") (str "red"))].
Proof. split; vm_compute; reflexivity. Qed.

(** C7, on the input where the source departs from it. A report file that
    holds [null] parses and has no [categories], yet it is not skipped with
    a warning: reading [report.categories] throws (line 42 lacks the [?.]
    that line 48 has), the run ends with the failing status, and the report
    after it gets no badge. *)
Theorem null_report_ends_run :
  JSON_parse Sample.accepting Sample.null_text = Ok VNull
  /\ trace (snd (run Sample.accepting Sample.on_disk Sample.null_first))
     = [ESetFailed
          (str "Action failed with error: Cannot read properties of null (reading 'categories')")].
Proof. split; vm_compute; reflexivity. Qed.

(** C9, on the input where the source departs from it. Without
    [result-categories] there is one label, the empty one, and one badge
    per report; the badge of [lh.report.json] is [lh..svg], but the badge of
    [lh.report.json.report.json] is written to [lh..svg.report.json], not to
    [lh.report.json..svg]: only the first [report.json] is replaced. *)
Theorem empty_label_replaces_first_occurrence :
  resultCategories Sample.no_categories = [[]]
  /\ trace (snd (run Sample.accepting Sample.no_categories Sample.one_report))
     = [EWriteFile (str "/r/lh..svg")
                   (Sample.render [] (str "NaN") (str "red"))]
  /\ trace (snd (run Sample.accepting Sample.no_categories Sample.named_twice))
     = [EWriteFile (str "/r/lh..svg.report.json")
                   (Sample.render [] (str "NaN") (str "red"))].
Proof. repeat split; vm_compute; reflexivity. Qed.

(** ** The theorems at work *)

(** C2 at 12, 72 and 100. *)
Lemma tier_of_72 :
  color_of (IInt 12) = str "red"
  /\ color_of (IInt 72) = str "orange"
  /\ color_of (IInt 100) = str "green".
Proof.
  split; [|split].
  - apply (proj1 (tier_of_percentage 12)). lia.
  - apply (proj1 (proj2 (tier_of_percentage 72))). lia.
  - apply (proj1 (proj2 (proj2 (tier_of_percentage 100)))). lia.
Defined.


(** The examples of the claim: [https://a.com/foo] gives [/foo],
    [https://a.com/] gives [/main], no [finalUrl] gives [/main]. *)
Lemma urlPath_examples :
  urlPath_of (VObject [(str "finalUrl", VString (str "https://a.com/foo"))])
  = Ok (str "/foo")
  /\ urlPath_of (VObject [(str "finalUrl", VString (str "https://a.com/"))])
     = Ok (str "/main")
  /\ urlPath_of (VObject [(str "categories", VObject [])]) = Ok (str "/main").
Proof.
  split; [|split].
  - exact (proj1 (urlPath_derivation
             (VObject [(str "finalUrl", VString (str "https://a.com/foo"))])
             (VString (str "https://a.com/foo")) eq_refl
             (or_intror (ex_intro _ (str "https://a.com/foo") eq_refl)))).
  - exact (proj1 (urlPath_derivation
             (VObject [(str "finalUrl", VString (str "https://a.com/"))])
             (VString (str "https://a.com/")) eq_refl
             (or_intror (ex_intro _ (str "https://a.com/") eq_refl)))).
  - exact (proj1 (urlPath_derivation (VObject [(str "categories", VObject [])])
                                     VUndefined eq_refl (or_introl eq_refl))).
Defined.

(** C5 on a run to Azure; the S3 key of the badge would have been
    [badges/foo.seo.svg], the blob is [lh.seo.svg]. *)
Lemma azure_run_names_blobs :
  uploadDestination Sample.to_azure = str "azure"
  /\ adds (uploads (fun _ => False)
                   (named_after_file Sample.accepting Sample.to_azure))
          (run Sample.accepting Sample.to_azure)
  /\ (exists req,
         List.In (EAzureUpload req)
                 (log (snd (uploadToAzure Sample.accepting
                              (str "/r/lh.report.json") (str "box")
                              (str "acct") [] Sample.one_report)))
         /\ blobName req = str "lh.report.json"
         /\ content req = utf8 Sample.report_foo_text)
  /\ (forall prefix,
         run Sample.accepting (<[str "s3-prefix" := prefix]> Sample.to_azure)
         = run Sample.accepting Sample.to_azure).
Proof.
  split; [reflexivity|].
  pose proof (azure_blob_is_base_name Sample.accepting Sample.to_azure eq_refl)
    as (Hnames & Hsends & Hprefix & _).
  split; [exact Hnames|]. split; [|exact Hprefix].
  exact (Hsends (str "/r/lh.report.json") (str "box") (str "acct") []
                Sample.one_report (utf8 Sample.report_foo_text)
                eq_refl eq_refl eq_refl).
Defined.

Example azure_blob_is_not_the_key :
  List.map
    (fun ev => match ev with
               | EAzureUpload req => blobName req
               | ES3Upload req => Key req
               | _ => []
               end)
    (trace (snd (run Sample.accepting Sample.to_azure Sample.one_report)))
  = [[]; str "lh.seo.svg"; []; []; str "lh.report.json"; []; []]
  /\ badge_key Sample.to_azure (str "/foo") (str "seo") = str "badges/foo.seo.svg".
Proof. split; vm_compute; reflexivity. Qed.

(** C6 on backends that reject, in a directory of two reports, for the
    labels [seo] and [pwa]: the badge of [seo] is written for the first
    report, its upload to S3 fails, and what is left of the run is the
    label [pwa], the upload of the report and the second report. At the
    end the four badges are written, and the six uploads have failed. *)
Lemma rejected_badge_then_next_label :
  reaches Sample.rejecting Sample.to_s3 Sample.two_reports
          (str "lh.report.json") Sample.report_foo
          (VObject [(str "performance", Sample.score Sample.half);
                    (str "seo", Sample.score Sample.nine_tenths)])
          (str "/foo") [] [str "root.report.json"] Sample.two_reports
  /\ resultCategories Sample.to_s3 = [str "seo"; str "pwa"]
  /\ run Sample.rejecting Sample.to_s3 Sample.two_reports
     = rest_of_run Sample.rejecting Sample.to_s3 (str "lh.report.json")
         (VObject [(str "performance", Sample.score Sample.half);
                   (str "seo", Sample.score Sample.nine_tenths)])
         (str "/foo") [str "pwa"] [str "root.report.json"]
         (logged
            [ESetFailed
               (str "Failed to upload badges/foo.seo.svg to S3: Access Denied");
             ES3Upload
               (s3_request Sample.to_s3 (str "badges/foo.seo.svg")
                  (utf8 (Sample.render (str "seo") (str "90") (str "green")))
                  (str "image/svg+xml"))]
            (written Sample.rejecting (str "/r/lh.seo.svg")
               (Sample.render (str "seo") (str "90") (str "green"))
               Sample.two_reports))
  /\ List.concat
       (List.map
          (fun ev => match ev with
                     | EWriteFile path _ => [path]
                     | ESetFailed _ => [str "failed"]
                     | _ => []
                     end)
          (trace (snd (run Sample.rejecting Sample.to_s3 Sample.two_reports))))
     = [str "/r/lh.seo.svg"; str "failed"; str "/r/lh.pwa.svg"; str "failed";
        str "failed";
        str "/r/root.seo.svg"; str "failed"; str "/r/root.pwa.svg";
        str "failed"; str "failed"].
Proof.
  assert (reaches Sample.rejecting Sample.to_s3 Sample.two_reports
            (str "lh.report.json") Sample.report_foo
            (VObject [(str "performance", Sample.score Sample.half);
                      (str "seo", Sample.score Sample.nine_tenths)])
            (str "/foo") [] [str "root.report.json"] Sample.two_reports)
    as Hreach.
  { exists [str "lh.report.json"; str "root.report.json"], [],
      Sample.two_reports, (utf8 Sample.report_foo_text).
    repeat split; reflexivity. }
  split; [exact Hreach|]. split; [reflexivity|]. split; [|reflexivity].
  exact (proj1 (proj2 (proj2
           (upload_failure_is_caught Sample.rejecting Sample.to_s3)))
           Sample.two_reports (str "lh.report.json") Sample.report_foo
           (VObject [(str "performance", Sample.score Sample.half);
                     (str "seo", Sample.score Sample.nine_tenths)])
           (str "/foo") [] (str "seo") [str "pwa"] [str "root.report.json"]
           Sample.two_reports (IInt 90) (mkError (str "Access Denied"))
           Hreach eq_refl eq_refl eq_refl eq_refl eq_refl).
Defined.

(** A directory whose first report has no categories: the report is
    skipped. *)
Lemma bare_report_skipped :
  files Sample.bare_first !! str "/r/bare.report.json"
  = Some (utf8 Sample.report_bare_text)
  /\ JSON_parse Sample.accepting
                (Buffer_toString Sample.accepting
                                 (utf8 Sample.report_bare_text))
     = Ok Sample.report_bare
  /\ Get Sample.report_bare (str "categories") = Ok VUndefined
  /\ for_each [str "bare.report.json"; str "lh.report.json"]
              (for_file Sample.accepting Sample.on_disk) Sample.bare_first
     = for_each [str "lh.report.json"]
                (for_file Sample.accepting Sample.on_disk)
                (logged [EWarning (str "Invalid file bare.report.json")]
                        Sample.bare_first).
Proof.
  split; [reflexivity|]. split; [reflexivity|]. split; [reflexivity|].
  exact (proj2 (missing_categories_skipped
                  Sample.accepting Sample.on_disk (str "bare.report.json")
                  [str "lh.report.json"] Sample.bare_first
                  (utf8 Sample.report_bare_text) Sample.report_bare VUndefined
                  eq_refl eq_refl eq_refl eq_refl)).
Defined.

(** C8 on a directory whose second report is malformed: the badge of the
    first report is written, the third report is never read. *)
Lemma broken_report_ends_run :
  dirs Sample.broken_second !! reportsPath Sample.accepting Sample.on_disk
  = Some [str "lh.report.json"; str "mid.report.json"; str "root.report.json"]
  /\ JSON_parse Sample.accepting
                (Buffer_toString Sample.accepting (utf8 Sample.broken_text))
     = Throw (mkError (str "Unexpected end of JSON input"))
  /\ run Sample.accepting Sample.on_disk Sample.broken_second
     = (Ok tt,
        logged [ESetFailed
                  (str "Action failed with error: Unexpected end of JSON input")]
               (written Sample.accepting (str "/r/lh.seo.svg")
                        (Sample.render (str "seo") (str "90") (str "green"))
                        Sample.broken_second)).
Proof.
  split; [reflexivity|]. split; [reflexivity|].
  exact (parse_error_ends_run
           Sample.accepting Sample.on_disk Sample.broken_second
           [str "lh.report.json"; str "mid.report.json"; str "root.report.json"]
           [str "lh.report.json"] (str "mid.report.json")
           [str "root.report.json"]
           (written Sample.accepting (str "/r/lh.seo.svg")
                    (Sample.render (str "seo") (str "90") (str "green"))
                    Sample.broken_second)
           (utf8 Sample.broken_text)
           (mkError (str "Unexpected end of JSON input"))
           eq_refl eq_refl eq_refl eq_refl eq_refl).
Defined.

(** C10 on a run that uploads a report: to Azure as an SVG image, to S3 as
    JSON. *)
Lemma report_content_types :
  azure_clients Sample.accepting Sample.to_azure (str "/r/lh.report.json")
  /\ (exists req,
      List.In (EAzureUpload req)
              (log (snd (upload_report Sample.accepting Sample.to_azure
                           (str "lh.report.json") (str "/foo")
                           Sample.one_report)))
      /\ blobName req = str "lh.report.json"
      /\ content req = utf8 Sample.report_foo_text
      /\ blobContentType req = str "image/svg+xml")
  /\ (exists req,
         List.In (ES3Upload req)
                 (log (snd (upload_report Sample.accepting Sample.to_s3
                              (str "lh.report.json") (str "/foo")
                              Sample.one_report)))
         /\ Key req = str "badges/foo.report.json"
         /\ Body req = utf8 Sample.report_foo_text
         /\ ContentType req = str "application/json").
Proof.
  assert (azure_clients Sample.accepting Sample.to_azure
                        (str "/r/lh.report.json")) as Hclients
      by (split; reflexivity).
  split; [exact Hclients|]. split.
  - exact (proj1 (proj2 (proj2
             (azure_content_type_is_svg Sample.accepting Sample.to_azure)))
             (str "lh.report.json") (str "/foo") Sample.one_report
             (utf8 Sample.report_foo_text) eq_refl eq_refl Hclients eq_refl).
  - exact (proj2 (proj2 (proj2
             (azure_content_type_is_svg Sample.accepting Sample.to_s3)))
             (str "lh.report.json") (str "/foo") Sample.one_report
             (utf8 Sample.report_foo_text) eq_refl eq_refl eq_refl).
Defined.

(** ** The ends of a run *)

(** A directory that holds no report: the run warns, succeeds, and does
    nothing else. *)
Theorem no_reports_only_warns (rt : Runtime) (inputs : gmap jsstring jsstring)
        w entries :
  dirs w !! reportsPath rt inputs = Some entries ->
  (forall name, List.In name entries ->
                endsWith (str ".report.json") name = false) ->
  run rt inputs w
  = (Ok tt, logged [EWarning (str "No Lighthouse reports found.")] w).
Proof.
  intros Hdir Hnone.
  assert (List.filter (endsWith (str ".report.json")) entries = []) as Hfilter.
  { destruct (List.filter _ entries) as [|name l] eqn:E; [reflexivity|].
    assert (List.In name (List.filter (endsWith (str ".report.json")) entries))
      as Hin by (rewrite E; now left).
    apply List.filter_In in Hin. destruct Hin as [Hin Hends].
    rewrite (Hnone name Hin) in Hends. discriminate. }
  unfold run, try_catch, run_try, bind, readdirSync.
  now rewrite Hdir, Hfilter.
Qed.

Lemma notes_only_warn :
  dirs Sample.only_notes !! reportsPath Sample.accepting Sample.on_disk
  = Some [str "notes.txt"; str "report.json"]
  /\ run Sample.accepting Sample.on_disk Sample.only_notes
     = (Ok tt, logged [EWarning (str "No Lighthouse reports found.")]
                      Sample.only_notes).
Proof.
  split; [reflexivity|].
  apply (no_reports_only_warns Sample.accepting Sample.on_disk Sample.only_notes
           [str "notes.txt"; str "report.json"]); [reflexivity|].
  intros name [<-|[<-|[]]]; reflexivity.
Defined.



(** ** Uploads that succeed, uploads that cannot start *)

(** When the bucket accepts the object, [uploadToS3] sets the output
    [s3-url] to the location the client returns and logs the key and the
    location. *)
Theorem uploadToS3_accepted (rt : Runtime) filePath bucketName accessKeyId
        secretAccessKey region rawName contentType w data location :
  files w !! filePath = Some data ->
  s3_upload rt (log w)
            (mkS3Request accessKeyId secretAccessKey region bucketName rawName
                         data (default svg_type contentType))
  = Ok location ->
  uploadToS3 rt filePath bucketName accessKeyId secretAccessKey region rawName
             contentType w
  = (Ok tt,
     logged [EInfo (str "Uploaded " ++ rawName ++ str " to S3: " ++ location);
             ESetOutput (str "s3-url") location;
             ES3Upload (mkS3Request accessKeyId secretAccessKey region
                                    bucketName rawName data
                                    (default svg_type contentType))] w).
Proof.
  intros Hfile Hok.
  unfold uploadToS3, bind, readFileSync, try_catch, s3_upload_promise.
  rewrite Hfile. fold svg_type. now rewrite Hok.
Qed.

Lemma report_accepted_by_s3 :
  files Sample.one_report !! str "/r/lh.report.json"
  = Some (utf8 Sample.report_foo_text)
  /\ trace (snd (uploadToS3 Sample.accepting (str "/r/lh.report.json")
                            (str "bucket") [] [] [] (str "badges/foo.report.json")
                            (Some (str "application/json")) Sample.one_report))
     = [ES3Upload (mkS3Request [] [] [] (str "bucket")
                               (str "badges/foo.report.json")
                               (utf8 Sample.report_foo_text)
                               (str "application/json"));
        ESetOutput (str "s3-url") (str "https://s3/bucket/badges/foo.report.json");
        EInfo (str "Uploaded badges/foo.report.json to S3: https://s3/bucket/badges/foo.report.json")].
Proof.
  split; [reflexivity|].
  now rewrite (uploadToS3_accepted Sample.accepting (str "/r/lh.report.json")
                 (str "bucket") [] [] [] (str "badges/foo.report.json")
                 (Some (str "application/json")) Sample.one_report
                 (utf8 Sample.report_foo_text)
                 (str "https://s3/bucket/badges/foo.report.json")
                 eq_refl eq_refl).
Defined.

(** When the clients of Azure can be built, the file is there and the
    container accepts the blob, [uploadToAzure] sends the bytes of the
    file under its base name, with their number, as an SVG image; it sets
    the output [azure-blob-url] to the URL of the blob client and logs the
    blob name and the URL. *)
Theorem uploadToAzure_accepted (rt : Runtime) filePath containerName
        accountName accountKey w data :
  azure_container_client rt accountName accountKey containerName = Ok tt ->
  files w !! filePath = Some data ->
  azure_blob_client rt accountName accountKey containerName
                    (path_basename rt filePath) = Ok tt ->
  let req := mkAzureRequest accountName accountKey containerName
                            (path_basename rt filePath) data
                            (List.length (bytes data))
                            (str "image/svg+xml") in
  azure_upload rt (log w) req = Ok tt ->
  uploadToAzure rt filePath containerName accountName accountKey w
  = (Ok tt,
     logged [EInfo (str "Uploaded " ++ path_basename rt filePath
                      ++ str " to Azure Blob Storage: " ++ azure_url rt req);
             ESetOutput (str "azure-blob-url") (azure_url rt req);
             EAzureUpload req] w).
Proof.
  intros Hcontainer Hfile Hblob req Hok.
  unfold uploadToAzure, bind, lift, readFileSync, try_catch,
    azure_upload_promise, byteLength.
  rewrite Hcontainer, Hfile, Hblob. fold req. now rewrite Hok.
Qed.

(** A badge with a label that is not ASCII: the blob carries the number
    of its bytes, not of its characters. *)
Lemma report_accepted_by_azure :
  files Sample.one_report !! str "/r/lh.report.json"
  = Some (utf8 Sample.report_foo_text)
  /\ List.map
       (fun ev => match ev with
                  | ESetOutput name value => name ++ str "=" ++ value
                  | EInfo msg => msg
                  | EAzureUpload req => blobName req
                  | _ => []
                  end)
       (trace (snd (uploadToAzure Sample.accepting (str "/r/lh.report.json")
                                  (str "box") (str "acct") [] Sample.one_report)))
     = [str "lh.report.json";
        str "azure-blob-url=https://acct.blob.core.windows.net/box/lh.report.json";
        str "Uploaded lh.report.json to Azure Blob Storage: https://acct.blob.core.windows.net/box/lh.report.json"]
  /\ (List.length (233%N :: str "co") = 3%nat
      /\ List.length (bytes (utf8 (233%N :: str "co"))) = 4%nat).
Proof.
  split; [reflexivity|]. split; [|split; reflexivity].
  now rewrite (uploadToAzure_accepted Sample.accepting (str "/r/lh.report.json")
                 (str "box") (str "acct") [] Sample.one_report
                 (utf8 Sample.report_foo_text) eq_refl eq_refl eq_refl eq_refl).
Defined.



(** ** Where the effects of a run come from *)

Section Provenance.

Variable rt : Runtime.
Variable inputs : gmap jsstring jsstring.
Variable w0 : World.
Variable entries : list jsstring.

Lemma evolved_start : evolved rt inputs w0 entries w0.
Proof.
  split; [|split].
  - repeat split; auto.
    + intros d l Hl. exists []. now rewrite List.app_nil_r.
    + now exists [].
  - intros p buffer Hp. now apply holds_start.
  - exists []. split; [reflexivity | constructor].
Qed.

(** Events that are added leave the world evolved. *)
Lemma evolved_events w w' evs :
  dirs w' = dirs w -> files w' = files w -> log w' = evs ++ log w ->
  Forall (run_step rt inputs w0 entries) evs ->
  evolved rt inputs w0 entries w -> evolved rt inputs w0 entries w'.
Proof.
  intros Hd Hf Hl Hevs ((Hnone & Hsome & Hkeep & Hsame & new & Hnew)
                         & Hholds & new' & Hnew' & Hall).
  split; [|split].
  - repeat split; rewrite ?Hd, ?Hf; try apply Hnone; auto.
    exists (evs ++ new). now rewrite Hl, Hnew, List.app_assoc.
  - rewrite Hf. exact Hholds.
  - exists (evs ++ new'). split.
    + now rewrite Hl, Hnew', List.app_assoc.
    + now apply Forall_app.
Qed.

(** A badge that is written leaves the world evolved. *)
Lemma evolved_written w path data :
  badge_written rt inputs w0 entries path data ->
  evolved rt inputs w0 entries w -> evolved rt inputs w0 entries (written rt path data w).
Proof.
  intros Hbadge ((Hnone & Hsome & Hkeep & Hsame & new & Hnew)
                 & Hholds & new' & Hnew' & Hall).
  destruct Hbadge as (file & label & score & Hscored & -> & ->).
  pose proof Hscored as (Hlabel & report & categories
                         & (Hfile & (buffer & Hbuf & Hparse) & Hcat & Htruthy)
                         & Hscore).
  split; [|split].
  - repeat split; simpl.
    + intros H. apply Hnone. now apply listed_None in H.
    + intros H. apply listed_None. now apply Hnone.
    + intros d l Hl. destruct (Hsome d l Hl) as [added Hadded].
      destruct (listed_Some rt (svgFileName_of rt inputs file label)
                            (dirs w) d _ Hadded) as [more Hmore].
      exists (added ++ more). now rewrite Hmore, List.app_assoc.
    + intros p Hp. apply insert_keeps_files. now apply Hkeep.
    + intros p Hp. rewrite lookup_insert_ne; [now apply Hsame|].
      intros <-. apply Hp. now exists file, label.
    + exists (EWriteFile (svgFileName_of rt inputs file label)
                         (badge_of rt score label) :: new).
      now rewrite Hnew.
  - simpl. intros p buf Hp.
    destruct (decide (svgFileName_of rt inputs file label = p)) as [<-|Hne].
    + rewrite lookup_insert_eq in Hp. injection Hp as <-.
      now apply (holds_badge rt inputs w0 entries file label buffer report
                             categories score).
    + rewrite lookup_insert_ne in Hp by assumption. now apply Hholds.
  - exists (EWriteFile (svgFileName_of rt inputs file label)
                       (badge_of rt score label) :: new').
    split; [simpl; now rewrite Hnew'|].
    apply List.Forall_cons; [|exact Hall].
    now exists file, label, score.
Qed.

Section Rules.

Context {A B : Type}.

Lemma keeps_bind (Pre : World -> Prop) (m : M A) (Q : A -> World -> Prop)
      (k : A -> M B) (R : B -> World -> Prop) :
  keeps rt inputs w0 entries Pre m Q ->
  (forall a, keeps rt inputs w0 entries (Q a) (k a) R) ->
  keeps rt inputs w0 entries Pre (bind m k) R.
Proof.
  intros Hm Hk w Hev Hw. unfold bind.
  destruct (Hm w Hev Hw) as [H1 H2].
  destruct (m w) as [[a|e] w1]; simpl in *.
  - apply Hk; [exact H1 | now apply H2].
  - split; [exact H1 | discriminate].
Qed.

End Rules.

Lemma keeps_try_catch (Pre : World -> Prop) (body : M unit)
      (handler : Error -> M unit) :
  keeps rt inputs w0 entries Pre body (fun _ _ => True) ->
  (forall e, keeps rt inputs w0 entries (fun _ => True) (handler e)
                   (fun _ _ => True)) ->
  keeps rt inputs w0 entries Pre (try_catch body handler) (fun _ _ => True).
Proof.
  intros Hb Hh w Hev Hw. unfold try_catch.
  destruct (Hb w Hev Hw) as [H1 _].
  destruct (body w) as [[a|e] w1]; simpl in *.
  - split; [exact H1 | trivial].
  - destruct (Hh e w1 H1 I) as [H2 _]. split; [exact H2 | trivial].
Qed.

Lemma keeps_for_each {A} (l : list A) (body : A -> M unit) :
  (forall x, List.In x l ->
             keeps rt inputs w0 entries (fun _ => True) (body x)
                   (fun _ _ => True)) ->
  keeps rt inputs w0 entries (fun _ => True) (for_each l body)
        (fun _ _ => True).
Proof.
  induction l as [|x l IH]; intros H; simpl.
  - intros w Hev _. split; [exact Hev | trivial].
  - eapply keeps_bind; [apply H; now left|].
    intros u. apply IH. intros y Hy. apply H. now right.
Qed.

Lemma keeps_emit (Pre : World -> Prop) ev :
  run_step rt inputs w0 entries ev ->
  keeps rt inputs w0 entries Pre (emit ev) (fun _ _ => True).
Proof.
  intros Hstep w Hev _. split; [|trivial].
  apply (evolved_events w _ [ev]); try reflexivity; [|exact Hev].
  now apply List.Forall_cons.
Qed.

Lemma keeps_s3_promise req :
  run_step rt inputs w0 entries (ES3Upload req) ->
  keeps rt inputs w0 entries (fun _ => True) (s3_upload_promise rt req)
        (fun _ _ => True).
Proof.
  intros Hstep w Hev _. split; [|trivial].
  apply (evolved_events w _ [ES3Upload req]); try reflexivity; [|exact Hev].
  now apply List.Forall_cons.
Qed.

Lemma keeps_azure_promise req :
  run_step rt inputs w0 entries (EAzureUpload req) ->
  keeps rt inputs w0 entries (fun _ => True) (azure_upload_promise rt req)
        (fun _ _ => True).
Proof.
  intros Hstep w Hev _. split; [|trivial].
  apply (evolved_events w _ [EAzureUpload req]); try reflexivity; [|exact Hev].
  now apply List.Forall_cons.
Qed.

(** An upload to S3 of what the file holds. *)
Lemma keeps_uploadToS3 (Pre : World -> Prop) filePath rawName contentType :
  uploadDestination inputs = str "s3" ->
  (forall w buffer,
      evolved rt inputs w0 entries w -> Pre w ->
      files w !! filePath = Some buffer ->
      run_step rt inputs w0 entries
        (ES3Upload (s3_request inputs rawName buffer
                               (default svg_type contentType)))) ->
  keeps rt inputs w0 entries Pre
        (uploadToS3 rt filePath (s3BucketName inputs) (s3AccessKeyId inputs)
                    (s3SecretAccessKey inputs) (s3Region inputs) rawName
                    contentType)
        (fun _ _ => True).
Proof.
  intros Hdest Hreq w Hev Hw. split; [|trivial].
  unfold uploadToS3. unfold bind at 1, readFileSync.
  destruct (files w !! filePath) as [buffer|] eqn:Hfile.
  2:{ destruct (dirs w !! filePath); exact Hev. }
  specialize (Hreq w buffer Hev Hw Hfile).
  refine (proj1 (keeps_try_catch (fun _ => True) _ _ _ _ w Hev I)).
  - eapply keeps_bind; [now apply keeps_s3_promise|].
    intros location.
    eapply keeps_bind; [|intros u]; apply keeps_emit; simpl; auto.
  - intros e. now apply keeps_emit.
Qed.

(** An upload to Azure of what the file holds. *)
Lemma keeps_uploadToAzure (Pre : World -> Prop) filePath :
  uploadDestination inputs = str "azure" ->
  (forall w buffer,
      evolved rt inputs w0 entries w -> Pre w ->
      files w !! filePath = Some buffer ->
      run_step rt inputs w0 entries
        (EAzureUpload (azure_request_of rt inputs filePath buffer))) ->
  keeps rt inputs w0 entries Pre
        (uploadToAzure rt filePath (azureContainerName inputs)
                       (azureStorageAccountName inputs)
                       (azureStorageAccountKey inputs))
        (fun _ _ => True).
Proof.
  intros Hdest Hreq w Hev Hw. split; [|trivial].
  unfold uploadToAzure. unfold bind at 1, lift.
  destruct (azure_container_client rt _ _ _) as [[]|e]; [|exact Hev].
  unfold bind at 1, readFileSync.
  destruct (files w !! filePath) as [buffer|] eqn:Hfile.
  2:{ destruct (dirs w !! filePath); exact Hev. }
  specialize (Hreq w buffer Hev Hw Hfile).
  unfold bind at 1.
  destruct (azure_blob_client rt _ _ _ _) as [[]|e]; [|exact Hev].
  refine (proj1 (keeps_try_catch (fun _ => True) _ _ _ _ w Hev I)).
  - eapply keeps_bind; [now apply keeps_azure_promise|].
    intros u.
    eapply keeps_bind; [|intros u']; apply keeps_emit; simpl; auto.
  - intros e. now apply keeps_emit.
Qed.

(** The body of the loop over the labels, for a report of the listing. *)
Lemma keeps_for_label file report categories urlPath label :
  read_as rt inputs w0 entries file report categories ->
  urlPath_of report = Ok urlPath ->
  List.In label (resultCategories inputs) ->
  keeps rt inputs w0 entries (fun _ => True)
        (for_label rt inputs file categories urlPath label)
        (fun _ _ => True).
Proof.
  intros Hread Hpath Hlabel w Hev _.
  destruct (percentage rt categories label) as [score|e] eqn:Hscore.
  2:{ unfold for_label, bind, lift. rewrite Hscore. split; [exact Hev|trivial]. }
  set (path := svgFileName_of rt inputs file label).
  set (svg := badge_of rt score label).
  assert (scored rt inputs w0 entries file label score) as Hscored
      by (split; [exact Hlabel | now exists report, categories]).
  destruct (write_error rt w path) as [e|] eqn:Hwrite.
  { unfold for_label, bind, lift. rewrite Hscore.
    fold path. rewrite (writeFileSync_refused rt _ _ _ _ Hwrite).
    split; [exact Hev | trivial]. }
  rewrite (for_label_written _ _ _ _ _ _ _ _ Hscore Hwrite). cbv zeta.
  fold path. fold svg.
  assert (evolved rt inputs w0 entries (written rt path svg w)) as Hev'.
  { apply evolved_written; [|exact Hev]. now exists file, label, score. }
  pose proof (written_holds rt path svg w) as Hheld.
  destruct (JSString.eqb (uploadDestination inputs) (str "s3")) eqn:Es3.
  - apply eqb_true in Es3.
    apply (keeps_uploadToS3
             (fun w' => files w' !! path = Some (utf8 svg)) path
             (badge_key inputs urlPath label) None Es3);
      [|exact Hev' | exact Hheld].
    intros w' buffer _ Hpre Hfile.
    assert (buffer = utf8 svg) as -> by congruence.
    split; [exact Es3|]. left.
    now exists file, label, score, report, categories, urlPath.
  - destruct (JSString.eqb (uploadDestination inputs) (str "azure")) eqn:Eaz.
    + apply eqb_true in Eaz.
      apply (keeps_uploadToAzure
               (fun w' => files w' !! path = Some (utf8 svg)) path Eaz);
        [|exact Hev' | exact Hheld].
      intros w' buffer _ Hpre Hfile.
      assert (buffer = utf8 svg) as -> by congruence.
      split; [exact Eaz|]. left. now exists file, label, score.
    + split; [exact Hev' | trivial].
Qed.

(** The upload of a report of the listing. *)
Lemma keeps_upload_report file report categories urlPath :
  read_as rt inputs w0 entries file report categories ->
  urlPath_of report = Ok urlPath ->
  keeps rt inputs w0 entries (fun _ => True)
        (upload_report rt inputs file urlPath) (fun _ _ => True).
Proof.
  intros Hread Hpath. unfold upload_report.
  destruct (JSString.eqb (uploadReports inputs) (str "true")) eqn:Er;
    [|intros w Hev _; split; [exact Hev | trivial]].
  apply eqb_true in Er.
  destruct (JSString.eqb (uploadDestination inputs) (str "s3")) eqn:Es3.
  - apply eqb_true in Es3. apply keeps_uploadToS3; [exact Es3|].
    intros w buffer (_ & Hholds & _) _ Hfile.
    split; [exact Es3|]. right. split; [exact Er|].
    exists file, report, categories, urlPath, buffer.
    split; [exact Hread|]. split; [exact Hpath|].
    split; [now apply Hholds | reflexivity].
  - destruct (JSString.eqb (uploadDestination inputs) (str "azure")) eqn:Eaz;
      [|intros w Hev _; split; [exact Hev | trivial]].
    apply eqb_true in Eaz. apply keeps_uploadToAzure; [exact Eaz|].
    intros w buffer (_ & Hholds & _) _ Hfile.
    split; [exact Eaz|]. right. split; [exact Er|].
    exists file, report, categories, buffer.
    split; [exact Hread|]. split; [now apply Hholds | reflexivity].
Qed.

(** The body of the loop over the reports of the listing. *)
Lemma keeps_for_file file :
  List.In file (reports_in entries) ->
  keeps rt inputs w0 entries (fun _ => True) (for_file rt inputs file)
        (fun _ _ => True).
Proof.
  intros Hfile w Hev _. split; [|trivial].
  unfold for_file. unfold bind at 1, readFileSync.
  destruct (files w !! path_join rt (reportsPath rt inputs) file)
    as [buffer|] eqn:Hbuffer.
  2:{ destruct (dirs w !! _); exact Hev. }
  assert (holds rt inputs w0 entries (report_path rt inputs file) buffer)
    as Hholds by (destruct Hev as (_ & H & _); now apply H).
  unfold bind at 1, lift.
  destruct (JSON_parse rt (Buffer_toString rt buffer)) as [report|e] eqn:Hparse;
    [|exact Hev].
  unfold bind at 1.
  destruct (Get report (str "categories")) as [categories|e] eqn:Hcat;
    [|exact Hev].
  destruct (truthy categories) eqn:Htruthy; cbn [negb].
  2:{ refine (proj1 (keeps_emit (fun _ => True) _ _ w Hev I)).
      right. now exists file. }
  assert (read_as rt inputs w0 entries file report categories) as Hread.
  { split; [exact Hfile|]. split; [now exists buffer|]. now split. }
  unfold bind at 1.
  destruct (urlPath_of report) as [urlPath|e] eqn:Hpath; [|exact Hev].
  refine (proj1 (keeps_bind (fun _ => True)
           (for_each (resultCategories inputs)
                     (for_label rt inputs file categories urlPath))
           (fun _ _ => True) _ _ _ _ w Hev I)).
  - apply keeps_for_each. intros label Hlabel.
    now apply (keeps_for_label file report).
  - intros u. now apply (keeps_upload_report file report categories).
Qed.

(** All along a run the world is one that evolved from the world the run
    started in. *)
Lemma run_evolves :
  dirs w0 !! reportsPath rt inputs = Some entries ->
  evolved rt inputs w0 entries (snd (run rt inputs w0)).
Proof.
  intros Hdir.
  assert (keeps rt inputs w0 entries (fun w => w = w0) (run rt inputs)
                (fun _ _ => True)) as Hrun.
  { unfold run, run_try.
    apply keeps_try_catch;
      [|intros e; now apply (keeps_emit (fun _ => True))].
    intros w Hev ->. split; [|trivial].
    unfold bind at 1, readdirSync. rewrite Hdir.
    fold (reports_in entries).
    destruct (Nat.eqb _ 0).
    - refine (proj1 (keeps_emit (fun _ => True) _ _ w0 Hev I)). now left.
    - refine (proj1 (keeps_for_each _ _ _ w0 Hev I)).
      intros file Hfile. now apply keeps_for_file. }
  now apply (Hrun w0 evolved_start).
Qed.

End Provenance.

(** ** The events of a run *)

Section Events.

Variable rt : Runtime.
Variable inputs : gmap jsstring jsstring.

Lemma adds_weaken {A} (P Q : Event -> Prop) (m : M A) :
  (forall ev, P ev -> Q ev) -> adds P m -> adds Q m.
Proof.
  intros HPQ Hm w. destruct (Hm w) as [new [E F]].
  exists new. split; [exact E|].
  eapply List.Forall_impl; [exact HPQ | exact F].
Qed.

Lemma run_added w entries :
  dirs w !! reportsPath rt inputs = Some entries ->
  added (run_step rt inputs w entries) w (snd (run rt inputs w)).
Proof.
  intros Hdir. now destruct (run_evolves rt inputs w entries Hdir) as (_ & _ & H).
Qed.

Lemma added_weaken (P Q : Event -> Prop) w w' :
  (forall ev, P ev -> Q ev) -> added P w w' -> added Q w w'.
Proof.
  intros HPQ [new [E F]]. exists new. split; [exact E|].
  eapply List.Forall_impl; [exact HPQ | exact F].
Qed.

Lemma reports_in_ends entries file :
  List.In file (reports_in entries) ->
  endsWith (str ".report.json") file = true.
Proof. intros H. now apply List.filter_In in H. Qed.

(** The events of a run have the shapes of [run_event], whatever the
    world it starts in. *)
Lemma step_event w entries ev :
  run_step rt inputs w entries ev -> run_event rt inputs ev.
Proof.
  destruct ev as [msg|msg|msg|name value|path data|req|req]; simpl; auto.
  - intros [H|(file & Hfile & H)]; [now left|].
    right. exists file. split; [now apply (reports_in_ends entries) | exact H].
  - intros (file & label & score & (Hlabel & report & categories
                                    & (Hfile & _) & _) & -> & ->).
    exists file, label, score.
    repeat split; try assumption. now apply (reports_in_ends entries).
  - intros [Hdest [H|[Hr H]]]; (split; [exact Hdest|]).
    + destruct H as (file & label & score & report & categories & urlPath
                     & Hlabel & _ & _ & Hpath & ->).
      left. exists urlPath, label, score.
      repeat split; try assumption. now exists report.
    + destruct H as (file & report & categories & urlPath & buffer
                     & _ & Hpath & _ & ->).
      right. split; [exact Hr|]. exists urlPath, buffer.
      split; [now exists report | reflexivity].
  - intros [Hdest [H|[Hr H]]]; (split; [exact Hdest|]).
    + destruct H as (file & label & score
                     & (Hlabel & report & categories & (Hfile & _) & _) & ->).
      left. exists file, label, score.
      repeat split; try assumption. now apply (reports_in_ends entries).
    + destruct H as (file & report & categories & buffer
                     & (Hfile & _) & _ & ->).
      right. split; [exact Hr|]. exists file, buffer.
      split; [now apply (reports_in_ends entries) | reflexivity].
Qed.

(** Every event of a run has one of the shapes of [run_event]. *)
Lemma adds_run_events : adds (run_event rt inputs) (run rt inputs).
Proof.
  intros w.
  destruct (dirs w !! reportsPath rt inputs) as [entries|] eqn:Hdir.
  - apply (added_weaken (run_step rt inputs w entries));
      [apply step_event | now apply run_added].
  - unfold run, try_catch, run_try, bind, readdirSync. rewrite Hdir.
    eexists [_]. split; [reflexivity|].
    now apply List.Forall_cons.
Qed.

End Events.

(** ** What a run writes and sends *)

(** Every file a run writes is the badge of a report of the directory:
    of an entry of the listing that ends in [.report.json], as that file
    is read in the course of the run, for a configured label, with the
    percentage of that label in the categories of that report; it is
    written at the path of line 60. *)
Theorem run_writes_badges_only (rt : Runtime) (inputs : gmap jsstring jsstring)
        w entries :
  dirs w !! reportsPath rt inputs = Some entries ->
  added (writes (badge_written rt inputs w entries)) w (snd (run rt inputs w)).
Proof.
  intros Hdir.
  apply (added_weaken (run_step rt inputs w entries));
    [|now apply run_added].
  intros [] H; simpl in *; auto.
Qed.

(** With a destination that is neither [s3] nor [azure] the run stays on
    the disk: nothing is uploaded, no output is set and no line of log is
    written. *)
Theorem other_destination_stays_local (rt : Runtime)
        (inputs : gmap jsstring jsstring) :
  uploadDestination inputs <> str "s3" ->
  uploadDestination inputs <> str "azure" ->
  adds stays_local (run rt inputs).
Proof.
  intros Hs3 Haz.
  apply (adds_weaken (run_event rt inputs)); [|apply adds_run_events].
  intros [] H; simpl in *; auto; tauto.
Qed.

(** Under the destination [s3] nothing goes to Azure, and every object
    sent carries the credentials, the region and the bucket of the inputs;
    it is the badge of a report of the listing for a configured label, as
    written, sent as [image/svg+xml] under the key
    [<prefix><urlPath>.<label>.svg], or, only when [upload-reports] is
    [true], the bytes a report of the listing holds, sent as
    [application/json] under [<prefix><urlPath>.report.json]; [urlPath] is
    the URL path of that report. *)
Theorem s3_objects (rt : Runtime) (inputs : gmap jsstring jsstring) w entries :
  uploadDestination inputs = str "s3" ->
  dirs w !! reportsPath rt inputs = Some entries ->
  added (uploads (fun req => badge_sent_to_s3 rt inputs w entries req
                             \/ (uploadReports inputs = str "true"
                                 /\ report_sent_to_s3 rt inputs w entries req))
                 (fun _ => False))
        w (snd (run rt inputs w)).
Proof.
  intros Hdest Hdir.
  apply (added_weaken (run_step rt inputs w entries));
    [|now apply run_added].
  intros [] H; simpl in *; auto.
  - now destruct H as [_ H].
  - destruct H as [H _]. rewrite Hdest in H. discriminate.
Qed.

(** Unless [upload-reports] is exactly [true], no report is uploaded:
    every object sent to S3 and every blob sent to Azure is the badge of a
    report of the listing for a configured label, as written. *)
Theorem reports_stay_unless_asked (rt : Runtime)
        (inputs : gmap jsstring jsstring) w entries :
  uploadReports inputs <> str "true" ->
  dirs w !! reportsPath rt inputs = Some entries ->
  added (uploads (badge_sent_to_s3 rt inputs w entries)
                 (badge_sent_to_azure rt inputs w entries))
        w (snd (run rt inputs w)).
Proof.
  intros Hreports Hdir.
  apply (added_weaken (run_step rt inputs w entries));
    [|now apply run_added].
  intros [] H; simpl in *; auto.
  - destruct H as [_ [H|[H _]]]; [exact H | contradiction].
  - destruct H as [_ [H|[H _]]]; [exact H | contradiction].
Qed.

(** Under the destination [azure] nothing is sent to S3, and every blob
    goes to the container, under the account and the key of the inputs,
    as [image/svg+xml], with the number of its bytes as length; it is the
    badge of a report of the listing for a configured label, as written,
    named after the base name of the path of the badge, or, only when
    [upload-reports] is [true], the bytes a report of the listing holds,
    named after the base name of the path of the report. *)
Theorem azure_blobs (rt : Runtime) (inputs : gmap jsstring jsstring) w entries :
  uploadDestination inputs = str "azure" ->
  dirs w !! reportsPath rt inputs = Some entries ->
  added (uploads (fun _ => False)
                 (fun req => badge_sent_to_azure rt inputs w entries req
                             \/ (uploadReports inputs = str "true"
                                 /\ report_sent_to_azure rt inputs w entries
                                                         req)))
        w (snd (run rt inputs w)).
Proof.
  intros Hdest Hdir.
  apply (added_weaken (run_step rt inputs w entries));
    [|now apply run_added].
  intros [] H; simpl in *; auto.
  - destruct H as [H _]. rewrite Hdest in H. discriminate.
  - now destruct H as [_ H].
Qed.


(** ** The labels of the badges *)

Section Labels.

Lemma split_cons sep s : exists h t, split sep s = h :: t.
Proof.
  induction s as [|c s (h & t & E)]; simpl; [eauto|].
  destruct (N.eqb c sep); [eauto|]. rewrite E. eauto.
Qed.

Lemma split_length sep s :
  List.length (split sep s) = S (count_occ N.eq_dec s sep).
Proof.
  induction s as [|c s IH]; [reflexivity|].
  cbn [split count_occ].
  destruct (N.eqb_spec c sep) as [->|Hne].
  - destruct (N.eq_dec sep sep); [|congruence]. simpl. now rewrite IH.
  - destruct (N.eq_dec c sep); [congruence|].
    destruct (split_cons sep s) as (h & t & E). rewrite E in *. exact IH.
Qed.

Lemma split_no_sep sep s field :
  List.In field (split sep s) -> ~ List.In sep field.
Proof.
  revert field. induction s as [|c s IH]; intros field; cbn [split].
  - intros [<-|[]]. auto.
  - destruct (N.eqb_spec c sep) as [->|Hne].
    + intros [<-|Hin]; [auto | now apply IH].
    + destruct (split_cons sep s) as (h & t & E). rewrite E in *.
      intros [<-|Hin].
      * intros [->|Hin]; [congruence|]. apply (IH h); [now left | assumption].
      * apply IH. now right.
Qed.

Lemma trimStart_suffix s : exists pre, s = pre ++ trimStart s.
Proof.
  induction s as [|c s [pre E]]; [now exists []|]. simpl.
  destruct (isWhiteSpace c); [|now exists []].
  exists (c :: pre). simpl. now rewrite <- E.
Qed.

Lemma trimStart_head s c t :
  trimStart s = c :: t -> isWhiteSpace c = false.
Proof.
  induction s as [|d s IH]; [discriminate|]. simpl.
  destruct (isWhiteSpace d) eqn:Hd; [exact IH|].
  now intros [= <- _].
Qed.

Lemma trimStart_In s c : List.In c (trimStart s) -> List.In c s.
Proof.
  destruct (trimStart_suffix s) as [pre E]. intros H. rewrite E.
  apply List.in_or_app. now right.
Qed.

Lemma trim_last s c t :
  rev (trim s) = c :: t -> isWhiteSpace c = false.
Proof. unfold trim. rewrite List.rev_involutive. apply trimStart_head. Qed.

Lemma trim_head s c t : trim s = c :: t -> isWhiteSpace c = false.
Proof.
  unfold trim. intros H.
  destruct (trimStart_suffix (rev (trimStart s))) as [pre E].
  apply (f_equal (@rev _)) in E.
  rewrite List.rev_involutive, List.rev_app_distr, H in E.
  simpl in E. now apply trimStart_head in E.
Qed.

Lemma joined_split sep s : joined sep (split sep s) = s.
Proof.
  induction s as [|c s IH]; [reflexivity|]. cbn [split].
  destruct (split_cons sep s) as (h & t & E). rewrite E in *.
  destruct (N.eqb_spec c sep) as [->|Hne].
  - change (joined sep ([] :: h :: t)) with (sep :: joined sep (h :: t)).
    now rewrite IH.
  - destruct t as [|h' t].
    + change (c :: h = c :: s). now rewrite <- IH.
    + change (c :: joined sep (h :: h' :: t) = c :: s). now rewrite IH.
Qed.

Lemma trimStart_white s :
  exists pre,
    s = pre ++ trimStart s /\ Forall (fun c => isWhiteSpace c = true) pre.
Proof.
  induction s as [|c s (pre & E & F)]; [now exists []|]. simpl.
  destruct (isWhiteSpace c) eqn:Hc; [|now exists []].
  exists (c :: pre). split; [simpl; now rewrite <- E|].
  now apply List.Forall_cons.
Qed.

Lemma trim_trimmed s : trimmed s (trim s).
Proof.
  split.
  - destruct (trimStart_white s) as (before & E1 & F1).
    destruct (trimStart_white (rev (trimStart s))) as (after & E2 & F2).
    exists before, (rev after). split; [|split; [exact F1|]].
    + apply (f_equal (@rev _)) in E2.
      rewrite List.rev_involutive, List.rev_app_distr in E2.
      unfold trim. now rewrite <- E2.
    + now apply List.Forall_rev.
  - intros c rest [E|E]; [eapply trim_head | eapply trim_last]; exact E.
Qed.

End Labels.

(** The labels of the badges are the fields of the input
    [result-categories] between its commas, each without the white space
    it starts and ends with: put together again with commas, the fields
    are the input, no field holds a comma, and each label is its field
    trimmed, in the order of the fields. There is one label more than
    there are commas, so at least one, also when the input is not set. *)
Theorem labels_of_input (inputs : gmap jsstring jsstring) :
  (exists fields,
      fields <> []
      /\ joined (ch ",") fields = core_getInput inputs "result-categories"
      /\ Forall (fun field => ~ List.In (ch ",") field) fields
      /\ Forall2 trimmed fields (resultCategories inputs))
  /\ List.length (resultCategories inputs)
     = S (count_occ N.eq_dec (core_getInput inputs "result-categories")
                    (ch ",")).
Proof.
  unfold resultCategories. split.
  - exists (split (ch ",") (core_getInput inputs "result-categories")).
    split; [|split; [apply joined_split | split]].
    + destruct (split_cons (ch ",")
                  (core_getInput inputs "result-categories")) as (h & t & E).
      rewrite E. discriminate.
    + apply List.Forall_forall. intros field. apply split_no_sep.
    + induction (split (ch ",") (core_getInput inputs "result-categories"))
        as [|field fields IH]; [constructor|].
      constructor; [apply trim_trimmed | exact IH].
  - now rewrite List.length_map, split_length.
Qed.

(** ** One badge *)

Section Badge.

Variable rt : Runtime.
Variable inputs : gmap jsstring jsstring.

(** Once the percentage is there, the file system takes the badge and,
    under the Azure destination, the clients can be built, the body of
    the loop over the labels returns normally in the world where the
    badge is written, with events and no other write added. *)
Lemma for_label_shape file categories urlPath label score w :
  percentage rt categories label = Ok score ->
  write_error rt w (svgFileName_of rt inputs file label) = None ->
  (uploadDestination inputs = str "azure" ->
   azure_clients rt inputs (svgFileName_of rt inputs file label)) ->
  exists evs,
    for_label rt inputs file categories urlPath label w
    = (Ok tt, logged evs (written rt (svgFileName_of rt inputs file label)
                                  (badge_of rt score label) w))
    /\ Forall (writes (fun _ _ => False)) evs.
Proof.
  intros Hp Hw Hclients. rewrite (for_label_written _ _ _ _ _ _ _ _ Hp Hw).
  cbv zeta.
  set (path := svgFileName_of rt inputs file label) in *.
  set (svg := badge_of rt score label).
  pose proof (written_holds rt path svg w) as Hheld.
  destruct (JSString.eqb (uploadDestination inputs) (str "s3")) eqn:Es3.
  - unfold uploadToS3, bind, readFileSync, try_catch, s3_upload_promise.
    rewrite Hheld.
    destruct (s3_upload rt _ _); [eexists [_; _; _] | eexists [_; _]];
      (split; [reflexivity|]);
      repeat (apply List.Forall_cons || apply List.Forall_nil); exact I.
  - destruct (JSString.eqb (uploadDestination inputs) (str "azure")) eqn:Eaz.
    + destruct (Hclients (eqb_true _ _ Eaz)) as [Hcontainer Hblob].
      unfold uploadToAzure, bind, lift, readFileSync, try_catch,
        azure_upload_promise.
      rewrite Hcontainer, Hheld, Hblob.
      destruct (azure_upload rt _ _) as [[]|];
        [eexists [_; _; _] | eexists [_; _]];
        (split; [reflexivity|]);
        repeat (apply List.Forall_cons || apply List.Forall_nil); exact I.
    + exists []. split; [reflexivity | constructor].
Qed.

End Badge.

(** A label the report does not have, or has without a score, gets a red
    badge that reads NaN, and nothing is thrown, provided that the file
    system takes the badge and that, under the Azure destination, the
    clients can be built. *)
Theorem absent_label_reads_NaN (rt : Runtime) (inputs : gmap jsstring jsstring)
        file categories urlPath label category w :
  Get categories label = Ok category ->
  OptGet category (str "score") = Ok VUndefined ->
  write_error rt w (svgFileName_of rt inputs file label) = None ->
  (uploadDestination inputs = str "azure" ->
   azure_clients rt inputs (svgFileName_of rt inputs file label)) ->
  exists w',
    for_label rt inputs file categories urlPath label w = (Ok tt, w')
    /\ List.In (EWriteFile (svgFileName_of rt inputs file label)
                           (badgen rt label (str "NaN") (str "red")))
               (log w')
    /\ files w' !! svgFileName_of rt inputs file label
       = Some (utf8 (badgen rt label (str "NaN") (str "red"))).
Proof.
  intros Hcat Hscore Hw Hclients.
  assert (percentage rt categories label = Ok INaN) as Hp
      by (unfold percentage; now rewrite Hcat, Hscore).
  destruct (for_label_completes rt inputs file categories urlPath label INaN w
              Hp Hw Hclients)
    as (w' & E & _ & Hin & Hfile).
  exists w'. split; [exact E|]. split; [exact Hin | exact Hfile].
Qed.

Section Names.

(** A pattern that does not start [x] starts [x ++ y] only when [x] is a
    beginning of the pattern and [y] goes on with the rest of it. *)
Lemma startsWith_app p x y :
  startsWith p x = false ->
  startsWith p (x ++ y) = true ->
  startsWith (List.skipn (List.length x) p) y = true
  /\ (List.length x < List.length p)%nat.
Proof.
  revert x. induction p as [|a p IH]; intros x Hx Hxy; [discriminate|].
  destruct x as [|b x]; [split; [exact Hxy | simpl; lia]|].
  cbn [startsWith app] in *.
  destruct (N.eqb a b); [|discriminate].
  destruct (IH x Hx Hxy) as [H1 H2]. split; [exact H1 | simpl; lia].
Qed.

(** [report.json] does not straddle the end of a name and the suffix
    [.report.json]. *)
Lemma no_straddle x :
  startsWith (str "report.json") x = false ->
  startsWith (str "report.json") (x ++ str ".report.json") = false.
Proof.
  intros Hx.
  destruct (startsWith (str "report.json") (x ++ str ".report.json")) eqn:E;
    [exfalso | reflexivity].
  destruct (startsWith_app _ _ _ Hx E) as [H Hlen].
  change (List.length (str "report.json")) with 11%nat in Hlen.
  do 11 (destruct x as [|? x]; [discriminate H|]); simpl in Hlen; lia.
Qed.

Lemma find_first_suffix base :
  find_first (str "report.json") base = None ->
  find_first (str "report.json") (base ++ str ".report.json")
  = Some (base ++ str ".", []).
Proof.
  induction base as [|c base IH]; intros Hnone; [reflexivity|].
  cbn [find_first] in Hnone.
  destruct (startsWith (str "report.json") (c :: base)) eqn:Hc;
    [discriminate|].
  destruct (find_first (str "report.json") base) as [[pre post]|] eqn:Hb;
    [discriminate|].
  change ((c :: base) ++ ?y) with (c :: base ++ y).
  cbn [find_first].
  change (c :: base ++ str ".report.json")
    with ((c :: base) ++ str ".report.json") at 1.
  rewrite (no_straddle _ Hc), (IH eq_refl). reflexivity.
Qed.

End Names.

(** Where the badge goes when [report.json] is in the name of the report
    at its end only and the label holds no [$]: to
    [path.join(reportsPath, <base>.<label>.svg)], the name of the report
    with [<label>.svg] for [report.json]. Once the percentage is there,
    the file system takes a file at that path and, under the Azure
    destination, the clients can be built, the badge is the one file
    written there and the body of the loop returns normally. *)
Theorem badge_beside_report (rt : Runtime) (inputs : gmap jsstring jsstring)
        base label categories urlPath score w :
  find_first (str "report.json") base = None ->
  ~ List.In (ch "$") label ->
  let path := path_join rt (reportsPath rt inputs)
                        (base ++ str "." ++ label ++ str ".svg") in
  percentage rt categories label = Ok score ->
  write_error rt w path = None ->
  (uploadDestination inputs = str "azure" -> azure_clients rt inputs path) ->
  svgFileName_of rt inputs (base ++ str ".report.json") label = path
  /\ exists evs,
      for_label rt inputs (base ++ str ".report.json") categories urlPath
                label w
      = (Ok tt, logged evs (written rt path (badge_of rt score label) w))
      /\ Forall (writes (fun _ _ => False)) evs.
Proof.
  intros Hbase Hlabel path Hp Hw Hclients.
  assert (svgFileName_of rt inputs (base ++ str ".report.json") label = path)
    as Hname.
  { apply badge_name_regular; [now apply find_first_suffix | exact Hlabel]. }
  split; [exact Hname|].
  rewrite <- Hname in *.
  now apply for_label_shape.
Qed.

(** ** More of the run *)

(** A [finalUrl] made of a scheme, [://], a host and a path gives the
    path: what follows the host, from its first slash on. A URL that ends
    with the host gives the empty path, and the path [/] gives [/main]. *)
Theorem urlPath_of_absolute_url report scheme host rest :
  scheme <> [] -> forallb word scheme = true ->
  host <> [] -> forallb notSlash host = true ->
  rest = [] \/ startsWith (str "/") rest = true ->
  Get report (str "finalUrl")
  = Ok (VString (scheme ++ str "://" ++ host ++ rest)) ->
  urlPath_of report
  = Ok (if JSString.eqb rest (str "/") then str "/main" else rest).
Proof.
  intros Hs Hword Hh Hhost Hrest Hget.
  unfold urlPath_of.
  assert (OptGet report (str "finalUrl")
          = Ok (VString (scheme ++ str "://" ++ host ++ rest))) as ->
      by (destruct report; try discriminate; assumption).
  assert (truthy (VString (scheme ++ str "://" ++ host ++ rest)) = true) as ->
      by (destruct scheme; [congruence | reflexivity]).
  rewrite replace_origin, strip_origin_url; try assumption.
  - reflexivity.
  - now apply List.Forall_forall, List.forallb_forall.
  - now apply List.Forall_forall, List.forallb_forall.
  - destruct Hrest as [->|Hrest]; [exact I|].
    destruct rest as [|c rest]; [exact I|].
    change (str "/") with [ch "/"] in Hrest. cbn [startsWith] in Hrest.
    apply andb_prop in Hrest. destruct Hrest as [Hc _].
    apply N.eqb_eq in Hc. now subst c.
Qed.

(** A [finalUrl] that holds no [//] is its own path: nothing is taken off
    it. On its own, [/] gives [/main]. *)
Theorem urlPath_of_plain report u :
  u <> [] ->
  find_first (str "//") u = None ->
  Get report (str "finalUrl") = Ok (VString u) ->
  urlPath_of report = Ok (if JSString.eqb u (str "/") then str "/main" else u).
Proof.
  intros Hu Hplain Hget. unfold urlPath_of.
  assert (OptGet report (str "finalUrl") = Ok (VString u)) as ->
      by (destruct report; try discriminate; assumption).
  assert (truthy (VString u) = true) as ->
      by (destruct u; [congruence | reflexivity]).
  now rewrite replace_origin, strip_origin_plain.
Qed.

(** The URL path of a report is never [/]; it is [/main] or an end of the
    [finalUrl] of the report. *)
Theorem urlPath_is_a_tail report urlPath :
  urlPath_of report = Ok urlPath ->
  urlPath <> str "/"
  /\ (urlPath = str "/main"
      \/ exists pre,
          Get report (str "finalUrl") = Ok (VString (pre ++ urlPath))).
Proof.
  unfold urlPath_of.
  destruct (OptGet report (str "finalUrl")) as [finalUrl|e] eqn:Hget;
    [|discriminate].
  assert (forall u,
             Ok (if JSString.eqb (replace_empty origin_re u) (str "/")
                 then str "/main" else replace_empty origin_re u)
             = Ok urlPath ->
             urlPath <> str "/"
             /\ (urlPath = str "/main" \/ exists pre, u = pre ++ urlPath))
    as Hstrip.
  { intros u. unfold JSString.eqb.
    destruct (bool_decide_reflect (replace_empty origin_re u = str "/"))
      as [E|E]; intros [= <-].
    - split; [discriminate | now left].
    - split; [exact E|]. right. rewrite replace_origin.
      apply strip_origin_suffix. }
  destruct (truthy finalUrl) eqn:Htruthy.
  - destruct finalUrl as [| | | |u| |]; try discriminate.
    intros H. destruct (Hstrip u H) as [Hroot [Hmain|[pre Hpre]]].
    + split; [exact Hroot | now left].
    + split; [exact Hroot|]. right. exists pre. rewrite <- Hpre.
      destruct report; try discriminate; exact Hget.
  - intros [= <-]. split; [discriminate | now left].
Qed.

(** A [finalUrl] that is truthy and not a string (a number, [true], an
    array, an object) has no [replace]: the report throws a TypeError
    before any of its badges is written. *)
Theorem finalUrl_without_replace_throws (rt : Runtime)
        (inputs : gmap jsstring jsstring) file w buffer report categories
        finalUrl :
  files w !! path_join rt (reportsPath rt inputs) file = Some buffer ->
  JSON_parse rt (Buffer_toString rt buffer) = Ok report ->
  Get report (str "categories") = Ok categories ->
  truthy categories = true ->
  Get report (str "finalUrl") = Ok finalUrl ->
  truthy finalUrl = true ->
  (forall u, finalUrl <> VString u) ->
  for_file rt inputs file w
  = (Throw (TypeError "url.replace is not a function"), w).
Proof.
  intros Hfile Hparse Hcat Htruthy Hget Hurl Hshape.
  unfold for_file. unfold bind at 1 2 3, readFileSync, lift.
  rewrite Hfile, Hparse, Hcat, Htruthy. cbn [negb].
  unfold bind, urlPath_of.
  assert (OptGet report (str "finalUrl") = Ok finalUrl) as ->
      by (destruct report; try discriminate; assumption).
  rewrite Hurl.
  destruct finalUrl as [| | | |u| |]; try reflexivity.
  now contradiction (Hshape u).
Qed.

(** Whatever a report throws ends the run: the error reaches the catch of
    [run], which sets the failing status with the message [Action failed
    with error: <message>]. What was written before the throw stays, and
    none of the reports after it is looked at. *)
Theorem report_error_ends_run (rt : Runtime) (inputs : gmap jsstring jsstring)
        w entries before file after w1 w2 e :
  dirs w !! reportsPath rt inputs = Some entries ->
  List.filter (endsWith (str ".report.json")) entries = before ++ file :: after ->
  for_each before (for_file rt inputs) w = (Ok tt, w1) ->
  for_file rt inputs file w1 = (Throw e, w2) ->
  run rt inputs w
  = (Ok tt, logged [ESetFailed (str "Action failed with error: " ++ message e)] w2).
Proof.
  intros Hdir Hfilter Hbefore Hfile.
  unfold run, try_catch, run_try, bind, readdirSync.
  rewrite Hdir, Hfilter.
  replace (Nat.eqb (List.length (before ++ file :: after)) 0) with false
    by (rewrite List.length_app; simpl; symmetry; apply Nat.eqb_neq; lia).
  rewrite (for_each_app_ok _ _ _ _ _ Hbefore).
  now rewrite (for_each_cons_throw _ _ _ _ _ _ Hfile).
Qed.

(** The percentage of a score between 0 and 1 is off a hundred times the
    score by less than one: it lies between the floor and the ceiling of
    that product, so it is the product itself when that is an integer. *)
Theorem percentage_is_nearly_exact (rt : Runtime) categories label category s q :
  Get categories label = Ok category ->
  Get category (str "score") = Ok (VNumber s) ->
  to_Q s = Some q ->
  (0 <= q <= 1)%Q ->
  exists p,
    percentage rt categories label = Ok (IInt p)
    /\ Qfloor (q * 100) <= p <= Qceiling (q * 100).
Proof.
  intros Hcat Hscore Hq Hrange.
  destruct (ceil_product_between s q Hq Hrange) as (p & Hp & Hbound).
  exists p. split; [|exact Hbound].
  unfold percentage. rewrite Hcat.
  assert (OptGet category (str "score") = Ok (VNumber s)) as ->
      by (destruct category; try discriminate; assumption).
  cbn [ToNumber]. now rewrite Hp.
Qed.

(** The colour of the badge by the score, between 0 and 1: green from
    9/10 on, orange from 1/2 to 89/100, red up to 49/100. *)
Theorem colour_of_score (rt : Runtime) categories label category s q :
  Get categories label = Ok category ->
  Get category (str "score") = Ok (VNumber s) ->
  to_Q s = Some q ->
  (0 <= q <= 1)%Q ->
  exists p,
    percentage rt categories label = Ok p
    /\ ((9 # 10 <= q)%Q -> color_of p = str "green")
    /\ ((1 # 2 <= q)%Q -> (q <= 89 # 100)%Q -> color_of p = str "orange")
    /\ ((q <= 49 # 100)%Q -> color_of p = str "red").
Proof.
  intros Hcat Hscore Hq Hrange.
  destruct (ceil_product_between s q Hq Hrange) as (p & Hp & Hlo & Hhi).
  exists (IInt p). split.
  { unfold percentage. rewrite Hcat.
    assert (OptGet category (str "score") = Ok (VNumber s)) as ->
        by (destruct category; try discriminate; assumption).
    cbn [ToNumber]. now rewrite Hp. }
  assert (forall n, n * Zpos (Qden q) <= Qnum q * 100 -> n <= Qfloor (q * 100))
    as Hfloor.
  { intros n Hn. destruct q as [a b]. unfold Qfloor, Qmult. simpl in *.
    rewrite Pos.mul_1_r. apply Z.div_le_lower_bound; lia. }
  assert (forall n, Qnum q * 100 <= n * Zpos (Qden q) -> Qceiling (q * 100) <= n)
    as Hceil.
  { intros n Hn. destruct q as [a b]. unfold Qceiling, Qfloor, Qmult, Qopp.
    simpl in *. rewrite Pos.mul_1_r.
    assert (- n <= - (a * 100) / Zpos b)
      by (apply Z.div_le_lower_bound; lia).
    lia. }
  unfold color_of, geb, Qle. simpl Qnum. simpl Qden. repeat split.
  - intros H. assert (90 <= Qfloor (q * 100)) by (apply Hfloor; lia).
    destruct (Z.leb_spec 90 p); [reflexivity | lia].
  - intros H1 H2.
    assert (50 <= Qfloor (q * 100)) by (apply Hfloor; lia).
    assert (Qceiling (q * 100) <= 89) by (apply Hceil; lia).
    destruct (Z.leb_spec 90 p); [lia|].
    destruct (Z.leb_spec 50 p); [reflexivity | lia].
  - intros H. assert (Qceiling (q * 100) <= 49) by (apply Hceil; lia).
    destruct (Z.leb_spec 90 p); [lia|].
    destruct (Z.leb_spec 50 p); [lia | reflexivity].
Qed.

(** A score above 0, up to 1, never reads 0: the percentage of a binary64
    Number that is positive is 1 at least. *)
Theorem positive_score_shows (rt : Runtime) categories label category s q :
  Get categories label = Ok category ->
  Get category (str "score") = Ok (VNumber s) ->
  valid_binary prec emax s = true ->
  to_Q s = Some q ->
  (0 < q)%Q -> (q <= 1)%Q ->
  exists p, percentage rt categories label = Ok (IInt p) /\ 1 <= p <= 100.
Proof.
  intros Hcat Hscore Hvalid Hq Hpos Hle.
  assert (0 <= q <= 1)%Q as Hrange by (split; [now apply Qlt_le_weak | exact Hle]).
  pose proof (mul_hundred s (unit_interval s q Hq Hrange)) as Hmul.
  destruct (ceil_at_most_hundred _ Hmul) as [p [Hp Hbound]].
  exists p. split.
  { unfold percentage. rewrite Hcat.
    assert (OptGet category (str "score") = Ok (VNumber s)) as ->
        by (destruct category; try discriminate; assumption).
    cbn [ToNumber]. now rewrite Hp. }
  split; [|lia].
  destruct (unit_interval s q Hq Hrange) as [[b ->]|(m & e & -> & He & Hm)].
  { injection Hq as <-. now apply Qlt_irrefl in Hpos. }
  pose proof (valid_exponent m e Hvalid) as Hexp.
  revert Hp.
  change (of_Z 100) with (S754_finite false 7036874417766400 (-46)).
  unfold mul, SFmul. change (xorb false false) with false.
  pose proof (round_product_positive (Zpos (m * 7036874417766400)) (e + -46))
    as Hnz.
  destruct Hmul as [[sg Hz]|(m' & e' & Hf & He' & Hm')].
  - revert Hz. change (of_Z 100) with (S754_finite false 7036874417766400 (-46)).
    unfold mul, SFmul. change (xorb false false) with false.
    intros Hz. exfalso.
    assert (sg = false) as ->.
    { revert Hz. unfold binary_round_aux.
      destruct (shr_fexp _ _ _ _ _) as [mrs1 e1].
      destruct (shr_fexp _ _ _ _ _) as [mrs2 e2].
      destruct (shr_m mrs2); [now intros [= <-]| |discriminate].
      destruct (_ <=? _); discriminate. }
    apply Hnz; [|lia|exact Hz].
    rewrite Pos2Z.inj_mul. change (2 ^ 46) with 70368744177664. lia.
  - revert Hf. change (of_Z 100) with (S754_finite false 7036874417766400 (-46)).
    unfold mul, SFmul. change (xorb false false) with false.
    intros -> [= <-].
    assert (0 < 2 ^ (- e')) as Hpow by (apply Z.pow_pos_nonneg; lia).
    destruct (Z.leb_spec 0 e') as [He0|He0].
    + assert (e' = 0) as -> by lia. simpl. lia.
    + cbn [cond_Zopp Z.opp].
      assert (Z.neg m' / 2 ^ (- e') < 0)
        by (apply Z.div_lt_upper_bound; lia).
      lia.
Qed.

(** ** More of the theorems at work *)

(** [https://a.com] has the empty path, [https://a.com/] the path
    [/main]. *)
Lemma host_only_url :
  urlPath_of (VObject [(str "finalUrl", VString (str "https://a.com"))])
  = Ok []
  /\ urlPath_of Sample.report_root = Ok (str "/main").
Proof.
  assert (str "https" <> []) as Hs by discriminate.
  assert (str "a.com" <> []) as Hh by discriminate.
  split.
  - exact (urlPath_of_absolute_url
             (VObject [(str "finalUrl", VString (str "https://a.com"))])
             (str "https") (str "a.com") [] Hs eq_refl Hh eq_refl
             (or_introl eq_refl) eq_refl).
  - exact (urlPath_of_absolute_url Sample.report_root
             (str "https") (str "a.com") (str "/") Hs eq_refl Hh eq_refl
             (or_intror eq_refl) eq_refl).
Defined.

(** A relative URL and a URL without host are kept as they are. *)
Lemma relative_url_is_kept :
  urlPath_of (VObject [(str "finalUrl", VString (str "docs/index.html"))])
  = Ok (str "docs/index.html")
  /\ urlPath_of (VObject [(str "finalUrl", VString (str "mailto:a@b.c"))])
     = Ok (str "mailto:a@b.c").
Proof.
  assert (str "docs/index.html" <> []) as H1 by discriminate.
  assert (str "mailto:a@b.c" <> []) as H2 by discriminate.
  split.
  - exact (urlPath_of_plain
             (VObject [(str "finalUrl", VString (str "docs/index.html"))])
             (str "docs/index.html") H1 eq_refl eq_refl).
  - exact (urlPath_of_plain
             (VObject [(str "finalUrl", VString (str "mailto:a@b.c"))])
             (str "mailto:a@b.c") H2 eq_refl eq_refl).
Defined.

(** [/foo] is not [/], and it is an end of [https://a.com/foo]. *)
Lemma foo_is_a_tail :
  urlPath_of Sample.report_foo = Ok (str "/foo")
  /\ str "/foo" <> str "/"
  /\ (str "/foo" = str "/main"
      \/ exists pre,
          Get Sample.report_foo (str "finalUrl")
          = Ok (VString (pre ++ str "/foo"))).
Proof.
  split; [reflexivity|].
  exact (urlPath_is_a_tail Sample.report_foo (str "/foo") eq_refl).
Defined.

(** A report whose [finalUrl] is the number 1 throws. *)
Lemma numbered_url_throws :
  JSON_parse Sample.lenient
             (Buffer_toString Sample.lenient
                              (utf8 Sample.report_numbered_text))
  = Ok Sample.report_numbered
  /\ Get Sample.report_numbered (str "finalUrl") = Ok (VNumber (of_Z 1))
  /\ for_file Sample.lenient Sample.on_disk (str "n.report.json")
              Sample.numbered_second
     = (Throw (TypeError "url.replace is not a function"),
        Sample.numbered_second).
Proof.
  split; [reflexivity|]. split; [reflexivity|].
  assert (forall u, VNumber (of_Z 1) <> VString u) as Hshape
      by (intros u; discriminate).
  exact (finalUrl_without_replace_throws
           Sample.lenient Sample.on_disk (str "n.report.json")
           Sample.numbered_second (utf8 Sample.report_numbered_text)
           Sample.report_numbered (VObject []) (VNumber (of_Z 1))
           eq_refl eq_refl eq_refl eq_refl eq_refl eq_refl Hshape).
Defined.

(** A directory whose second report throws: the badge of the first report
    is written, the third report is never read. *)
Lemma numbered_report_ends_run :
  for_file Sample.lenient Sample.on_disk (str "n.report.json")
           (written Sample.lenient (str "/r/lh.seo.svg")
                    (Sample.render (str "seo") (str "90") (str "green"))
                    Sample.numbered_second)
  = (Throw (TypeError "url.replace is not a function"),
     written Sample.lenient (str "/r/lh.seo.svg")
             (Sample.render (str "seo") (str "90") (str "green"))
             Sample.numbered_second)
  /\ run Sample.lenient Sample.on_disk Sample.numbered_second
     = (Ok tt,
        logged [ESetFailed
                  (str "Action failed with error: url.replace is not a function")]
               (written Sample.lenient (str "/r/lh.seo.svg")
                        (Sample.render (str "seo") (str "90") (str "green"))
                        Sample.numbered_second)).
Proof.
  split; [reflexivity|].
  exact (report_error_ends_run
           Sample.lenient Sample.on_disk Sample.numbered_second
           [str "lh.report.json"; str "n.report.json"; str "root.report.json"]
           [str "lh.report.json"] (str "n.report.json")
           [str "root.report.json"]
           (written Sample.lenient (str "/r/lh.seo.svg")
                    (Sample.render (str "seo") (str "90") (str "green"))
                    Sample.numbered_second)
           (written Sample.lenient (str "/r/lh.seo.svg")
                    (Sample.render (str "seo") (str "90") (str "green"))
                    Sample.numbered_second)
           (TypeError "url.replace is not a function")
           eq_refl eq_refl eq_refl eq_refl).
Defined.

(** The score 0.5 reads 50: a hundred times the score is an integer. *)
Lemma percentage_of_half :
  (Qfloor ((1 # 2) * 100) = 50 /\ Qceiling ((1 # 2) * 100) = 50)
  /\ exists p,
      percentage Sample.accepting
                 (VObject [(str "performance", Sample.score Sample.half)])
                 (str "performance") = Ok (IInt p)
      /\ Qfloor ((4503599627370496 # 9007199254740992) * 100) <= p
         <= Qceiling ((4503599627370496 # 9007199254740992) * 100).
Proof.
  split; [split; reflexivity|].
  assert (0 <= 4503599627370496 # 9007199254740992 <= 1)%Q as Hrange
      by (split; discriminate).
  exact (percentage_is_nearly_exact Sample.accepting
           (VObject [(str "performance", Sample.score Sample.half)])
           (str "performance") (Sample.score Sample.half) Sample.half
           (4503599627370496 # 9007199254740992)
           eq_refl eq_refl eq_refl Hrange).
Defined.

(** The score 0.9 is green. *)
Lemma colour_of_nine_tenths :
  exists p,
    percentage Sample.accepting
               (VObject [(str "seo", Sample.score Sample.nine_tenths)])
               (str "seo") = Ok p
    /\ color_of p = str "green".
Proof.
  assert (0 <= 8106479329266893 # 9007199254740992 <= 1)%Q as Hrange
      by (split; discriminate).
  assert (9 # 10 <= 8106479329266893 # 9007199254740992)%Q as Hgreen
      by discriminate.
  destruct (colour_of_score Sample.accepting
              (VObject [(str "seo", Sample.score Sample.nine_tenths)])
              (str "seo") (Sample.score Sample.nine_tenths) Sample.nine_tenths
              (8106479329266893 # 9007199254740992)
              eq_refl eq_refl eq_refl Hrange) as (p & Hp & Hg & _).
  exists p. split; [exact Hp | exact (Hg Hgreen)].
Defined.

(** The score 0.01 reads 1 at least. *)
Lemma one_percent_shows :
  valid_binary prec emax one_percent = true
  /\ exists p,
      percentage Sample.accepting
                 (VObject [(str "seo", Sample.score one_percent)])
                 (str "seo") = Ok (IInt p)
      /\ 1 <= p <= 100.
Proof.
  split; [reflexivity|].
  assert (0 < 5764607523034235 # 576460752303423488)%Q as Hpos by reflexivity.
  assert (5764607523034235 # 576460752303423488 <= 1)%Q as Hle by discriminate.
  exact (positive_score_shows Sample.accepting
           (VObject [(str "seo", Sample.score one_percent)])
           (str "seo") (Sample.score one_percent) one_percent
           (5764607523034235 # 576460752303423488)
           eq_refl eq_refl eq_refl eq_refl Hpos Hle).
Defined.

(** ** The run of the examples *)

(** The badges of [lh.report.json]. *)
Lemma lh_badges_written :
  dirs Sample.one_report !! reportsPath Sample.accepting Sample.two_labels
  = Some [str "lh.report.json"]
  /\ added (writes (badge_written Sample.accepting Sample.two_labels
                                  Sample.one_report [str "lh.report.json"]))
           Sample.one_report
           (snd (run Sample.accepting Sample.two_labels Sample.one_report))
  /\ List.map (fun ev => match ev with
                         | EWriteFile path _ => path
                         | _ => []
                         end)
              (log (snd (run Sample.accepting Sample.two_labels
                             Sample.one_report)))
     = [str "/r/lh.seo.svg"; str "/r/lh.performance.svg"].
Proof.
  split; [reflexivity|]. split; [|reflexivity].
  exact (run_writes_badges_only Sample.accepting Sample.two_labels
           Sample.one_report [str "lh.report.json"] eq_refl).
Defined.

Lemma on_disk_stays_local :
  uploadDestination Sample.on_disk <> str "s3"
  /\ uploadDestination Sample.on_disk <> str "azure"
  /\ adds stays_local (run Sample.accepting Sample.on_disk).
Proof.
  assert (uploadDestination Sample.on_disk <> str "s3") as H1
      by (vm_compute; discriminate).
  assert (uploadDestination Sample.on_disk <> str "azure") as H2
      by (vm_compute; discriminate).
  split; [exact H1|]. split; [exact H2|].
  exact (other_destination_stays_local Sample.accepting Sample.on_disk H1 H2).
Defined.

(** The S3 run of the examples sends a badge and the report. *)
Lemma s3_run_objects :
  uploadDestination Sample.to_s3 = str "s3"
  /\ dirs Sample.one_report !! reportsPath Sample.accepting Sample.to_s3
     = Some [str "lh.report.json"]
  /\ added (uploads (fun req =>
                       badge_sent_to_s3 Sample.accepting Sample.to_s3
                                        Sample.one_report
                                        [str "lh.report.json"] req
                       \/ (uploadReports Sample.to_s3 = str "true"
                           /\ report_sent_to_s3 Sample.accepting Sample.to_s3
                                                Sample.one_report
                                                [str "lh.report.json"] req))
                    (fun _ => False))
           Sample.one_report
           (snd (run Sample.accepting Sample.to_s3 Sample.one_report))
  /\ List.In (ES3Upload
                (s3_request Sample.to_s3 (str "badges/foo.report.json")
                            (utf8 Sample.report_foo_text)
                            (str "application/json")))
             (log (snd (run Sample.accepting Sample.to_s3 Sample.one_report))).
Proof.
  split; [reflexivity|]. split; [reflexivity|]. split.
  - exact (s3_objects Sample.accepting Sample.to_s3 Sample.one_report
             [str "lh.report.json"] eq_refl eq_refl).
  - vm_compute. tauto.
Defined.

(** Without [upload-reports] the S3 run of the examples sends the badge,
    not the report. *)
Lemma badge_goes_alone :
  uploadReports Sample.badges_to_s3 <> str "true"
  /\ dirs Sample.one_report !! reportsPath Sample.accepting Sample.badges_to_s3
     = Some [str "lh.report.json"]
  /\ added (uploads (badge_sent_to_s3 Sample.accepting Sample.badges_to_s3
                                      Sample.one_report [str "lh.report.json"])
                    (badge_sent_to_azure Sample.accepting Sample.badges_to_s3
                                         Sample.one_report
                                         [str "lh.report.json"]))
           Sample.one_report
           (snd (run Sample.accepting Sample.badges_to_s3 Sample.one_report))
  /\ List.filter (fun ev => match ev with
                            | ES3Upload _ | EAzureUpload _ => true
                            | _ => false
                            end)
                 (log (snd (run Sample.accepting Sample.badges_to_s3
                                Sample.one_report)))
     = [ES3Upload
          (s3_request Sample.badges_to_s3 (str "/foo.seo.svg")
                      (utf8 (Sample.render (str "seo") (str "90")
                                           (str "green")))
                      (str "image/svg+xml"))].
Proof.
  assert (uploadReports Sample.badges_to_s3 <> str "true") as H
      by (vm_compute; discriminate).
  split; [exact H|]. split; [reflexivity|]. split; [|reflexivity].
  exact (reports_stay_unless_asked Sample.accepting Sample.badges_to_s3
           Sample.one_report [str "lh.report.json"] H eq_refl).
Defined.

(** The Azure run of the examples sends a badge and the report. *)
Lemma azure_run_blobs :
  uploadDestination Sample.to_azure = str "azure"
  /\ dirs Sample.one_report !! reportsPath Sample.accepting Sample.to_azure
     = Some [str "lh.report.json"]
  /\ added (uploads (fun _ => False)
                    (fun req =>
                       badge_sent_to_azure Sample.accepting Sample.to_azure
                                           Sample.one_report
                                           [str "lh.report.json"] req
                       \/ (uploadReports Sample.to_azure = str "true"
                           /\ report_sent_to_azure Sample.accepting
                                Sample.to_azure Sample.one_report
                                [str "lh.report.json"] req)))
           Sample.one_report
           (snd (run Sample.accepting Sample.to_azure Sample.one_report))
  /\ List.map (fun ev => match ev with
                         | EAzureUpload req => (blobName req, contentLength req)
                         | _ => ([], 0%nat)
                         end)
              (List.filter (fun ev => match ev with
                                      | EAzureUpload _ => true
                                      | _ => false
                                      end)
                           (log (snd (run Sample.accepting Sample.to_azure
                                          Sample.one_report))))
     = [(str "lh.report.json", List.length Sample.report_foo_text);
        (str "lh.seo.svg", 23%nat)].
Proof.
  split; [reflexivity|]. split; [reflexivity|]. split; [|reflexivity].
  exact (azure_blobs Sample.accepting Sample.to_azure Sample.one_report
           [str "lh.report.json"] eq_refl eq_refl).
Defined.


(** The report of the examples gets its two badges, also on their way to
    Azure. *)
Lemma foo_gets_its_badges :
  resultCategories Sample.two_to_azure = [str "performance"; str "seo"]
  /\ uploadDestination Sample.two_to_azure = str "azure"
  /\ exists w',
      for_file Sample.accepting Sample.two_to_azure (str "lh.report.json")
               Sample.one_report = (Ok tt, w')
      /\ forall label,
          List.In label (resultCategories Sample.two_to_azure) ->
          exists score,
            percentage Sample.accepting
              (VObject [(str "performance", Sample.score Sample.half);
                        (str "seo", Sample.score Sample.nine_tenths)])
              label = Ok score
            /\ List.In (EWriteFile
                          (svgFileName_of Sample.accepting Sample.two_to_azure
                                          (str "lh.report.json") label)
                          (badge_of Sample.accepting score label))
                       (log w').
Proof.
  split; [reflexivity|]. split; [reflexivity|].
  assert (forall label,
             List.In label (resultCategories Sample.two_to_azure) ->
             exists score,
               percentage Sample.accepting
                 (VObject [(str "performance", Sample.score Sample.half);
                           (str "seo", Sample.score Sample.nine_tenths)])
                 label = Ok score) as Hall.
  { intros label [<-|[<-|[]]]; eexists; reflexivity. }
  assert (forall label,
             List.In label (resultCategories Sample.two_to_azure) ->
             write_error Sample.accepting Sample.one_report
                         (svgFileName_of Sample.accepting Sample.two_to_azure
                                         (str "lh.report.json") label)
             = None) as Hwrite.
  { intros label [<-|[<-|[]]]; reflexivity. }
  assert (uploadDestination Sample.two_to_azure = str "azure" ->
          forall filePath,
            azure_clients Sample.accepting Sample.two_to_azure filePath)
    as Hclients.
  { intros _ filePath. split; reflexivity. }
  exact (for_file_writes_badges Sample.accepting Sample.two_to_azure
           (str "lh.report.json") Sample.one_report
           (utf8 Sample.report_foo_text) Sample.report_foo
           (VObject [(str "performance", Sample.score Sample.half);
                     (str "seo", Sample.score Sample.nine_tenths)])
           (str "/foo") eq_refl eq_refl eq_refl eq_refl eq_refl Hall Hwrite
           Hclients).
Defined.

(** The labels of the examples: the white space around them is gone. *)
Example labels_of_two_labels :
  core_getInput Sample.two_labels "result-categories"
  = str "performance , seo"
  /\ resultCategories Sample.two_labels = [str "performance"; str "seo"]
  /\ resultCategories Sample.no_categories = [[]].
Proof. repeat split. Qed.

(** The report of the examples has no category [pwa]. *)
Lemma pwa_reads_NaN :
  Get Sample.report_foo (str "categories")
  = Ok (VObject [(str "performance", Sample.score Sample.half);
                 (str "seo", Sample.score Sample.nine_tenths)])
  /\ List.In (str "pwa") (resultCategories Sample.to_s3)
  /\ exists w',
      for_label Sample.accepting Sample.to_s3 (str "lh.report.json")
                (VObject [(str "performance", Sample.score Sample.half);
                          (str "seo", Sample.score Sample.nine_tenths)])
                (str "/foo") (str "pwa") Sample.one_report
      = (Ok tt, w')
      /\ List.In (EWriteFile
                    (svgFileName_of Sample.accepting Sample.to_s3
                                    (str "lh.report.json") (str "pwa"))
                    (badgen Sample.accepting (str "pwa") (str "NaN")
                            (str "red")))
                 (log w')
      /\ files w' !! svgFileName_of Sample.accepting Sample.to_s3
                                    (str "lh.report.json") (str "pwa")
         = Some (utf8 (badgen Sample.accepting (str "pwa") (str "NaN")
                              (str "red"))).
Proof.
  split; [reflexivity|]. split; [vm_compute; tauto|].
  assert (uploadDestination Sample.to_s3 = str "azure" ->
          azure_clients Sample.accepting Sample.to_s3
                        (svgFileName_of Sample.accepting Sample.to_s3
                                        (str "lh.report.json") (str "pwa")))
    as Hclients by (intros H; vm_compute in H; discriminate H).
  exact (absent_label_reads_NaN Sample.accepting Sample.to_s3
           (str "lh.report.json")
           (VObject [(str "performance", Sample.score Sample.half);
                     (str "seo", Sample.score Sample.nine_tenths)])
           (str "/foo") (str "pwa") VUndefined Sample.one_report
           eq_refl eq_refl eq_refl Hclients).
Defined.

(** The badge of [lh.report.json] for [seo] is [lh.seo.svg], on its way
    to Azure too. *)
Lemma lh_seo_svg :
  path_join Sample.accepting (reportsPath Sample.accepting Sample.to_azure)
            (str "lh" ++ str "." ++ str "seo" ++ str ".svg")
  = str "/r/lh.seo.svg"
  /\ svgFileName_of Sample.accepting Sample.to_azure
                    (str "lh" ++ str ".report.json") (str "seo")
     = path_join Sample.accepting (reportsPath Sample.accepting Sample.to_azure)
                 (str "lh" ++ str "." ++ str "seo" ++ str ".svg")
  /\ exists evs,
      for_label Sample.accepting Sample.to_azure
                (str "lh" ++ str ".report.json")
                (VObject [(str "performance", Sample.score Sample.half);
                          (str "seo", Sample.score Sample.nine_tenths)])
                (str "/foo") (str "seo") Sample.one_report
      = (Ok tt,
         logged evs
                (written Sample.accepting
                         (path_join Sample.accepting
                                    (reportsPath Sample.accepting
                                                 Sample.to_azure)
                                    (str "lh" ++ str "." ++ str "seo"
                                         ++ str ".svg"))
                         (badge_of Sample.accepting (IInt 90) (str "seo"))
                         Sample.one_report))
      /\ Forall (writes (fun _ _ => False)) evs.
Proof.
  assert (~ List.In (ch "$") (str "seo")) as Hlabel
      by (vm_compute; intuition discriminate).
  assert (uploadDestination Sample.to_azure = str "azure" ->
          azure_clients Sample.accepting Sample.to_azure
            (path_join Sample.accepting
                       (reportsPath Sample.accepting Sample.to_azure)
                       (str "lh" ++ str "." ++ str "seo" ++ str ".svg")))
    as Hclients by (intros _; split; reflexivity).
  split; [reflexivity|].
  exact (badge_beside_report Sample.accepting Sample.to_azure
           (str "lh") (str "seo")
           (VObject [(str "performance", Sample.score Sample.half);
                     (str "seo", Sample.score Sample.nine_tenths)])
           (str "/foo") (IInt 90) Sample.one_report
           eq_refl Hlabel eq_refl eq_refl Hclients).
Defined.
